(** * Lookout mobile scanner: synchronisation, store and analyzer

    A shallow embedding of the Go sources of the scanner
    (internal/api, internal/device, internal/analyzer and the main
    package) together with the properties stated about them.

    Conventions of the embedding:
    - Go [string] is [string] (a sequence of bytes, compared bytewise);
    - Go [int] and [time.Duration] are [Z]; a [time.Time] is the number of
      nanoseconds since the Unix epoch, and every function that reads the
      wall clock takes the reading as an argument [now] or from the world;
    - [float64] is the kernel's binary64 [float];
    - a function that can panic or fail returns a sum or an option;
    - the network, the context and the key-value file are explicit state. *)

From Stdlib Require Import ZArith List String Ascii Bool Lia Floats Uint63 DecimalString.
From Stdlib Require Import Sorting.Sorted Sorting.Permutation OrderedTypeEx.
Import ListNotations.
Local Open Scope string_scope.
Local Open Scope Z_scope.

(** ** Go strings and strconv *)

Module GoStrings.

(** [len(s)] *)
Definition len (s : string) : Z := Z.of_nat (String.length s).

(** The value of a decimal digit byte. *)
Definition digit (c : ascii) : option Z :=
  let n := Z.of_N (N_of_ascii c) in
  if (48 <=? n) && (n <=? 57) then Some (n - 48) else None.

Definition isDigit (c : ascii) : bool :=
  match digit c with Some _ => true | None => false end.

(** The decimal value of a run of digits read left to right, starting from
    [acc]; [None] as soon as a byte is not a digit. *)
Fixpoint digits (acc : Z) (s : string) : option Z :=
  match s with
  | EmptyString => Some acc
  | String c r =>
      match digit c with
      | Some d => digits (acc * 10 + d) r
      | None => None
      end
  end.

Definition minInt : Z := - 2 ^ 63.
Definition maxInt : Z := 2 ^ 63 - 1.

(** [strconv.Atoi]: an optional sign, then at least one decimal digit and
    nothing else; a value outside the 64-bit [int] is a range error. *)
Definition Atoi (s : string) : option Z :=
  match s with
  | EmptyString => None
  | String c r =>
      let neg := Ascii.eqb c "-" in
      let body := if neg || Ascii.eqb c "+" then r else s in
      match body with
      | EmptyString => None
      | _ =>
          match digits 0 body with
          | None => None
          | Some n =>
              let v := if neg then - n else n in
              if (minInt <=? v) && (v <=? maxInt) then Some v else None
          end
      end
  end.

(** [strconv.ParseUint(s, 10, 64)] from the value [n] read so far: the
    digits are read left to right; a byte that is no digit is a syntax
    error, [None]; as soon as the value leaves 64 bits the reading stops
    with a range error, whose value is the largest [uint64]. *)
Fixpoint parseUint (n : Z) (s : string) : option Z :=
  match s with
  | EmptyString => Some n
  | String c r =>
      match digit c with
      | None => None
      | Some d =>
          if (2 ^ 64 - 1) / 10 + 1 <=? n then Some (2 ^ 64 - 1)
          else if 2 ^ 64 - 1 <? n * 10 + d then Some (2 ^ 64 - 1)
          else parseUint (n * 10 + d) r
      end
  end.

(** The integer [strconv.Atoi] returns beside its error, which a caller
    that drops the error goes on with: the value when there is no error,
    0 on a syntax error, and the nearest bound of the 64-bit [int] on a
    range error. *)
Definition AtoiValue (s : string) : Z :=
  match s with
  | EmptyString => 0
  | String c r =>
      let neg := Ascii.eqb c "-" in
      let body := if neg || Ascii.eqb c "+" then r else s in
      match body with
      | EmptyString => 0
      | _ =>
          match parseUint 0 body with
          | None => 0
          | Some un =>
              if neg then (if 2 ^ 63 <? un then minInt else - un)
              else (if 2 ^ 63 <=? un then maxInt else un)
          end
      end
  end.

(** [strings.Split(s, sep)] for a one-byte separator: the pieces between
    the separators, never an empty list. *)
Fixpoint Split (s : string) (sep : ascii) : list string :=
  match s with
  | EmptyString => [EmptyString]
  | String c r =>
      if Ascii.eqb c sep then EmptyString :: Split r sep
      else match Split r sep with
           | h :: t => String c h :: t
           | [] => [String c EmptyString]
           end
  end.

(** Element 0 of a split, which always exists. *)
Definition first (l : list string) : string := hd EmptyString l.

(** [strings.Contains(s, sub)] *)
Definition Contains (s sub : string) : bool :=
  match String.index 0 sub s with Some _ => true | None => false end.

(** The slice [s[:n]]; [None] is the run-time panic "slice bounds out of
    range" raised when [n > len(s)]. *)
Definition sliceTo (s : string) (n : nat) : option string :=
  if (n <=? String.length s)%nat then Some (String.substring 0 n s) else None.

(** The slice [s[:n]] when it is in range, as [s[0:2]] behind a length
    guard. *)
Definition prefix (s : string) (n : nat) : string := String.substring 0 n s.

(** Bytewise comparison of strings, Go's [<] and [>]. *)
Definition lt (a b : string) : bool := String.ltb a b.
Definition gt (a b : string) : bool := String.ltb b a.

(** [%d] of fmt. *)
Definition itoa (n : Z) : string := NilZero.string_of_int (Z.to_int n).

(** Go's [int] is 64 bits wide: the value of an [int] expression whose
    mathematical value is [n]. *)
Definition wrapInt (n : Z) : Z := (n + 2 ^ 63) mod 2 ^ 64 - 2 ^ 63.

End GoStrings.

(** ** Go time: calendar dates, durations and their float views *)

Module GoTime.

Definition Nanosecond : Z := 1.
Definition Second : Z := 1000000000.
Definition Hour : Z := 3600 * Second.

Definition minDuration : Z := - 2 ^ 63.
Definition maxDuration : Z := 2 ^ 63 - 1.

Definition isLeap (year : Z) : bool :=
  (year mod 4 =? 0) && (negb (year mod 100 =? 0) || (year mod 400 =? 0)).

Definition daysIn (month year : Z) : Z :=
  if month =? 2 then (if isLeap year then 29 else 28)
  else if (month =? 4) || (month =? 6) || (month =? 9) || (month =? 11)
       then 30 else 31.

(** Days from 1970-01-01 to the civil date [year-month-day] in the
    proleptic Gregorian calendar. *)
Definition daysFromCivil (year month day : Z) : Z :=
  let y := if month <=? 2 then year - 1 else year in
  let era := y / 400 in
  let yoe := y - era * 400 in
  let mp := if 2 <? month then month - 3 else month + 9 in
  let doy := (153 * mp + 2) / 5 + day - 1 in
  let doe := yoe * 365 + yoe / 4 - yoe / 100 + doy in
  era * 146097 + doe - 719468.

(** [time.Date(year, month, day, 0, 0, 0, 0, time.UTC)] as an instant:
    a month outside 1..12 carries into the year, a day outside the month
    carries into the following months. *)
Definition Date (year month day : Z) : Z :=
  let m := month - 1 in
  daysFromCivil (year + m / 12) (m mod 12 + 1) day * 24 * Hour.

(** The civil date (year, month, day) of an instant, in UTC. *)
Definition civil (t : Z) : Z * Z * Z :=
  let z := t / (24 * Hour) + 719468 in
  let era := z / 146097 in
  let doe := z - era * 146097 in
  let yoe := (doe - doe / 1460 + doe / 36524 - doe / 146096) / 365 in
  let doy := doe - (365 * yoe + yoe / 4 - yoe / 100) in
  let mp := (5 * doy + 2) / 153 in
  let d := doy - (153 * mp + 2) / 5 + 1 in
  let m := if mp <? 10 then mp + 3 else mp - 9 in
  (yoe + era * 400 + (if m <=? 2 then 1 else 0), m, d).

(** [t.AddDate(0, 1, 0)] of an instant at midnight UTC. *)
Definition AddMonth (t : Z) : Z :=
  let '(y, m, d) := civil t in Date y (m + 1) d.

(** A number in decimal, padded with zeros to [width] digits. *)
Definition pad (width : nat) (n : Z) : string :=
  let s := GoStrings.itoa n in
  String.concat "" (repeat "0" (width - String.length s)) ++ s.

(** [t.Format("2006-01")] and [t.Format("2006-01-02")] in UTC. *)
Definition FormatMonth (t : Z) : string :=
  let '(y, m, _) := civil t in pad 4 y ++ "-" ++ pad 2 m.
Definition FormatDate (t : Z) : string :=
  let '(y, m, d) := civil t in pad 4 y ++ "-" ++ pad 2 m ++ "-" ++ pad 2 d.

(** [getnum(value, true)]: exactly two digits. *)
Definition getnum2 (s : string) : option (Z * string) :=
  match s with
  | String a (String b r) =>
      match GoStrings.digit a, GoStrings.digit b with
      | Some x, Some y => Some (x * 10 + y, r)
      | _, _ => None
      end
  | _ => None
  end.

(** The literal [-] of the layout. *)
Definition skipDash (s : string) : option string :=
  match s with
  | String c r => if Ascii.eqb c "-" then Some r else None
  | EmptyString => None
  end.

(** [time.Parse("2006-01-02", value)]: four digits of year, two of month,
    two of day, separated by [-], no text after them, the month in 1..12
    and the day within the month. *)
Definition ParseDate (value : string) : option Z :=
  match value with
  | String a (String b (String c (String d r))) =>
      match GoStrings.digits 0 (String a (String b (String c (String d EmptyString)))) with
      | None => None
      | Some year =>
          match skipDash r with
          | None => None
          | Some r1 =>
              match getnum2 r1 with
              | None => None
              | Some (month, r2) =>
                  if (month <=? 0) || (12 <? month) then None
                  else
                    match skipDash r2 with
                    | None => None
                    | Some r3 =>
                        match getnum2 r3 with
                        | None => None
                        | Some (day, r4) =>
                            match r4 with
                            | EmptyString =>
                                if (day <? 1) || (daysIn month year <? day) then None
                                else Some (Date year month day)
                            | _ => None
                            end
                        end
                    end
              end
          end
      end
  | _ => None
  end.

(** [t.Sub(u)]: the difference, saturated to the range of a Duration. *)
Definition Sub (t u : Z) : Z :=
  Z.max minDuration (Z.min maxDuration (t - u)).

(** [time.Since(t)] with the clock reading [now]. *)
Definition Since (now t : Z) : Z := Sub now t.

(** [float64(n)] for a 64-bit integer.  The magnitude is converted as a
    63-bit unsigned integer; that of [-2^63] does not fit, and the float
    of this integer is the exact double of the float of [-2^62]. *)
Definition toFloat (n : Z) : float :=
  if n =? - 2 ^ 63 then
    PrimFloat.mul (PrimFloat.opp (PrimFloat.of_uint63 (Uint63.of_Z (2 ^ 62))))
      (PrimFloat.of_uint63 (Uint63.of_Z 2))
  else if n <? 0 then PrimFloat.opp (PrimFloat.of_uint63 (Uint63.of_Z (- n)))
  else PrimFloat.of_uint63 (Uint63.of_Z n).

(** [int(f)]: truncation toward zero of a finite float. *)
Definition toInt (f : float) : Z :=
  match Prim2SF f with
  | S754_finite s m e =>
      let a := if 0 <=? e then Z.shiftl (Zpos m) e else Z.shiftr (Zpos m) (- e) in
      if s then - a else a
  | _ => 0
  end.

(** [d.Hours()]: the whole hours plus the remaining nanoseconds over
    3.6e12, added in [float64]. *)
Definition Hours (d : Z) : float :=
  let hour := Z.quot d Hour in
  let nsec := Z.rem d Hour in
  PrimFloat.add (toFloat hour) (PrimFloat.div (toFloat nsec) (toFloat (60 * 60 * 1000000000))).

(** [int(d.Hours() / 24 / 30)]: the months of thirty days in [d], the
    divisions in [float64]. *)
Definition months30 (d : Z) : Z :=
  toInt (PrimFloat.div (PrimFloat.div (Hours d) (toFloat 24)) (toFloat 30)).

End GoTime.


(** ** pkg/errors, and the outcomes of calls *)

Module Errors.

(** The error values the program builds.  [Errorf] is [fmt.Errorf] with a
    [%s] or [%d] argument, [Wrapf] is [fmt.Errorf] with [%w]. *)
Inductive error : Type :=
| CtxErr                                   (* ctx.Err() *)
| TransportErr (msg : string)              (* an error of http.Client.Do *)
| RequestErr (msg : string)                (* an error of http.NewRequest *)
| JSONErr                                  (* an error of encoding/json *)
| APIError (StatusCode : Z) (Message : string) (Details : option (Z * string))
| ValidationError (Field Value Message : string)
| Errorf (format arg : string)
| Wrapf (format : string) (cause : error)
| WrapRetries (maxRetries : Z) (cause : error).

Definition NewAPIError (statusCode : Z) (message : string)
           (details : option (Z * string)) : error :=
  APIError statusCode message details.

Definition NewValidationError (field value message : string) : error :=
  ValidationError field value message.

(** What a call yields: a value, an error, or a run-time panic. *)
Inductive result (A : Type) : Type :=
| Ok (a : A)
| Err (e : error)
| Panic.
Arguments Ok {A} a.
Arguments Err {A} e.
Arguments Panic {A}.

End Errors.
Import Errors.

(** ** The world outside the program *)

Module World.

Record Request : Type := {
  Method : string;
  URL : string;
  Authorization : string;
  Accept : string;
  ContentType : option string
}.

Record Response : Type := {
  StatusCode : Z;
  Body : string
}.

(** What the program does to the outside, in order of occurrence. *)
Inductive Event : Type :=
| Sent (r : Request)
| Slept (d : Z).

(** The state the program runs in: what it did so far, the wall clock,
    how often the context was polled, and the key-value file (its items
    in key order). *)
Record World : Type := {
  log : list Event;
  clock : Z;
  polls : nat;
  db : list (string * string)
}.

Definition withLog (w : World) (l : list Event) : World :=
  {| log := l; clock := clock w; polls := polls w; db := db w |}.
Definition withClock (w : World) (t : Z) : World :=
  {| log := log w; clock := t; polls := polls w; db := db w |}.
Definition withPolls (w : World) (n : nat) : World :=
  {| log := log w; clock := clock w; polls := n; db := db w |}.
Definition withDb (w : World) (d : list (string * string)) : World :=
  {| log := log w; clock := clock w; polls := polls w; db := d |}.

Definition isSent (e : Event) : bool :=
  match e with Sent _ => true | Slept _ => false end.

(** The number of requests sent so far. *)
Definition sentCount (l : list Event) : nat := List.length (filter isSent l).

(** The context: whether it is cancelled, at each poll. *)
Definition Ctx : Type := nat -> bool.

(** [select { case <-ctx.Done(): ... default: ... }] *)
Definition poll (ctx : Ctx) (w : World) : bool * World :=
  (ctx (polls w), withPolls w (S (polls w))).

(** [time.Sleep(d)]: the call is logged with its argument; a zero or
    negative duration returns at once and leaves the clock where it was. *)
Definition sleep (d : Z) (w : World) : World :=
  withClock (withLog w (log w ++ [Slept d])) (clock w + Z.max 0 d).

(** The network: what [http.Client.Do] yields for the [n]-th request of
    the run, an error or a response. *)
Definition Transport : Type := nat -> Request -> string + Response.

(** [c.httpClient.Do(req)] *)
Definition send (net : Transport) (req : Request) (w : World)
  : (string + Response) * World :=
  (net (sentCount (log w)) req, withLog w (log w ++ [Sent req])).

End World.
Import World.

(** ** github.com/tidwall/buntdb: the items of the file, in key order *)

Module BuntDB.

Definition DB : Type := list (string * string).

(** [tx.Get(key)]; [None] is [ErrNotFound]. *)
Fixpoint Get (key : string) (d : DB) : option string :=
  match d with
  | [] => None
  | (k, v) :: r => if String.eqb key k then Some v else Get key r
  end.

(** [tx.Set(key, value, nil)]: replaces the item of that key, or inserts
    a new item at its place in the order. *)
Fixpoint Set_ (key value : string) (d : DB) : DB :=
  match d with
  | [] => [(key, value)]
  | (k, v) :: r =>
      if String.eqb key k then (key, value) :: r
      else if String.ltb key k then (key, value) :: (k, v) :: r
      else (k, v) :: Set_ key value r
  end.

(** [tx.Delete(key)]; [None] is [ErrNotFound]. *)
Fixpoint Delete (key : string) (d : DB) : option DB :=
  match d with
  | [] => None
  | (k, v) :: r =>
      if String.eqb key k then Some r
      else match Delete key r with
           | Some r' => Some ((k, v) :: r')
           | None => None
           end
  end.

(** [tx.Ascend("", iterator)]: the iterator sees the items in key order
    until it returns false. *)
Fixpoint Ascend {A : Type} (iterator : string -> string -> A -> bool * A)
         (d : DB) (acc : A) : A :=
  match d with
  | [] => acc
  | (k, v) :: r =>
      let (continue, acc') := iterator k v acc in
      if continue then Ascend iterator r acc' else acc'
  end.

Definition keys (d : DB) : list string := map fst d.

(** The items of a file are in strictly increasing key order. *)
Definition ordered (d : DB) : Prop :=
  StronglySorted (fun a b => String.ltb a b = true) (keys d).

End BuntDB.

(** ** internal/config *)

Module Config.

Record APIConfig : Type := {
  BaseURL : string;
  ApplicationKey : string;
  Timeout : Z;
  MaxRetries : Z;
  RetryDelay : Z
}.

Record DatabaseConfig : Type := {
  Path : string;
  MaxConnections : Z
}.

Record AppConfig : Type := {
  Environment : string;
  LogLevel : string;
  WorkerCount : Z;
  BatchSize : Z;
  ShutdownTimeout : Z
}.

Record Config : Type := {
  API : APIConfig;
  Database : DatabaseConfig;
  App : AppConfig
}.

(** The environment of the process: [os.LookupEnv]. *)
Definition Env : Type := string -> option string.

Definition getEnv (env : Env) (key defaultValue : string) : string :=
  match env key with
  | Some value => value
  | None => defaultValue
  end.

Definition getIntEnv (env : Env) (key : string) (defaultValue : Z) : Z :=
  let valueStr := getEnv env key "" in
  if String.eqb valueStr "" then defaultValue
  else match GoStrings.Atoi valueStr with
       | Some value => value
       | None => defaultValue
       end.

Definition isValidEnvironment (env : string) : bool :=
  String.eqb env "development" || String.eqb env "testing"
  || String.eqb env "staging" || String.eqb env "production".

Definition isValidLogLevel (level : string) : bool :=
  String.eqb level "debug" || String.eqb level "info" || String.eqb level "warn"
  || String.eqb level "error" || String.eqb level "fatal".

(** [Config.validate], with [os.Args] as [args]. *)
Definition validate (args : list string) (c : Config) : option error :=
  let isLocalMode :=
    (1 <? Z.of_nat (List.length args)) && String.eqb (nth 1 args "") "--local" in
  if negb isLocalMode && String.eqb (ApplicationKey (API c)) "" then
    Some (Errorf "APPLICATION_KEY is required when not in local mode" "")
  else if Timeout (API c) <? 1 * GoTime.Second then
    Some (Errorf "API_TIMEOUT must be at least 1 second" "")
  else if MaxRetries (API c) <? 0 then
    Some (Errorf "API_MAX_RETRIES must be non-negative" "")
  else if RetryDelay (API c) <? 1 * GoTime.Second then
    Some (Errorf "API_RETRY_DELAY must be at least 1 second" "")
  else if String.eqb (Path (Database c)) "" then
    Some (Errorf "DB_PATH is required" "")
  else if MaxConnections (Database c) <? 1 then
    Some (Errorf "DB_MAX_CONNECTIONS must be at least 1" "")
  else if negb (isValidEnvironment (Environment (App c))) then
    Some (Errorf "invalid APP_ENV: %s" (Environment (App c)))
  else if negb (isValidLogLevel (LogLevel (App c))) then
    Some (Errorf "invalid LOG_LEVEL: %s" (LogLevel (App c)))
  else if WorkerCount (App c) <? 1 then
    Some (Errorf "WORKER_COUNT must be at least 1" "")
  else if BatchSize (App c) <? 1 then
    Some (Errorf "BATCH_SIZE must be at least 1" "")
  else if ShutdownTimeout (App c) <? 1 * GoTime.Second then
    Some (Errorf "SHUTDOWN_TIMEOUT must be at least 1 second" "")
  else None.

Section Load.

(** [time.ParseDuration] of the standard library. *)
Variable ParseDuration : string -> option Z.

Definition getDurationEnv (env : Env) (key : string) (defaultValue : Z) : Z :=
  let valueStr := getEnv env key "" in
  if String.eqb valueStr "" then defaultValue
  else match ParseDuration valueStr with
       | Some value => value
       | None => defaultValue
       end.

(** [Load].  [dotenv] is what [godotenv.Load()] returned, an error with
    whether [os.IsNotExist] holds of it, and [env] the environment after
    that call; the default path is the one [filepath.Join] builds with
    the separator [/]. *)
Definition Load (dotenv : option (error * bool)) (env : Env) (args : list string)
  : result Config :=
  match dotenv with
  | Some (err, false) => Err (Wrapf "loading .env file" err)
  | _ =>
      let cfg :=
        {| API := {| BaseURL := getEnv env "API_BASE_URL" "https://api.lookout.com";
                     ApplicationKey := getEnv env "APPLICATION_KEY" "";
                     Timeout := getDurationEnv env "API_TIMEOUT" (30 * GoTime.Second);
                     MaxRetries := getIntEnv env "API_MAX_RETRIES" 3;
                     RetryDelay :=
                       getDurationEnv env "API_RETRY_DELAY" (5 * GoTime.Second) |};
           Database := {| Path := getEnv env "DB_PATH" "data/devices.db";
                          MaxConnections := getIntEnv env "DB_MAX_CONNECTIONS" 10 |};
           App := {| Environment := getEnv env "APP_ENV" "development";
                     LogLevel := getEnv env "LOG_LEVEL" "info";
                     WorkerCount := getIntEnv env "WORKER_COUNT" 5;
                     BatchSize := getIntEnv env "BATCH_SIZE" 1000;
                     ShutdownTimeout :=
                       getDurationEnv env "SHUTDOWN_TIMEOUT" (30 * GoTime.Second) |} |} in
      match validate args cfg with
      | Some err => Err (Wrapf "validating configuration" err)
      | None => Ok cfg
      end
  end.

End Load.

End Config.

(** ** internal/api: the wire types and the client *)

Module Api.

Record TokenResponse : Type := {
  AccessToken : string;
  TokenType : string;
  ExpiresAt : Z;
  ExpiresIn : Z;
  Scope : string
}.

Record Software : Type := {
  SecurityPatchLevel : string;
  OSVersion : string
}.

Record Device : Type := {
  GUID : string;
  OID : string;
  ParentDeviceGUID : string;
  ActivationStatus : string;
  Platform : string;
  Software_ : Software
}.

Record DevicesResponse : Type := {
  Count : Z;
  Devices : list Device
}.

Record Vulnerability : Type := {
  Name : string;
  Description : string;
  Severity : string;
  PublishedAt : Z;
  CVE : string;
  CVSS : float
}.

Record VulnerabilitiesResponse : Type := {
  VulnCount : Z;
  Vulnerabilities : list Vulnerability
}.

(** What the client's collaborators do: the HTTP transport,
    [http.NewRequestWithContext] (an error for a method or URL it
    refuses), and the three JSON decoders. *)
Record Net : Type := {
  transport : Transport;
  newRequestErr : string -> string -> option string;
  decodeToken : string -> option TokenResponse;
  decodeDevices : string -> option DevicesResponse;
  decodeVulnerabilities : string -> option VulnerabilitiesResponse
}.

Record Client : Type := {
  baseURL : string;
  applicationKey : string;
  accessToken : string;
  tokenExpiry : Z;
  maxRetries : Z;
  retryDelay : Z
}.

Definition withToken (c : Client) (token : string) (expiry : Z) : Client :=
  {| baseURL := baseURL c; applicationKey := applicationKey c;
     accessToken := token; tokenExpiry := expiry;
     maxRetries := maxRetries c; retryDelay := retryDelay c |}.

(** [NewClient]: no token yet, and the zero time as its expiry. *)
Definition NewClient (cfg : Config.APIConfig) : Client :=
  {| baseURL := Config.BaseURL cfg;
     applicationKey := Config.ApplicationKey cfg;
     accessToken := "";
     tokenExpiry := GoTime.Date 1 1 1;
     maxRetries := Config.MaxRetries cfg;
     retryDelay := Config.RetryDelay cfg |}.

Section Client.

Variable ctx : Ctx.
Variable net : Net.

(** The request [doRequest] builds at each attempt. *)
Definition apiRequest (c : Client) (method url : string)
           (body : option string) : Request :=
  {| Method := method;
     URL := url;
     Authorization := "Bearer " ++ accessToken c;
     Accept := "application/json";
     ContentType := match body with
                    | Some _ => Some "application/json"
                    | None => None
                    end |}.

(** The loop of [doRequest], from [attempt] on, with [n] turns left:
    [n] is [maxRetries + 1 - attempt], so that [0] is the loop
    condition [attempt <= c.maxRetries] being false.  [Ok None] is the
    pair [(nil, nil)] returned after the loop. *)
Fixpoint attempts (n : nat) (attempt : Z) (c : Client)
         (method url : string) (body : option string) (w : World)
  : result (option Response) * World :=
  match n with
  | O => (Ok None, w)
  | S n' =>
      let (done, w0) := poll ctx w in
      if done then (Err CtxErr, w0)
      else
        let w1 := if 0 <? attempt then sleep (retryDelay c) w0 else w0 in
        match newRequestErr net method url with
        | Some e => (Err (Wrapf "creating request" (RequestErr e)), w1)
        | None =>
            let (out, w2) := send (transport net) (apiRequest c method url body) w1 in
            match out with
            | inl e =>
                if attempt =? maxRetries c
                then (Err (WrapRetries (maxRetries c) (TransportErr e)), w2)
                else attempts n' (attempt + 1) c method url body w2
            | inr resp =>
                if StatusCode resp =? 429 then
                  if attempt =? maxRetries c
                  then (Err (NewAPIError (StatusCode resp) "rate limit exceeded" None), w2)
                  else attempts n' (attempt + 1) c method url body w2
                else if 400 <=? StatusCode resp then
                  (Err (NewAPIError (StatusCode resp)
                          ("API request failed: " ++ Body resp)
                          (Some (StatusCode resp, Body resp))), w2)
                else (Ok (Some resp), w2)
            end
        end
  end.

(** [ensureValidToken]: [None] is the nil error. *)
Definition ensureValidToken (c : Client) (w : World)
  : option error * Client * World :=
  if negb (String.eqb (accessToken c) "") && (clock w <? tokenExpiry c)
  then (None, c, w)
  else
    let url := baseURL c ++ "/oauth2/token" in
    match newRequestErr net "POST" url with
    | Some e => (Some (Wrapf "creating token request" (RequestErr e)), c, w)
    | None =>
        let req := {| Method := "POST";
                      URL := url;
                      Authorization := "Bearer " ++ applicationKey c;
                      Accept := "application/json";
                      ContentType := Some "application/x-www-form-urlencoded" |} in
        let (out, w1) := send (transport net) req w in
        match out with
        | inl e => (Some (Wrapf "requesting token" (TransportErr e)), c, w1)
        | inr resp =>
            if negb (StatusCode resp =? 200)
            then (Some (NewAPIError (StatusCode resp)
                          ("token request failed: " ++ Body resp) None), c, w1)
            else
              match decodeToken net (Body resp) with
              | None => (Some (Wrapf "decoding token response" JSONErr), c, w1)
              | Some tokenResp =>
                  (None,
                   withToken c (AccessToken tokenResp)
                     (clock w1 + GoStrings.wrapInt (ExpiresIn tokenResp * GoTime.Second)),
                   w1)
              end
        end
    end.

(** [doRequest] *)
Definition doRequest (method path : string) (body : option string)
           (c : Client) (w : World)
  : result (option Response) * Client * World :=
  let url := baseURL c ++ path in
  let '(terr, c1, w1) := ensureValidToken c w in
  match terr with
  | Some e => (Err (Wrapf "ensuring valid token" e), c1, w1)
  | None =>
      let (r, w2) :=
        attempts (Z.to_nat (maxRetries c1 + 1)) 0 c1 method url body w1 in
      (r, c1, w2)
  end.

(** [GetDevices]; a nil response with a nil error makes the deferred
    [resp.Body.Close()] panic. *)
Definition GetDevices (lastOID : string) (limit : Z) (c : Client) (w : World)
  : result DevicesResponse * Client * World :=
  let url := "/mra/api/v2/devices?limit=" ++ GoStrings.itoa limit in
  let url := if String.eqb lastOID "" then url else url ++ "&oid=" ++ lastOID in
  let '(r, c1, w1) := doRequest "GET" url None c w in
  match r with
  | Err e => (Err (Wrapf "getting devices" e), c1, w1)
  | Panic => (Panic, c1, w1)
  | Ok None => (Panic, c1, w1)
  | Ok (Some resp) =>
      match decodeDevices net (Body resp) with
      | None => (Err (Wrapf "decoding devices response" JSONErr), c1, w1)
      | Some devicesResp => (Ok devicesResp, c1, w1)
      end
  end.

(** [GetVulnerabilities] *)
Definition GetVulnerabilities (platform version : string) (c : Client) (w : World)
  : result VulnerabilitiesResponse * Client * World :=
  if String.eqb version "" then
    (Err (NewValidationError "version" version "version is required"), c, w)
  else
    let url :=
      if String.eqb platform "ANDROID" then
        if negb (GoStrings.Contains version "-") then
          inl (NewValidationError "version" version "invalid security patch level format")
        else inr ("/mra/api/v2/os-vulns/android?aspl=" ++ version)
      else if String.eqb platform "IOS" then
        inr ("/mra/api/v2/os-vulns/ios?version=" ++ version)
      else inl (NewValidationError "platform" platform "invalid platform") in
    match url with
    | inl e => (Err e, c, w)
    | inr url =>
        let '(r, c1, w1) := doRequest "GET" url None c w in
        match r with
        | Err e => (Err (Wrapf "getting vulnerabilities" e), c1, w1)
        | Panic => (Panic, c1, w1)
        | Ok None => (Panic, c1, w1)
        | Ok (Some resp) =>
            match decodeVulnerabilities net (Body resp) with
            | None => (Err (Wrapf "decoding vulnerabilities response" JSONErr), c1, w1)
            | Some vulnsResp => (Ok vulnsResp, c1, w1)
            end
        end
    end.

End Client.

End Api.

(** ** internal/device: the repository and the service *)

Module Device.

Record Software : Type := {
  SecurityPatchLevel : string;
  OSVersion : string
}.

Record Device : Type := {
  GUID : string;
  OID : string;
  ParentDeviceGUID : string;
  ActivationStatus : string;
  Platform : string;
  Software_ : Software;
  ChildCount : Z;
  LastUpdated : Z
}.

Definition withLastUpdated (d : Device) (t : Z) : Device :=
  {| GUID := GUID d; OID := OID d; ParentDeviceGUID := ParentDeviceGUID d;
     ActivationStatus := ActivationStatus d; Platform := Platform d;
     Software_ := Software_ d; ChildCount := ChildCount d; LastUpdated := t |}.

Definition withChildCount (d : Device) (n : Z) : Device :=
  {| GUID := GUID d; OID := OID d; ParentDeviceGUID := ParentDeviceGUID d;
     ActivationStatus := ActivationStatus d; Platform := Platform d;
     Software_ := Software_ d; ChildCount := n; LastUpdated := LastUpdated d |}.

Record Statistics : Type := {
  TotalDevices : Z;
  ActiveDevices : Z;
  AndroidDevices : Z;
  IOSDevices : Z;
  ParentDevices : Z;
  ChildDevices : Z;
  StatsLastUpdated : Z;
  VulnerableDevices : Z
}.

(** [encoding/json] on the Device record: [json.Marshal] and
    [json.Unmarshal] into a fresh Device; [None] is an error. *)
Record Codec : Type := {
  marshal : Device -> option string;
  unmarshal : string -> option Device
}.

Section Repository.

Variable ctx : Ctx.
Variable json : Codec.

(** [Store.Save]: [None] is the nil error.  The record written is the
    caller's with [LastUpdated] set to the clock. *)
Definition Save (device : Device) (w : World) : option error * World :=
  let (done, w0) := poll ctx w in
  if done then (Some CtxErr, w0)
  else
    let device := withLastUpdated device (clock w0) in
    match marshal json device with
    | None => (Some (Wrapf "marshaling device" JSONErr), w0)
    | Some data => (None, withDb w0 (BuntDB.Set_ (GUID device) data (db w0)))
    end.

(** [Store.Get]: an error or the device. *)
Definition Get (guid : string) (w : World) : (error + Device) * World :=
  let (done, w0) := poll ctx w in
  if done then (inl CtxErr, w0)
  else
    match BuntDB.Get guid (db w0) with
    | None => (inl (Errorf "device not found: %s" guid), w0)
    | Some val =>
        match unmarshal json val with
        | None => (inl JSONErr, w0)
        | Some device => (inr device, w0)
        end
    end.

(** The iterator shared by the three scans: it stops at the first value
    that does not decode, and appends the device when [keep] holds. *)
Definition scan (keep : Device -> bool) (key value : string)
           (devices : list Device) : bool * list Device :=
  match unmarshal json value with
  | None => (false, devices)
  | Some device =>
      (true, if keep device then app devices [device] else devices)
  end.

(** [Store.List] *)
Definition List_ (w : World) : result (list Device) * World :=
  let (done, w0) := poll ctx w in
  if done then (Err CtxErr, w0)
  else (Ok (BuntDB.Ascend (scan (fun _ => true)) (db w0) []), w0).

(** [Store.Update] *)
Definition Update (device : Device) (w : World) : option error * World :=
  let (done, w0) := poll ctx w in
  if done then (Some CtxErr, w0)
  else
    let device := withLastUpdated device (clock w0) in
    match marshal json device with
    | None => (Some (Wrapf "marshaling device" JSONErr), w0)
    | Some data =>
        match BuntDB.Get (GUID device) (db w0) with
        | None => (Some (Errorf "device not found: %s" (GUID device)), w0)
        | Some _ => (None, withDb w0 (BuntDB.Set_ (GUID device) data (db w0)))
        end
    end.

(** [Store.Delete] *)
Definition Delete (guid : string) (w : World) : option error * World :=
  let (done, w0) := poll ctx w in
  if done then (Some CtxErr, w0)
  else
    match BuntDB.Delete guid (db w0) with
    | None => (Some (Errorf "device not found: %s" guid), w0)
    | Some d => (None, withDb w0 d)
    end.

(** [Store.GetByPlatform] *)
Definition GetByPlatform (platform : string) (w : World)
  : result (list Device) * World :=
  let (done, w0) := poll ctx w in
  if done then (Err CtxErr, w0)
  else
    (Ok (BuntDB.Ascend (scan (fun device => String.eqb (Platform device) platform))
           (db w0) []), w0).

(** [Store.GetActiveDevices] *)
Definition GetActiveDevices (w : World) : result (list Device) * World :=
  let (done, w0) := poll ctx w in
  if done then (Err CtxErr, w0)
  else
    (Ok (BuntDB.Ascend
           (scan (fun device => String.eqb (ActivationStatus device) "ACTIVATED"))
           (db w0) []), w0).

(** *** The service *)

Definition validStatuses (status : string) : bool :=
  String.eqb status "ACTIVATED" || String.eqb status "DEACTIVATED"
  || String.eqb status "PENDING".

(** [validateDevice] on a non-nil device. *)
Definition validateDevice (device : Device) : option error :=
  if String.eqb (GUID device) "" then Some (Errorf "device GUID is required" "")
  else if negb (String.eqb (Platform device) "ANDROID")
          && negb (String.eqb (Platform device) "IOS")
  then Some (Errorf "invalid platform: %s" (Platform device))
  else if negb (validStatuses (ActivationStatus device))
  then Some (Errorf "invalid activation status: %s" (ActivationStatus device))
  else None.

(** [DeviceService.CreateDevice] *)
Definition CreateDevice (device : Device) (w : World) : option error * World :=
  match validateDevice device with
  | Some e => (Some (Wrapf "validating device" e), w)
  | None =>
      let (e, w1) := Save device w in
      match e with
      | Some e => (Some (Wrapf "saving device" e), w1)
      | None =>
          if negb (String.eqb (ParentDeviceGUID device) "") then
            let (r, w2) := Get (ParentDeviceGUID device) w1 in
            match r with
            | inr parent =>
                let parent :=
                  withChildCount parent (GoStrings.wrapInt (ChildCount parent + 1)) in
                let (e, w3) := Update parent w2 in
                match e with
                | Some e =>
                    (Some (Wrapf "device saved but failed to update parent count" e), w3)
                | None => (None, w3)
                end
            | inl _ => (None, w2)
            end
          else (None, w1)
      end
  end.

(** [DeviceService.GetDevice] *)
Definition GetDevice (guid : string) (w : World) : (error + Device) * World :=
  if String.eqb guid "" then (inl (Errorf "device GUID is required" ""), w)
  else Get guid w.

(** [DeviceService.ListDevices] *)
Definition ListDevices (w : World) : result (list Device) * World := List_ w.

(** [DeviceService.UpdateDevice] *)
Definition UpdateDevice (device : Device) (w : World) : option error * World :=
  match validateDevice device with
  | Some e => (Some (Wrapf "validating device" e), w)
  | None =>
      let (r, w1) := Get (GUID device) w in
      match r with
      | inl e => (Some (Wrapf "getting existing device" e), w1)
      | inr existing =>
          let (e, w2) := Update device w1 in
          match e with
          | Some e => (Some (Wrapf "updating device" e), w2)
          | None =>
              if negb (String.eqb (ParentDeviceGUID existing) (ParentDeviceGUID device)) then
                let (e1, w3) :=
                  if negb (String.eqb (ParentDeviceGUID existing) "") then
                    let (r, w3) := Get (ParentDeviceGUID existing) w2 in
                    match r with
                    | inr oldParent =>
                        let oldParent :=
                          withChildCount oldParent
                            (GoStrings.wrapInt (ChildCount oldParent - 1)) in
                        let (e, w4) := Update oldParent w3 in
                        match e with
                        | Some e =>
                            (Some (Wrapf "device updated but failed to update old parent count" e), w4)
                        | None => (None, w4)
                        end
                    | inl _ => (None, w3)
                    end
                  else (None, w2) in
                match e1 with
                | Some e => (Some e, w3)
                | None =>
                    if negb (String.eqb (ParentDeviceGUID device) "") then
                      let (r, w4) := Get (ParentDeviceGUID device) w3 in
                      match r with
                      | inr newParent =>
                          let newParent :=
                            withChildCount newParent
                              (GoStrings.wrapInt (ChildCount newParent + 1)) in
                          let (e, w5) := Update newParent w4 in
                          match e with
                          | Some e =>
                              (Some (Wrapf "device updated but failed to update new parent count" e), w5)
                          | None => (None, w5)
                          end
                      | inl _ => (None, w4)
                      end
                    else (None, w3)
                end
              else (None, w2)
          end
      end
  end.

(** [DeviceService.DeleteDevice] *)
Definition DeleteDevice (guid : string) (w : World) : option error * World :=
  if String.eqb guid "" then (Some (Errorf "device GUID is required" ""), w)
  else
    let (r, w1) := Get guid w in
    match r with
    | inl e => (Some (Wrapf "getting device" e), w1)
    | inr device =>
        let (e, w2) := Delete guid w1 in
        match e with
        | Some e => (Some (Wrapf "deleting device" e), w2)
        | None =>
            if negb (String.eqb (ParentDeviceGUID device) "") then
              let (r, w3) := Get (ParentDeviceGUID device) w2 in
              match r with
              | inr parent =>
                  let parent :=
                    withChildCount parent (GoStrings.wrapInt (ChildCount parent - 1)) in
                  let (e, w4) := Update parent w3 in
                  match e with
                  | Some e =>
                      (Some (Wrapf "device deleted but failed to update parent count" e), w4)
                  | None => (None, w4)
                  end
              | inl _ => (None, w3)
              end
            else (None, w2)
        end
    end.

(** [DeviceService.GetDevicesByPlatform] *)
Definition GetDevicesByPlatform (platform : string) (w : World)
  : result (list Device) * World :=
  if String.eqb platform "" then (Err (Errorf "platform is required" ""), w)
  else GetByPlatform platform w.

(** [isVulnerable], with the clock reading [now] of [time.Since]. *)
Definition isVulnerable (now : Z) (device : Device) : bool :=
  if String.eqb (Platform device) "ANDROID" then
    if String.eqb (SecurityPatchLevel (Software_ device)) "" then true
    else
      match GoTime.ParseDate (SecurityPatchLevel (Software_ device)) with
      | None => true
      | Some patchDate => 180 * 24 * GoTime.Hour <? GoTime.Since now patchDate
      end
  else if String.eqb (Platform device) "IOS" then
    if String.eqb (OSVersion (Software_ device)) "" then true
    else
      let version := OSVersion (Software_ device) in
      if (2 <? GoStrings.len version) && GoStrings.lt (GoStrings.prefix version 2) "15"
      then true
      else false
  else false.

Definition incrIf (b : bool) (n : Z) : Z := if b then n + 1 else n.

(** One turn of the tally of [GetDeviceStatistics]. *)
Definition tally (now : Z) (stats : Statistics) (device : Device) : Statistics :=
  {| TotalDevices := TotalDevices stats;
     ActiveDevices :=
       incrIf (String.eqb (ActivationStatus device) "ACTIVATED") (ActiveDevices stats);
     AndroidDevices :=
       incrIf (String.eqb (Platform device) "ANDROID") (AndroidDevices stats);
     IOSDevices :=
       incrIf (String.eqb (Platform device) "IOS") (IOSDevices stats);
     ParentDevices :=
       incrIf (String.eqb (ParentDeviceGUID device) "") (ParentDevices stats);
     ChildDevices :=
       incrIf (negb (String.eqb (ParentDeviceGUID device) "")) (ChildDevices stats);
     StatsLastUpdated := StatsLastUpdated stats;
     VulnerableDevices := incrIf (isVulnerable now device) (VulnerableDevices stats) |}.

(** [DeviceService.GetDeviceStatistics] *)
Definition GetDeviceStatistics (w : World) : result Statistics * World :=
  let (r, w1) := List_ w in
  match r with
  | Ok devices =>
      let stats := {| TotalDevices := Z.of_nat (List.length devices);
                      ActiveDevices := 0; AndroidDevices := 0; IOSDevices := 0;
                      ParentDevices := 0; ChildDevices := 0;
                      StatsLastUpdated := clock w1;
                      VulnerableDevices := 0 |} in
      (Ok (fold_left (tally (clock w1)) devices stats), w1)
  | Err e => (Err (Wrapf "listing devices" e), w1)
  | Panic => (Panic, w1)
  end.

End Repository.

End Device.

(** ** internal/analyzer *)

Module Analyzer.

Inductive RiskLevel : Set := RiskHigh | RiskMedium | RiskLow.

Record SecurityStats : Type := {
  Level : RiskLevel;
  Count : Z;
  Description : string;
  AffectedDevices : list string
}.

Record ComplianceMetrics : Type := {
  CompliantDevices : Z;
  NonCompliantDevices : Z;
  ComplianceRate : float;
  AverageDelay : float
}.

Record UpdatePattern : Type := {
  UpdateTimespan : Z;
  OldestPatch : string;
  NewestPatch : string;
  UpdateFrequency : float;
  UpdateGaps : list string;
  Compliance : ComplianceMetrics
}.

Record VersionDistribution : Type := {
  Version : string;
  VersionCount : Z;
  Percentage : float;
  IsSupported : bool
}.

(** [map[RiskLevel]*SecurityStats] with its three keys. *)
Record StatsMap : Type := {
  high : SecurityStats;
  medium : SecurityStats;
  low : SecurityStats
}.

Record Analysis : Type := {
  SecurityStatsAndroid : StatsMap;
  SecurityStatsIOS : StatsMap;
  UpdatePatternsAndroid : option UpdatePattern;
  UpdatePatternsIOS : option UpdatePattern;
  VersionDistributionAndroid : list VersionDistribution;
  VersionDistributionIOS : list VersionDistribution;
  Timestamp : Z
}.

Definition initSecurityStats : StatsMap :=
  {| high := {| Level := RiskHigh; Count := 0;
                Description := "High risk devices requiring immediate attention";
                AffectedDevices := [] |};
     medium := {| Level := RiskMedium; Count := 0;
                  Description := "Medium risk devices requiring monitoring";
                  AffectedDevices := [] |};
     low := {| Level := RiskLow; Count := 0;
               Description := "Low risk devices meeting security requirements";
               AffectedDevices := [] |} |}.

(** [stats := m[risk]; stats.Count++; stats.AffectedDevices = append(...)] *)
Definition record (stats : SecurityStats) (deviceID : string) : SecurityStats :=
  {| Level := Level stats; Count := Count stats + 1;
     Description := Description stats;
     AffectedDevices := app (AffectedDevices stats) [deviceID] |}.

Definition recordAt (m : StatsMap) (risk : RiskLevel) (deviceID : string) : StatsMap :=
  match risk with
  | RiskHigh => {| high := record (high m) deviceID; medium := medium m; low := low m |}
  | RiskMedium => {| high := high m; medium := record (medium m) deviceID; low := low m |}
  | RiskLow => {| high := high m; medium := medium m; low := record (low m) deviceID |}
  end.

(** [m[key]++] on a [map[string]int], kept as the list of its entries in
    the order the keys were first seen. *)
Fixpoint incr (key : string) (m : list (string * Z)) : list (string * Z) :=
  match m with
  | [] => [(key, 1)]
  | (k, n) :: r => if String.eqb key k then (k, n + 1) :: r else (k, n) :: incr key r
  end.

(** [sort.Slice(x, less)], as an insertion sort: under a comparison that
    orders the elements totally, as those of this package do on the
    distinct keys of a map, every sort returns the same slice. *)
Fixpoint insert {A : Type} (less : A -> A -> bool) (x : A) (l : list A) : list A :=
  match l with
  | [] => [x]
  | y :: r => if less y x then y :: insert less x r else x :: y :: r
  end.

Definition sortSlice {A : Type} (less : A -> A -> bool) (l : list A) : list A :=
  fold_right (insert less) [] l.

(** [int(time.Since(patchDate).Hours() / 24 / 30)] *)
Definition monthsOld (now patchDate : Z) : Z :=
  GoTime.months30 (GoTime.Since now patchDate).

Definition analyzeAndroidRisk (now : Z) (patchLevel : string) : RiskLevel :=
  match GoTime.ParseDate patchLevel with
  | None => RiskHigh
  | Some patchDate =>
      let monthsOld := monthsOld now patchDate in
      if 12 <=? monthsOld then RiskHigh
      else if 6 <=? monthsOld then RiskMedium
      else RiskLow
  end.

Definition analyzeIOSRisk (version : string) : RiskLevel :=
  if String.eqb version "" then RiskHigh
  else
    let majorVersion := GoStrings.first (GoStrings.Split version ".") in
    match GoStrings.Atoi majorVersion with
    | None => RiskHigh
    | Some versionNum =>
        if versionNum <=? 15 then RiskHigh
        else if versionNum <=? 17 then RiskMedium
        else RiskLow
    end.

Definition noCompliance : ComplianceMetrics :=
  {| CompliantDevices := 0; NonCompliantDevices := 0;
     ComplianceRate := PrimFloat.zero; AverageDelay := PrimFloat.zero |}.

(** The loop that lists the months without a patch: [current] advances by
    a calendar month, so by at least 28 days, at each turn, and [fuel] is
    chosen by the caller above the number of turns. *)
Fixpoint updateGaps (fuel : nat) (current newestPatch : Z) (dates : list Z)
         (gaps : list string) : list string :=
  match fuel with
  | O => gaps
  | S fuel' =>
      if current <? newestPatch then
        let monthKey := GoTime.FormatMonth current in
        let found :=
          existsb (fun date => String.eqb (GoTime.FormatMonth date) monthKey) dates in
        updateGaps fuel' (GoTime.AddMonth current) newestPatch dates
          (if found then gaps else app gaps [monthKey])
      else gaps
  end.

Fixpoint parsedDates (patches : list (string * Z)) : list Z :=
  match patches with
  | [] => []
  | (patch, _) :: r =>
      match GoTime.ParseDate patch with
      | Some date => date :: parsedDates r
      | None => parsedDates r
      end
  end.

Definition analyzeAndroidUpdatePatterns (patches : list (string * Z))
  : option UpdatePattern :=
  match patches with
  | [] => None
  | _ =>
      let dates := sortSlice Z.ltb (parsedDates patches) in
      match dates with
      | [] => None
      | oldestPatch :: _ =>
          let newestPatch := last dates oldestPatch in
          let timespan := GoTime.months30 (GoTime.Sub newestPatch oldestPatch) in
          let n := Z.of_nat (List.length dates) in
          Some {| UpdateTimespan := timespan;
                  OldestPatch := GoTime.FormatDate oldestPatch;
                  NewestPatch := GoTime.FormatDate newestPatch;
                  UpdateFrequency :=
                    if 1 <? n
                    then PrimFloat.div (GoTime.toFloat timespan) (GoTime.toFloat (n - 1))
                    else PrimFloat.zero;
                  UpdateGaps :=
                    updateGaps
                      (S (Z.to_nat ((newestPatch - oldestPatch) / (28 * 24 * GoTime.Hour))))
                      oldestPatch newestPatch dates [];
                  Compliance := noCompliance |}
      end
  end.

Fixpoint majorNumbers (versions : list (string * Z)) : list Z :=
  match versions with
  | [] => []
  | (version, _) :: r =>
      let major := GoStrings.first (GoStrings.Split version ".") in
      if String.eqb major "" then majorNumbers r
      else match GoStrings.Atoi major with
           | Some num => num :: majorNumbers r
           | None => majorNumbers r
           end
  end.

Definition analyzeIOSUpdatePatterns (versions : list (string * Z))
  : option UpdatePattern :=
  match versions with
  | [] => None
  | _ =>
      let majorVersions := sortSlice Z.ltb (majorNumbers versions) in
      match majorVersions with
      | [] => None
      | oldest :: _ =>
          let newest := last majorVersions oldest in
          let timespan := GoStrings.wrapInt ((newest - oldest) * 12) in
          let n := Z.of_nat (List.length majorVersions) in
          Some {| UpdateTimespan := timespan;
                  OldestPatch := "iOS " ++ GoStrings.itoa oldest;
                  NewestPatch := "iOS " ++ GoStrings.itoa newest;
                  UpdateFrequency :=
                    if 1 <? n
                    then PrimFloat.div (GoTime.toFloat timespan) (GoTime.toFloat (n - 1))
                    else PrimFloat.zero;
                  UpdateGaps := [];
                  Compliance := noCompliance |}
      end
  end.

Definition total (m : list (string * Z)) : Z :=
  fold_left (fun total entry => total + snd entry) m 0.

(** [float64(count) / float64(total) * 100] *)
Definition percentage (count total : Z) : float :=
  PrimFloat.mul (PrimFloat.div (GoTime.toFloat count) (GoTime.toFloat total))
    (GoTime.toFloat 100).

(** The [less] of the Android list: the version strings, descending. *)
Definition androidLess (a b : VersionDistribution) : bool :=
  GoStrings.gt (Version a) (Version b).

Definition analyzeAndroidVersionDistribution (now : Z) (patches : list (string * Z))
  : list VersionDistribution :=
  let total := total patches in
  let distribution :=
    map (fun entry =>
           let version := fst entry in
           let count := snd entry in
           {| Version := version;
              VersionCount := count;
              Percentage := percentage count total;
              IsSupported :=
                match GoTime.ParseDate version with
                | Some date => GoTime.Since now date <? 180 * 24 * GoTime.Hour
                | None => false
                end |}) patches in
  sortSlice androidLess distribution.

(** The [less] of the iOS list: the first dot-separated pieces as strings,
    descending, then the version strings, descending. *)
Definition iosLess (a b : VersionDistribution) : bool :=
  let vi := GoStrings.Split (Version a) "." in
  let vj := GoStrings.Split (Version b) "." in
  if negb (String.eqb (GoStrings.first vi) (GoStrings.first vj))
  then GoStrings.gt (GoStrings.first vi) (GoStrings.first vj)
  else GoStrings.gt (Version a) (Version b).

Definition analyzeIOSVersionDistribution (versions : list (string * Z))
  : list VersionDistribution :=
  let total := total versions in
  let distribution :=
    map (fun entry =>
           let version := fst entry in
           let count := snd entry in
           let majorVersion := GoStrings.first (GoStrings.Split version ".") in
           let versionNum := GoStrings.AtoiValue majorVersion in
           {| Version := version;
              VersionCount := count;
              Percentage := percentage count total;
              IsSupported := 15 <=? versionNum |}) versions in
  sortSlice iosLess distribution.

(** What the loop of [AnalyzeDevices] has built so far. *)
Record Tally : Type := {
  statsAndroid : StatsMap;
  statsIOS : StatsMap;
  androidPatches : list (string * Z);
  iosVersions : list (string * Z)
}.

(** One turn of the loop over the devices; [None] is the panic of
    [d.GUID[:8]] on a GUID of fewer than 8 bytes. *)
Definition visit (now : Z) (t : Tally) (d : Device.Device) : option Tally :=
  match GoStrings.sliceTo (Device.GUID d) 8 with
  | None => None
  | Some guid8 =>
      let deviceID := guid8 ++ " (" ++ Device.Platform d ++ ")" in
      if String.eqb (Device.Platform d) "ANDROID" then
        let patch := Device.SecurityPatchLevel (Device.Software_ d) in
        if negb (String.eqb patch "") then
          Some {| statsAndroid :=
                    recordAt (statsAndroid t) (analyzeAndroidRisk now patch) deviceID;
                  statsIOS := statsIOS t;
                  androidPatches := incr patch (androidPatches t);
                  iosVersions := iosVersions t |}
        else Some t
      else if String.eqb (Device.Platform d) "IOS" then
        let version := Device.OSVersion (Device.Software_ d) in
        if negb (String.eqb version "") then
          Some {| statsAndroid := statsAndroid t;
                  statsIOS := recordAt (statsIOS t) (analyzeIOSRisk version) deviceID;
                  androidPatches := androidPatches t;
                  iosVersions := incr version (iosVersions t) |}
        else Some t
      else Some t
  end.

Fixpoint visitAll (now : Z) (t : Tally) (devices : list Device.Device) : option Tally :=
  match devices with
  | [] => Some t
  | d :: r =>
      match visit now t d with
      | None => None
      | Some t' => visitAll now t' r
      end
  end.

Section Analyzer.

Variable ctx : Ctx.
Variable json : Device.Codec.

(** [Analyzer.AnalyzeDevices] *)
Definition AnalyzeDevices (w : World) : result Analysis * World :=
  let (r, w1) := Device.ListDevices ctx json w in
  match r with
  | Err e => (Err (Wrapf "listing devices" e), w1)
  | Panic => (Panic, w1)
  | Ok devices =>
      let now := clock w1 in
      let start := {| statsAndroid := initSecurityStats;
                      statsIOS := initSecurityStats;
                      androidPatches := [];
                      iosVersions := [] |} in
      match visitAll now start devices with
      | None => (Panic, w1)
      | Some t =>
          (Ok {| SecurityStatsAndroid := statsAndroid t;
                 SecurityStatsIOS := statsIOS t;
                 UpdatePatternsAndroid :=
                   analyzeAndroidUpdatePatterns (androidPatches t);
                 UpdatePatternsIOS := analyzeIOSUpdatePatterns (iosVersions t);
                 VersionDistributionAndroid :=
                   analyzeAndroidVersionDistribution now (androidPatches t);
                 VersionDistributionIOS :=
                   analyzeIOSVersionDistribution (iosVersions t);
                 Timestamp := now |}, w1)
      end
  end.

End Analyzer.

End Analyzer.

(** ** The main package: the synchronisation run *)

Module Main.

(** One call of [GetDevices] as the run made it: its two arguments and
    what it returned.  The list of these calls is an observation of the
    run that the Go code does not itself compute. *)
Record Fetch : Type := {
  cursor : string;
  limit : Z;
  reply : result Api.DevicesResponse
}.

(** The zero [time.Time]: 1 January of year 1, UTC. *)
Definition zeroTime : Z := GoTime.Date 1 1 1.

(** The conversion of a wire record to a domain record in the worker. *)
Definition toDevice (d : Api.Device) : Device.Device :=
  {| Device.GUID := Api.GUID d;
     Device.OID := Api.OID d;
     Device.ParentDeviceGUID := Api.ParentDeviceGUID d;
     Device.ActivationStatus := Api.ActivationStatus d;
     Device.Platform := Api.Platform d;
     Device.Software_ :=
       {| Device.SecurityPatchLevel := Api.SecurityPatchLevel (Api.Software_ d);
          Device.OSVersion := Api.OSVersion (Api.Software_ d) |};
     Device.ChildCount := 0;
     Device.LastUpdated := zeroTime |}.

(** The first non-nil error read from [errChan]. *)
Fixpoint firstError (reports : list (option error)) : option error :=
  match reports with
  | [] => None
  | Some e :: _ => Some e
  | None :: r => firstError r
  end.

(** [devicesResp.Devices[len(devicesResp.Devices)-1].OID] of a page that
    is not empty. *)
Definition lastOIDOf (devices : list Api.Device) : string :=
  match rev devices with
  | d :: _ => Api.OID d
  | [] => ""
  end.

Section ProcessDevices.

(** [processDevices] over its collaborators: the state they act on, the
    context, the client's [GetDevices], the service's [CreateDevice],
    the analyzer's [AnalyzeDevices], and [cfg.App.BatchSize].  The
    worker count, at least 1 by the validation of the configuration,
    bounds how many workers run at once; the workers of a page are run
    here one after the other in page order, which is one schedule of
    the pool. *)
Variable S : Type.
Variable ctxDone : S -> bool * S.
Variable GetDevices : string -> Z -> S -> result Api.DevicesResponse * S.
Variable CreateDevice : Device.Device -> S -> option error * S.
Variable AnalyzeDevices : S -> result Analyzer.Analysis * S.
Variable BatchSize : Z.

(** The body of a worker: what it sends on [errChan]. *)
Definition worker (d : Api.Device) (s : S) : option error * S :=
  let dev := toDevice d in
  let (e, s1) := CreateDevice dev s in
  match e with
  | Some e => (Some (Wrapf ("processing device " ++ Api.GUID d) e), s1)
  | None => (None, s1)
  end.

Fixpoint runWorkers (devices : list Api.Device) (s : S)
  : list (option error) * S :=
  match devices with
  | [] => ([], s)
  | d :: r =>
      let (e, s1) := worker d s in
      let (es, s2) := runWorkers r s1 in
      (e :: es, s2)
  end.

(** The loop [for running { ... }]: [Ok n] when it ends with [n] devices
    processed.  [None] when [fuel] turns did not end it. *)
Fixpoint pages (fuel : nat) (lastOID : string) (processedCount totalDevices : Z)
         (s : S) : option (result Z * S * list Fetch) :=
  match fuel with
  | O => None
  | Datatypes.S fuel' =>
      let (done, s0) := ctxDone s in
      if done then Some (Err CtxErr, s0, [])
      else
        let (r, s1) := GetDevices lastOID BatchSize s0 in
        let fetch := {| cursor := lastOID; limit := BatchSize; reply := r |} in
        match r with
        | Err e => Some (Err (Wrapf "getting devices" e), s1, [fetch])
        | Panic => Some (Panic, s1, [fetch])
        | Ok devicesResp =>
            let devices := Api.Devices devicesResp in
            if (Z.of_nat (List.length devices) =? 0)
               || (totalDevices <=? processedCount)
            then Some (Ok processedCount, s1, [fetch])
            else
              let (reports, s2) := runWorkers devices s1 in
              match firstError reports with
              | Some e => Some (Err e, s2, [fetch])
              | None =>
                  let processedCount :=
                    GoStrings.wrapInt (processedCount + Z.of_nat (List.length devices)) in
                  match pages fuel' (lastOIDOf devices) processedCount totalDevices s2 with
                  | Some (r', s3, fetches) => Some (r', s3, fetch :: fetches)
                  | None => None
                  end
              end
        end
  end.

(** [processDevices]: the probe for the total, the loop, the analysis.
    The list holds the fetches of the loop, the probe left out. *)
Definition processDevices (fuel : nat) (s : S)
  : option (result unit * S * list Fetch) :=
  let (r, s1) := GetDevices "" 1 s in
  match r with
  | Err e => Some (Err (Wrapf "getting total device count" e), s1, [])
  | Panic => Some (Panic, s1, [])
  | Ok initialResp =>
      let totalDevices := Api.Count initialResp in
      match pages fuel "" 0 totalDevices s1 with
      | None => None
      | Some (Err e, s2, fetches) => Some (Err e, s2, fetches)
      | Some (Panic, s2, fetches) => Some (Panic, s2, fetches)
      | Some (Ok _, s2, fetches) =>
          let (a, s3) := AnalyzeDevices s2 in
          match a with
          | Err e => Some (Err (Wrapf "analyzing devices" e), s3, fetches)
          | Panic => Some (Panic, s3, fetches)
          | Ok _ => Some (Ok tt, s3, fetches)
          end
      end
  end.

End ProcessDevices.

(** The run of the program: the client and the world as the state. *)
Section Run.

Variable ctx : Ctx.
Variable net : Api.Net.
Variable json : Device.Codec.
Variable BatchSize : Z.

Definition State : Type := Api.Client * World.

Definition run (fuel : nat) (s : State) : option (result unit * State * list Fetch) :=
  processDevices State
    (fun s => let (done, w) := poll ctx (snd s) in (done, (fst s, w)))
    (fun lastOID limit s =>
       let '(r, c, w) := Api.GetDevices ctx net lastOID limit (fst s) (snd s) in
       (r, (c, w)))
    (fun device s =>
       let (e, w) := Device.CreateDevice ctx json device (snd s) in (e, (fst s, w)))
    (fun s =>
       let (a, w) := Analyzer.AnalyzeDevices ctx json (snd s) in (a, (fst s, w)))
    BatchSize fuel s.

End Run.

End Main.

(** * Vocabulary of the properties *)

Module Spec.

(** A context that is never cancelled. *)
Definition alive (ctx : Ctx) : Prop := forall n, ctx n = false.

(** What [doRequest] answers with another attempt: an error of the
    transport, or a response of status 429. *)
Definition retryable (out : string + Response) : bool :=
  match out with
  | inl _ => true
  | inr resp => StatusCode resp =? 429
  end.

(** The events of one attempt of [doRequest]: the sleep that precedes
    every attempt but the first, then the request. *)
Definition attemptEvents (delay : Z) (req : Request) (attempt : Z) : list Event :=
  app (if 0 <? attempt then [Slept delay] else []) [Sent req].

(** The events of the attempts [attempt], ..., [attempt + k]. *)
Fixpoint attemptsEvents (delay : Z) (req : Request) (attempt : Z) (k : nat)
  : list Event :=
  match k with
  | O => attemptEvents delay req attempt
  | S k' => app (attemptEvents delay req attempt)
                (attemptsEvents delay req (attempt + 1) k')
  end.

(** The error of the last attempt when it, too, is retryable. *)
Definition exhausted (maxRetries : Z) (out : string + Response) : error :=
  match out with
  | inl e => WrapRetries maxRetries (TransportErr e)
  | inr resp => NewAPIError (StatusCode resp) "rate limit exceeded" None
  end.

(** What [doRequest] returns when the outcome [out] ends its loop. *)
Definition verdict (maxRetries : Z) (out : string + Response)
  : result (option Response) :=
  match out with
  | inl _ => Err (exhausted maxRetries out)
  | inr resp =>
      if StatusCode resp =? 429 then Err (exhausted maxRetries out)
      else if 400 <=? StatusCode resp then
        Err (NewAPIError (StatusCode resp) ("API request failed: " ++ Body resp)
               (Some (StatusCode resp, Body resp)))
      else Ok (Some resp)
  end.

(** The codec reads back the record it wrote for [d]. *)
Definition roundtrips (json : Device.Codec) (d : Device.Device) : Prop :=
  exists data,
    Device.marshal json d = Some data /\ Device.unmarshal json data = Some d.

(** Every item of the file that decodes holds the device of its key. *)
Definition keyed (json : Device.Codec) (d : BuntDB.DB) : Prop :=
  forall key data device,
    BuntDB.Get key d = Some data ->
    Device.unmarshal json data = Some device ->
    Device.GUID device = key.

(** The map of counts built from the versions observed, in the order of
    observation. *)
Definition counts (versions : list string) : list (string * Z) :=
  fold_left (fun m version => Analyzer.incr version m) versions [].

(** The major version of a version string, as the analyzer reads it. *)
Definition major (version : string) : string :=
  GoStrings.first (GoStrings.Split version ".").

(** The whole pages of [limit] devices that [total] devices fill, a last
    partial one counted: the ceiling of [total / limit], and 0 when
    [total] is not positive. *)
Definition ceilDiv (total limit : Z) : Z := Z.max 0 ((total + limit - 1) / limit).

(** The devices a fetch returned, none when it failed. *)
Definition page (f : Main.Fetch) : list Api.Device :=
  match Main.reply f with
  | Ok devicesResp => Api.Devices devicesResp
  | _ => []
  end.

Definition pageSize (f : Main.Fetch) : Z := Z.of_nat (List.length (page f)).

(** The fetches a run of the loop may make from the running count [count]
    and the cursor [cursor], and what the loop returns after them.  Every
    fetch asks for [limit] devices at the current cursor.  The loop goes on
    after a fetch only when that fetch returned devices and was made with
    the count still below [total]: the count then grows by the size of
    the page and the cursor becomes the oid of its last device.  It ends
    with the count when a fetch succeeds with no device or is made with
    the count at [total] or above, and with an error otherwise (a
    cancelled context, a failed fetch, a failed worker). *)
Inductive Schedule (limit total : Z)
  : Z -> string -> list Main.Fetch -> result Z -> Prop :=
| Schedule_cancelled (count : Z) (cursor : string) :
    Schedule limit total count cursor [] (Err CtxErr)
| Schedule_done (count : Z) (cursor : string) (f : Main.Fetch)
                (devicesResp : Api.DevicesResponse) :
    Main.cursor f = cursor ->
    Main.limit f = limit ->
    Main.reply f = Ok devicesResp ->
    Api.Devices devicesResp = [] \/ total <= count ->
    Schedule limit total count cursor [f] (Ok count)
| Schedule_failed (count : Z) (cursor : string) (f : Main.Fetch) (r : result Z) :
    Main.cursor f = cursor ->
    Main.limit f = limit ->
    (forall n, r <> Ok n) ->
    Schedule limit total count cursor [f] r
| Schedule_next (count : Z) (cursor : string) (f : Main.Fetch)
                (fs : list Main.Fetch) (r : result Z) :
    Main.cursor f = cursor ->
    Main.limit f = limit ->
    page f <> [] ->
    count < total ->
    Schedule limit total (GoStrings.wrapInt (count + pageSize f))
      (Main.lastOIDOf (page f)) fs r ->
    Schedule limit total count cursor (f :: fs) r.

(** A day, as a Duration. *)
Definition Day : Z := 24 * GoTime.Hour.

(** [f] holds of the [n] integers from [z] on. *)
Fixpoint allFrom (n : nat) (z : Z) (f : Z -> bool) : bool :=
  match n with
  | O => true
  | S n' => if f z then allFrom n' (z + 1) f else false
  end.

(** The months of thirty days that the analyzer computes for an age of
    [k] whole days. *)
Definition monthsOfDays (k : Z) : Z := GoTime.months30 (GoTime.Sub (k * Day) 0).

(** The number of sleeps in a log. *)
Definition sleptCount (l : list Event) : nat :=
  List.length (filter (fun e => negb (isSent e)) l).

(** The codec keeps the guid: what it reads back from the text written
    for a device is a device of the same guid. *)
Definition faithful (json : Device.Codec) : Prop :=
  forall d data d',
    Device.marshal json d = Some data ->
    Device.unmarshal json data = Some d' ->
    Device.GUID d' = Device.GUID d.

(** A sound file: its items are in key order, and each item that decodes
    holds the device of its key. *)
Definition sound (json : Device.Codec) (w : World) : Prop :=
  BuntDB.ordered (db w) /\ keyed json (db w).

(** The calls that write to the file: the three of the repository and the
    three of the service. *)
Inductive Op : Type :=
| OpSave (device : Device.Device)
| OpUpdate (device : Device.Device)
| OpDelete (guid : string)
| OpCreateDevice (device : Device.Device)
| OpUpdateDevice (device : Device.Device)
| OpDeleteDevice (guid : string).

(** The world a call leaves, whatever it returns. *)
Definition exec (ctx : Ctx) (json : Device.Codec) (w : World) (op : Op) : World :=
  match op with
  | OpSave device => snd (Device.Save ctx json device w)
  | OpUpdate device => snd (Device.Update ctx json device w)
  | OpDelete guid => snd (Device.Delete ctx guid w)
  | OpCreateDevice device => snd (Device.CreateDevice ctx json device w)
  | OpUpdateDevice device => snd (Device.UpdateDevice ctx json device w)
  | OpDeleteDevice guid => snd (Device.DeleteDevice ctx json guid w)
  end.

(** The number of devices of a list that satisfy a test. *)
Definition countIf (test : Device.Device -> bool) (devices : list Device.Device) : Z :=
  Z.of_nat (List.length (filter test devices)).

(** The devices a risk map has recorded, over its three levels. *)
Definition recorded (m : Analyzer.StatsMap) : Z :=
  Analyzer.Count (Analyzer.high m) + Analyzer.Count (Analyzer.medium m)
  + Analyzer.Count (Analyzer.low m).

(** Each level of a risk map counts the devices it lists. *)
Definition listsItsCount (m : Analyzer.StatsMap) : Prop :=
  Analyzer.Count (Analyzer.high m)
  = Z.of_nat (List.length (Analyzer.AffectedDevices (Analyzer.high m)))
  /\ Analyzer.Count (Analyzer.medium m)
     = Z.of_nat (List.length (Analyzer.AffectedDevices (Analyzer.medium m)))
  /\ Analyzer.Count (Analyzer.low m)
     = Z.of_nat (List.length (Analyzer.AffectedDevices (Analyzer.low m))).

(** The devices a version distribution accounts for. *)
Definition distributed (l : list Analyzer.VersionDistribution) : Z :=
  fold_right (fun v n => Analyzer.VersionCount v + n) 0 l.

(** The devices of a platform that report the given software field. *)
Definition reporting (platform : string) (field : Device.Software -> string)
           (devices : list Device.Device) : Z :=
  countIf (fun d => String.eqb (Device.Platform d) platform
                    && negb (String.eqb (field (Device.Software_ d)) ""))
          devices.

(** The request [ensureValidToken] sends for a new token. *)
Definition tokenRequest (c : Api.Client) : Request :=
  {| Method := "POST";
     URL := Api.baseURL c ++ "/oauth2/token";
     Authorization := "Bearer " ++ Api.applicationKey c;
     Accept := "application/json";
     ContentType := Some "application/x-www-form-urlencoded" |}.

(** The token of the client is missing or has expired at [now]. *)
Definition stale (c : Api.Client) (now : Z) : Prop :=
  Api.accessToken c = "" \/ Api.tokenExpiry c <= now.

(** An event of the retry loop for the request [req]: that request, or a
    sleep of the delay. *)
Definition ofLoop (req : Request) (delay : Z) (e : Event) : Prop :=
  e = Sent req \/ e = Slept delay.

(** A call came back with a response or with an error. *)
Definition answered {A : Type} (r : result (option A)) : Prop :=
  match r with
  | Ok (Some _) | Err _ => True
  | Ok None | Panic => False
  end.

(** Every key of the file [d] is still a key of the file [d']. *)
Definition keeps (d d' : BuntDB.DB) : Prop :=
  forall key, BuntDB.Get key d <> None -> BuntDB.Get key d' <> None.

End Spec.

(** * Scenarios: concrete worlds on which the properties are exercised *)

Module Scenario.

(** A context that is never cancelled. *)
Definition background : Ctx := fun _ => false.

(** An empty world at the first instant of 2024. *)
Definition world0 : World :=
  {| log := []; clock := GoTime.Date 2024 1 1; polls := 0; db := [] |}.

(** A client holding a token valid for one more hour, with three retries
    five seconds apart. *)
Definition client3 : Api.Client :=
  {| Api.baseURL := "https://api.lookout.com";
     Api.applicationKey := "key";
     Api.accessToken := "token";
     Api.tokenExpiry := GoTime.Date 2024 1 1 + GoTime.Hour;
     Api.maxRetries := 3;
     Api.retryDelay := 5 * GoTime.Second |}.

(** A network whose every answer is [out], with decoders that decode
    nothing. *)
Definition constantNet (out : string + Response) : Api.Net :=
  {| Api.transport := fun _ _ => out;
     Api.newRequestErr := fun _ _ => None;
     Api.decodeToken := fun _ => None;
     Api.decodeDevices := fun _ => None;
     Api.decodeVulnerabilities := fun _ => None |}.

(** A network that answers the listed outcomes in turn, then [rest]. *)
Definition scriptedNet (script : list (string + Response)) (rest : string + Response)
  : Api.Net :=
  {| Api.transport := fun n _ => nth n script rest;
     Api.newRequestErr := fun _ _ => None;
     Api.decodeToken := fun _ => None;
     Api.decodeDevices := fun _ => None;
     Api.decodeVulnerabilities := fun _ => None |}.

Definition status (code : Z) (body : string) : string + Response :=
  inr {| StatusCode := code; Body := body |}.

(** *** A reference codec for the Device record

    The compact JSON object that [json.Marshal] writes for a Device whose
    strings need no escaping, the timestamp written as its number of
    nanoseconds; the decoder reads back exactly these objects and refuses
    any other text. *)

Definition quote : string := String (ascii_of_nat 34) EmptyString.

Definition jstring (s : string) : string := quote ++ s ++ quote.

Definition jfield (name value : string) : string := jstring name ++ ":" ++ value.

(** No byte of the string needs a JSON escape: no quote, no backslash, no
    control byte. *)
Fixpoint plain (s : string) : bool :=
  match s with
  | EmptyString => true
  | String c r =>
      let n := nat_of_ascii c in
      negb (n =? 34)%nat && negb (n =? 92)%nat && (32 <=? n)%nat && plain r
  end.

Definition marshalDevice (d : Device.Device) : option string :=
  if plain (Device.GUID d) && plain (Device.OID d)
     && plain (Device.ParentDeviceGUID d) && plain (Device.ActivationStatus d)
     && plain (Device.Platform d)
     && plain (Device.SecurityPatchLevel (Device.Software_ d))
     && plain (Device.OSVersion (Device.Software_ d))
  then
    Some ("{" ++ jfield "guid" (jstring (Device.GUID d))
          ++ "," ++ jfield "oid" (jstring (Device.OID d))
          ++ "," ++ jfield "parent_device_guid" (jstring (Device.ParentDeviceGUID d))
          ++ "," ++ jfield "activation_status" (jstring (Device.ActivationStatus d))
          ++ "," ++ jfield "platform" (jstring (Device.Platform d))
          ++ "," ++ jfield "software"
                      ("{" ++ jfield "security_patch_level"
                                (jstring (Device.SecurityPatchLevel (Device.Software_ d)))
                       ++ "," ++ jfield "os_version"
                                   (jstring (Device.OSVersion (Device.Software_ d)))
                       ++ "}")
          ++ "," ++ jfield "child_count" (GoStrings.itoa (Device.ChildCount d))
          ++ "," ++ jfield "last_updated" (GoStrings.itoa (Device.LastUpdated d))
          ++ "}")
  else None.

(** The text after the literal [p], when the text starts with it. *)
Fixpoint lit (p s : string) : option string :=
  match p, s with
  | EmptyString, _ => Some s
  | String a p', String b s' => if Ascii.eqb a b then lit p' s' else None
  | String _ _, EmptyString => None
  end.

(** The text up to the next quote, and the text after that quote. *)
Fixpoint untilQuote (s : string) : option (string * string) :=
  match s with
  | EmptyString => None
  | String c r =>
      if (nat_of_ascii c =? 34)%nat then Some (EmptyString, r)
      else match untilQuote r with
           | Some (v, rest) => Some (String c v, rest)
           | None => None
           end
  end.

(** The leading run of sign and digit bytes, and the text after it. *)
Fixpoint number (s : string) : string * string :=
  match s with
  | EmptyString => (EmptyString, EmptyString)
  | String c r =>
      if GoStrings.isDigit c || Ascii.eqb c "-"
      then let (v, rest) := number r in (String c v, rest)
      else (EmptyString, s)
  end.

Definition stringField (name s : string) : option (string * string) :=
  match lit (jfield name quote) s with
  | Some r => untilQuote r
  | None => None
  end.

(** The value of a decimal numeral with an optional minus sign. *)
Definition numeral (v : string) : option Z :=
  match v with
  | EmptyString => None
  | String c r =>
      if Ascii.eqb c "-" then
        match r with
        | EmptyString => None
        | _ => option_map Z.opp (GoStrings.digits 0 r)
        end
      else GoStrings.digits 0 v
  end.

Definition intField (name s : string) : option (Z * string) :=
  match lit (jfield name "") s with
  | Some r =>
      let (v, rest) := number r in
      match numeral v with
      | Some n => Some (n, rest)
      | None => None
      end
  | None => None
  end.

Definition unmarshalDevice (s : string) : option Device.Device :=
  match lit "{" s with None => None | Some s =>
  match stringField "guid" s with None => None | Some (guid, s) =>
  match lit "," s with None => None | Some s =>
  match stringField "oid" s with None => None | Some (oid, s) =>
  match lit "," s with None => None | Some s =>
  match stringField "parent_device_guid" s with None => None | Some (parent, s) =>
  match lit "," s with None => None | Some s =>
  match stringField "activation_status" s with None => None | Some (status, s) =>
  match lit "," s with None => None | Some s =>
  match stringField "platform" s with None => None | Some (platform, s) =>
  match lit ("," ++ jfield "software" "{") s with None => None | Some s =>
  match stringField "security_patch_level" s with None => None | Some (patch, s) =>
  match lit "," s with None => None | Some s =>
  match stringField "os_version" s with None => None | Some (version, s) =>
  match lit "}," s with None => None | Some s =>
  match intField "child_count" s with None => None | Some (count, s) =>
  match lit "," s with None => None | Some s =>
  match intField "last_updated" s with None => None | Some (updated, s) =>
  match lit "}" s with
  | Some EmptyString =>
      Some {| Device.GUID := guid; Device.OID := oid;
              Device.ParentDeviceGUID := parent;
              Device.ActivationStatus := status;
              Device.Platform := platform;
              Device.Software_ := {| Device.SecurityPatchLevel := patch;
                                     Device.OSVersion := version |};
              Device.ChildCount := count;
              Device.LastUpdated := updated |}
  | _ => None
  end end end end end end end end end end end end end end end end end end end.

Definition codec : Device.Codec :=
  {| Device.marshal := marshalDevice; Device.unmarshal := unmarshalDevice |}.

(** The text the codec writes for a device. *)
Definition written (d : Device.Device) : string :=
  match marshalDevice d with
  | Some data => data
  | None => EmptyString
  end.

(** Two devices: an Android phone, and an iOS tablet that names the phone
    as its parent. *)
Definition phone : Device.Device :=
  {| Device.GUID := "a1b2c3d4-0001"; Device.OID := "1001";
     Device.ParentDeviceGUID := "";
     Device.ActivationStatus := "ACTIVATED";
     Device.Platform := "ANDROID";
     Device.Software_ := {| Device.SecurityPatchLevel := "2023-09-05";
                            Device.OSVersion := "" |};
     Device.ChildCount := 0;
     Device.LastUpdated := Main.zeroTime |}.

Definition tablet : Device.Device :=
  {| Device.GUID := "a1b2c3d4-0002"; Device.OID := "1002";
     Device.ParentDeviceGUID := "a1b2c3d4-0001";
     Device.ActivationStatus := "PENDING";
     Device.Platform := "IOS";
     Device.Software_ := {| Device.SecurityPatchLevel := "";
                            Device.OSVersion := "17.2" |};
     Device.ChildCount := 0;
     Device.LastUpdated := Main.zeroTime |}.

(** A second child of the phone. *)
Definition watch : Device.Device :=
  {| Device.GUID := "a1b2c3d4-0003"; Device.OID := "1003";
     Device.ParentDeviceGUID := "a1b2c3d4-0001";
     Device.ActivationStatus := "ACTIVATED";
     Device.Platform := "IOS";
     Device.Software_ := {| Device.SecurityPatchLevel := "";
                            Device.OSVersion := "14" |};
     Device.ChildCount := 0;
     Device.LastUpdated := Main.zeroTime |}.

(** A valid device whose GUID has three bytes. *)
Definition stub : Device.Device :=
  {| Device.GUID := "abc"; Device.OID := "7";
     Device.ParentDeviceGUID := "";
     Device.ActivationStatus := "ACTIVATED";
     Device.Platform := "ANDROID";
     Device.Software_ := {| Device.SecurityPatchLevel := "2023-09-05";
                            Device.OSVersion := "" |};
     Device.ChildCount := 0;
     Device.LastUpdated := Main.zeroTime |}.

(** An iOS device of the given version. *)
Definition ios (version : string) : Device.Device :=
  {| Device.GUID := "a1b2c3d4-0009"; Device.OID := "1009";
     Device.ParentDeviceGUID := "";
     Device.ActivationStatus := "ACTIVATED";
     Device.Platform := "IOS";
     Device.Software_ := {| Device.SecurityPatchLevel := "";
                            Device.OSVersion := version |};
     Device.ChildCount := 0;
     Device.LastUpdated := Main.zeroTime |}.

(** A wire record of an activated Android device. *)
Definition wire (guid oid : string) : Api.Device :=
  {| Api.GUID := guid; Api.OID := oid; Api.ParentDeviceGUID := "";
     Api.ActivationStatus := "ACTIVATED"; Api.Platform := "ANDROID";
     Api.Software_ := {| Api.SecurityPatchLevel := "2023-09-05";
                         Api.OSVersion := "" |} |}.

(** Four devices served in full pages of two: the state of the server is
    the number of calls it answered. *)
Definition fullPages (cursor : string) (limit : Z) (calls : nat)
  : result Api.DevicesResponse * nat :=
  (Ok {| Api.Count := 4;
         Api.Devices :=
           if String.eqb cursor "" then
             [wire "a1b2c3d4-0001" "1001"; wire "a1b2c3d4-0002" "1002"]
           else if String.eqb cursor "1002" then
             [wire "a1b2c3d4-0003" "1003"; wire "a1b2c3d4-0004" "1004"]
           else [] |},
   S calls).

(** A server that declares four devices and answers every call, whatever
    the cursor and the limit, with the same single device. *)
Definition stingy (cursor : string) (limit : Z) (calls : nat)
  : result Api.DevicesResponse * nat :=
  (Ok {| Api.Count := 4; Api.Devices := [wire "a1b2c3d4-0001" "1001"] |}, S calls).

(** A context that is never done and a service that accepts every device,
    on the state of these servers. *)
Definition neverDone (calls : nat) : bool * nat := (false, calls).
Definition accept (d : Device.Device) (calls : nat) : option error * nat := (None, calls).

(** The synthetic API of the end-to-end scenario: a probe, then pages of
    2, 2 and 0 devices for a declared total of 4, the first request for
    the second page being answered 429. *)
Definition syncNet : Api.Net :=
  {| Api.transport :=
       fun n _ =>
         nth n [status 200 "probe"; status 200 "page1"; status 429 "slow down";
                status 200 "page2"; status 200 "page3"]
             (inl "no more answers");
     Api.newRequestErr := fun _ _ => None;
     Api.decodeToken := fun _ => None;
     Api.decodeDevices :=
       fun body =>
         if String.eqb body "probe" then
           Some {| Api.Count := 4; Api.Devices := [wire "a1b2c3d4-0001" "1001"] |}
         else if String.eqb body "page1" then
           Some {| Api.Count := 4;
                   Api.Devices := [wire "a1b2c3d4-0001" "1001";
                                   wire "a1b2c3d4-0002" "1002"] |}
         else if String.eqb body "page2" then
           Some {| Api.Count := 4;
                   Api.Devices := [wire "a1b2c3d4-0003" "1003";
                                   wire "a1b2c3d4-0004" "1004"] |}
         else if String.eqb body "page3" then
           Some {| Api.Count := 4; Api.Devices := [] |}
         else None;
     Api.decodeVulnerabilities := fun _ => None |}.

(** A file of three items whose second value is no Device. *)
Definition damaged : World :=
  withDb world0
    [("a1b2c3d4-0001", written phone); ("a1b2c3d4-0002", "not json");
     ("a1b2c3d4-0003", written phone)].

(** A context that is cancelled from its [n]-th poll on. *)
Definition cancelledFrom (n : nat) : Ctx := fun k => (n <=? k)%nat.

(** The file after the phone, the tablet and the watch were created in
    this order: the phone counts its two children. *)
Definition family : World :=
  snd (Device.CreateDevice background codec watch
         (snd (Device.CreateDevice background codec tablet
                 (snd (Device.CreateDevice background codec
                         phone world0))))).

(** A device of a platform the service does not know. *)
Definition desktop : Device.Device :=
  {| Device.GUID := "a1b2c3d4-0007"; Device.OID := "1007";
     Device.ParentDeviceGUID := "";
     Device.ActivationStatus := "ACTIVATED";
     Device.Platform := "WINDOWS";
     Device.Software_ := {| Device.SecurityPatchLevel := "";
                            Device.OSVersion := "11" |};
     Device.ChildCount := 0;
     Device.LastUpdated := Main.zeroTime |}.

(** The file after the tablet, then the phone it names as its parent,
    were created: the phone does not count the tablet. *)
Definition uncounted : World :=
  snd (Device.CreateDevice background codec phone
         (snd (Device.CreateDevice background codec
                 tablet world0))).

(** A second Android phone, and the file of the family with it. *)
Definition spare : Device.Device :=
  {| Device.GUID := "a1b2c3d4-0005"; Device.OID := "1005";
     Device.ParentDeviceGUID := "";
     Device.ActivationStatus := "DEACTIVATED";
     Device.Platform := "ANDROID";
     Device.Software_ := {| Device.SecurityPatchLevel := "2024-01-05";
                            Device.OSVersion := "" |};
     Device.ChildCount := 0;
     Device.LastUpdated := Main.zeroTime |}.

Definition household : World :=
  snd (Device.CreateDevice background codec spare family).

(** The watch, handed over to the second phone. *)
Definition moved : Device.Device :=
  {| Device.GUID := Device.GUID watch;
     Device.OID := Device.OID watch;
     Device.ParentDeviceGUID := Device.GUID spare;
     Device.ActivationStatus := Device.ActivationStatus watch;
     Device.Platform := Device.Platform watch;
     Device.Software_ := Device.Software_ watch;
     Device.ChildCount := 0;
     Device.LastUpdated := Main.zeroTime |}.

(** A client built with a negative number of retries, which the
    validation of the configuration would have refused, and a token valid
    for one more hour. *)
Definition careless : Api.Client :=
  {| Api.baseURL := "https://api.lookout.com";
     Api.applicationKey := "key";
     Api.accessToken := "token";
     Api.tokenExpiry := GoTime.Date 2024 1 1 + GoTime.Hour;
     Api.maxRetries := -1;
     Api.retryDelay := 5 * GoTime.Second |}.

(** A client that has no token yet. *)
Definition fresh : Api.Client :=
  {| Api.baseURL := "https://api.lookout.com";
     Api.applicationKey := "key";
     Api.accessToken := "";
     Api.tokenExpiry := Main.zeroTime;
     Api.maxRetries := 3;
     Api.retryDelay := 5 * GoTime.Second |}.

(** A network that grants a token of one hour at the first request and
    answers 429 to every request after it. *)
Definition grantingNet : Api.Net :=
  {| Api.transport :=
       fun n _ => if (n =? 0)%nat then status 200 "grant"
                  else status 429 "slow down";
     Api.newRequestErr := fun _ _ => None;
     Api.decodeToken :=
       fun body =>
         if String.eqb body "grant" then
           Some {| Api.AccessToken := "granted"; Api.TokenType := "Bearer";
                   Api.ExpiresAt := 0; Api.ExpiresIn := 3600;
                   Api.Scope := "" |}
         else None;
     Api.decodeDevices := fun _ => None;
     Api.decodeVulnerabilities := fun _ => None |}.

(** The configuration of a process started with [--local] in an empty
    environment and no [.env] file: every setting is its default. *)
Definition defaults : Config.Config :=
  {| Config.API :=
       {| Config.BaseURL := "https://api.lookout.com";
          Config.ApplicationKey := "";
          Config.Timeout := 30 * GoTime.Second;
          Config.MaxRetries := 3;
          Config.RetryDelay := 5 * GoTime.Second |};
     Config.Database := {| Config.Path := "data/devices.db";
                           Config.MaxConnections := 10 |};
     Config.App := {| Config.Environment := "development";
                      Config.LogLevel := "info";
                      Config.WorkerCount := 5;
                      Config.BatchSize := 1000;
                      Config.ShutdownTimeout := 30 * GoTime.Second |} |}.

(** An environment that sets nothing, and a parser of durations that is
    never asked. *)
Definition emptyEnv : Config.Env := fun _ => None.
Definition noDuration (s : string) : option Z := None.

End Scenario.

(** * Properties *)

Local Open Scope list_scope.

(** ** Risk classification *)

(** Evaluates the age in months that a goal mentions, then concludes by
    linear arithmetic. *)
Ltac months_lia :=
  match goal with
  | |- context [Analyzer.monthsOld ?a ?b] =>
      let v := eval vm_compute in (Analyzer.monthsOld a b) in
      replace (Analyzer.monthsOld a b) with v by (vm_compute; reflexivity)
  end; lia.

Lemma analyzeAndroidRisk_unparsable (now : Z) (patch : string) :
  GoTime.ParseDate patch = None ->
  Analyzer.analyzeAndroidRisk now patch = Analyzer.RiskHigh.
Proof.
  intros H. unfold Analyzer.analyzeAndroidRisk. now rewrite H.
Qed.

Lemma analyzeAndroidRisk_parsed (now : Z) (patch : string) (date : Z) :
  GoTime.ParseDate patch = Some date ->
  Analyzer.analyzeAndroidRisk now patch =
    if 12 <=? Analyzer.monthsOld now date then Analyzer.RiskHigh
    else if 6 <=? Analyzer.monthsOld now date then Analyzer.RiskMedium
    else Analyzer.RiskLow.
Proof.
  intros H. unfold Analyzer.analyzeAndroidRisk. now rewrite H.
Qed.

Lemma analyzeIOSRisk_parsed (version : string) (n : Z) :
  version <> "" ->
  GoStrings.Atoi (GoStrings.first (GoStrings.Split version ".")) = Some n ->
  Analyzer.analyzeIOSRisk version =
    if n <=? 15 then Analyzer.RiskHigh
    else if n <=? 17 then Analyzer.RiskMedium
    else Analyzer.RiskLow.
Proof.
  intros Hne H. unfold Analyzer.analyzeIOSRisk.
  apply String.eqb_neq in Hne. now rewrite Hne, H.
Qed.

Lemma analyzeIOSRisk_unparsable (version : string) :
  version = "" \/ GoStrings.Atoi (GoStrings.first (GoStrings.Split version ".")) = None ->
  Analyzer.analyzeIOSRisk version = Analyzer.RiskHigh.
Proof.
  intros [-> | H]; [reflexivity |].
  unfold Analyzer.analyzeIOSRisk. rewrite H. now destruct (String.eqb version "").
Qed.

Lemma allFrom_spec (f : Z -> bool) (n : nat) :
  forall z, Spec.allFrom n z f = true ->
            forall k, z <= k < z + Z.of_nat n -> f k = true.
Proof.
  induction n as [| n IH]; intros z H k Hk; [lia |].
  simpl in H. destruct (f z) eqn:E; [| discriminate].
  destruct (Z.eq_dec k z) as [-> | Hne]; [exact E |].
  apply (IH (z + 1) H). lia.
Qed.

(** For an age of whole days, from ten years ahead of the clock to a
    hundred years behind it, the float64 months are reached exactly at the
    thresholds of 180 and 360 days: checked on each number of days. *)
Lemma monthsOfDays_thresholds (k : Z) :
  -3653 <= k <= 36525 ->
  (12 <=? Spec.monthsOfDays k) = (360 <=? k)
  /\ (6 <=? Spec.monthsOfDays k) = (180 <=? k).
Proof.
  intros Hk.
  pose (f := fun k => let m := Spec.monthsOfDays k in
                      Bool.eqb (12 <=? m) (360 <=? k) && Bool.eqb (6 <=? m) (180 <=? k)).
  assert (Hf : f k = true).
  { apply (allFrom_spec f (Z.to_nat 40179) (-3653)); [vm_compute; reflexivity | lia]. }
  unfold f in Hf. cbv zeta in Hf. apply andb_true_iff in Hf. destruct Hf as [H1 H2].
  split; now apply Bool.eqb_prop.
Qed.

(** The Android classes by whole days: a patch level is High from 360
    days of age on, Medium from 180 days on, Low below, when the clock is
    a whole number of days after the patch date, within a hundred years
    of it. *)
Lemma analyzeAndroidRisk_whole_days (now : Z) (patch : string) (date k : Z) :
  GoTime.ParseDate patch = Some date ->
  now - date = k * Spec.Day ->
  -3653 <= k <= 36525 ->
  Analyzer.analyzeAndroidRisk now patch =
    if 360 <=? k then Analyzer.RiskHigh
    else if 180 <=? k then Analyzer.RiskMedium
    else Analyzer.RiskLow.
Proof.
  intros Hp Hk Hrange. rewrite (analyzeAndroidRisk_parsed now patch date Hp).
  assert (Hm : Analyzer.monthsOld now date = Spec.monthsOfDays k).
  { unfold Analyzer.monthsOld, Spec.monthsOfDays, GoTime.Since, GoTime.Sub.
    now rewrite Hk, Z.sub_0_r. }
  rewrite Hm. destruct (monthsOfDays_thresholds k Hrange) as [-> ->]. reflexivity.
Qed.

(** Below a whole day the float64 division rounds: one nanosecond short
    of 360 days counts as 12 months, the hours being rounded to 8640. *)
Remark months30_rounds :
  GoTime.months30 (360 * Spec.Day - 1) = 12
  /\ (360 * Spec.Day - 1) / (30 * Spec.Day) = 11.
Proof. split; vm_compute; reflexivity. Qed.

(** The classes by whole days at the patch 2023-01-01: 359 days later
    it is Medium, 360 days later High. *)
Lemma analyzeAndroidRisk_whole_days_witness :
  Analyzer.analyzeAndroidRisk (GoTime.Date 2023 12 26) "2023-01-01" = Analyzer.RiskMedium
  /\ Analyzer.analyzeAndroidRisk (GoTime.Date 2023 12 27) "2023-01-01" = Analyzer.RiskHigh.
Proof.
  split.
  - apply (analyzeAndroidRisk_whole_days (GoTime.Date 2023 12 26) "2023-01-01"
             (GoTime.Date 2023 1 1) 359); [reflexivity | reflexivity | lia].
  - apply (analyzeAndroidRisk_whole_days (GoTime.Date 2023 12 27) "2023-01-01"
             (GoTime.Date 2023 1 1) 360); [reflexivity | reflexivity | lia].
Defined.



(** ** The client: validation before any request *)

Lemma Contains_dash (s : string) :
  GoStrings.Contains s "-" = true <-> In "-"%char (list_ascii_of_string s).
Proof.
  unfold GoStrings.Contains.
  induction s as [| c r IH]; simpl.
  - split; [discriminate | tauto].
  - destruct (Ascii.eqb_spec "-"%char c) as [<- | Hne].
    + simpl. destruct r; simpl; tauto.
    + replace (match Ascii.ascii_dec "-" c with left _ => _ | right _ => _ end)
        with false by (destruct (Ascii.ascii_dec "-" c); [congruence | reflexivity]).
      destruct (String.index 0 "-" r); split; intros H.
      * right. now apply IH.
      * reflexivity.
      * discriminate.
      * destruct H as [H | H]; [congruence |]. apply IH in H. discriminate.
Qed.

(** C10.  [GetVulnerabilities] returns a ValidationError and makes no
    request (the world, its log of requests included, and the client are
    returned unchanged) when the version is empty, when the platform is
    neither ANDROID nor IOS, and when the platform is ANDROID and the
    version holds no [-]. *)
Theorem GetVulnerabilities_validation
        (ctx : Ctx) (net : Api.Net) (c : Api.Client) (w : World)
        (platform version : string) :
  version = ""
  \/ (platform <> "ANDROID" /\ platform <> "IOS")
  \/ (platform = "ANDROID" /\ ~ In "-"%char (list_ascii_of_string version)) ->
  exists field value message,
    Api.GetVulnerabilities ctx net platform version c w
    = (Err (ValidationError field value message), c, w).
Proof.
  intros H. unfold Api.GetVulnerabilities.
  destruct (String.eqb_spec version "") as [-> | Hv].
  { now exists "version", "", "version is required". }
  destruct H as [H | [[Ha Hi] | [-> Hd]]]; [contradiction | |].
  - apply String.eqb_neq in Ha, Hi. rewrite Ha, Hi.
    now exists "platform", platform, "invalid platform".
  - simpl.
    destruct (GoStrings.Contains version "-") eqn:E.
    + apply Contains_dash in E. contradiction.
    + now exists "version", version, "invalid security patch level format".
Qed.

(** C10 at a patch level written without dashes, on a network that would
    answer 200 to anything: no request reaches it. *)
Lemma GetVulnerabilities_validation_witness :
  exists field value message,
    Api.GetVulnerabilities Scenario.background
      (Scenario.constantNet (Scenario.status 200 "{}"))
      "ANDROID" "20230101" Scenario.client3 Scenario.world0
    = (Err (ValidationError field value message), Scenario.client3, Scenario.world0).
Proof.
  apply GetVulnerabilities_validation.
  right; right. split; [reflexivity |].
  simpl. intros H. repeat (destruct H as [H | H]; [discriminate H |]). exact H.
Defined.

(** ** The client: the retry policy of [doRequest] *)

Lemma sentCount_app (l1 l2 : list Event) :
  sentCount (l1 ++ l2) = (sentCount l1 + sentCount l2)%nat.
Proof.
  unfold sentCount. now rewrite filter_app, length_app.
Qed.

Lemma sleptCount_app (l1 l2 : list Event) :
  Spec.sleptCount (l1 ++ l2) = (Spec.sleptCount l1 + Spec.sleptCount l2)%nat.
Proof.
  unfold Spec.sleptCount. now rewrite filter_app, length_app.
Qed.

Lemma attemptEvents_sent (delay : Z) (req : Request) (attempt : Z) :
  sentCount (Spec.attemptEvents delay req attempt) = 1%nat.
Proof.
  unfold Spec.attemptEvents. now destruct (0 <? attempt).
Qed.

Lemma attemptsEvents_sent (delay : Z) (req : Request) (k : nat) :
  forall attempt, sentCount (Spec.attemptsEvents delay req attempt k) = S k.
Proof.
  induction k as [| k IH]; intros attempt; simpl.
  - apply attemptEvents_sent.
  - now rewrite sentCount_app, attemptEvents_sent, IH.
Qed.

Lemma attemptsEvents_slept (delay : Z) (req : Request) (k : nat) :
  forall attempt, 0 <= attempt ->
    Spec.sleptCount (Spec.attemptsEvents delay req attempt k)
    = ((if (0 <? attempt)%Z then 1 else 0) + k)%nat.
Proof.
  induction k as [| k IH]; intros attempt Ha; simpl.
  - unfold Spec.attemptEvents. destruct (0 <? attempt); reflexivity.
  - rewrite sleptCount_app, IH by lia.
    replace (0 <? attempt + 1) with true by (symmetry; apply Z.ltb_lt; lia).
    unfold Spec.attemptEvents. destruct (0 <? attempt); simpl; lia.
Qed.

Lemma attemptsEvents_delay (delay : Z) (req : Request) (k : nat) :
  forall attempt d, In (Slept d) (Spec.attemptsEvents delay req attempt k) -> d = delay.
Proof.
  assert (H1 : forall attempt d,
             In (Slept d) (Spec.attemptEvents delay req attempt) -> d = delay).
  { intros attempt d. unfold Spec.attemptEvents.
    destruct (0 <? attempt); simpl; intros [H | H]; try congruence;
      try contradiction; destruct H as [H | H]; congruence || contradiction. }
  induction k as [| k IH]; intros attempt d; simpl.
  - apply H1.
  - intros H. apply in_app_or in H. destruct H as [H | H]; eauto.
Qed.

Section DoRequest.

Variable ctx : Ctx.
Variable net : Api.Net.
Variable c : Api.Client.
Variables method url : string.
Variable body : option string.

Hypothesis ctx_alive : Spec.alive ctx.
Hypothesis url_ok : Api.newRequestErr net method url = None.

Let req : Request := Api.apiRequest c method url body.
Let outcome (w : World) (i : nat) : string + Response :=
  Api.transport net (sentCount (log w) + i)%nat req.

(** The loop from [attempt] on: when the next [k] outcomes are retryable
    and the one after them ends the loop, the loop makes exactly these
    [k + 1] attempts and returns the verdict on the last outcome. *)
Lemma attempts_run (k : nat) :
  forall (attempt : Z) (w : World),
    0 <= attempt ->
    attempt + Z.of_nat k <= Api.maxRetries c ->
    (forall i, (i < k)%nat -> Spec.retryable (outcome w i) = true) ->
    (Spec.retryable (outcome w k) = true ->
     attempt + Z.of_nat k = Api.maxRetries c) ->
    exists w',
      Api.attempts ctx net (Z.to_nat (Api.maxRetries c + 1 - attempt))
        attempt c method url body w
      = (Spec.verdict (Api.maxRetries c) (outcome w k), w')
      /\ log w' = log w ++ Spec.attemptsEvents (Api.retryDelay c) req attempt k
      /\ db w' = db w.
Proof.
  induction k as [| k IH]; intros attempt w Ha Hk Hretry Hlast.
  - replace (Z.to_nat (Api.maxRetries c + 1 - attempt))
      with (S (Z.to_nat (Api.maxRetries c - attempt))) by lia.
    simpl Api.attempts. unfold poll. rewrite ctx_alive, url_ok.
    unfold send. fold req.
    set (w1 := if 0 <? attempt then _ else _).
    assert (Hlog : log w1 = log w ++ (if 0 <? attempt then [Slept (Api.retryDelay c)] else [])).
    { subst w1. destruct (0 <? attempt); simpl; [reflexivity | now rewrite app_nil_r]. }
    assert (Hdb : db w1 = db w) by (subst w1; now destruct (0 <? attempt)).
    assert (Hsent : sentCount (log w1) = sentCount (log w)).
    { rewrite Hlog, sentCount_app. unfold sentCount. destruct (0 <? attempt); simpl; lia. }
    rewrite Hsent. unfold outcome in *. rewrite Nat.add_0_r in *.
    exists (withLog w1 (log w1 ++ [Sent req])).
    split; [| split; [simpl; rewrite Hlog, <- app_assoc; reflexivity | exact Hdb]].
    unfold Spec.verdict, Spec.retryable in *. simpl Z.of_nat in Hlast.
    rewrite Z.add_0_r in Hlast.
    destruct (Api.transport net (sentCount (log w)) req) as [e | resp] eqn:E.
    + rewrite (proj2 (Z.eqb_eq _ _) (Hlast eq_refl)). reflexivity.
    + destruct (StatusCode resp =? 429) eqn:E429.
      * rewrite (proj2 (Z.eqb_eq _ _) (Hlast eq_refl)). reflexivity.
      * destruct (400 <=? StatusCode resp); reflexivity.
  - replace (Z.to_nat (Api.maxRetries c + 1 - attempt))
      with (S (Z.to_nat (Api.maxRetries c + 1 - (attempt + 1)))) by lia.
    simpl Api.attempts. unfold poll. rewrite ctx_alive, url_ok.
    unfold send. fold req.
    set (w1 := if 0 <? attempt then _ else _).
    assert (Hlog : log w1 = log w ++ (if 0 <? attempt then [Slept (Api.retryDelay c)] else [])).
    { subst w1. destruct (0 <? attempt); simpl; [reflexivity | now rewrite app_nil_r]. }
    assert (Hdb : db w1 = db w) by (subst w1; now destruct (0 <? attempt)).
    assert (Hsent : sentCount (log w1) = sentCount (log w)).
    { rewrite Hlog, sentCount_app. unfold sentCount. destruct (0 <? attempt); simpl; lia. }
    rewrite Hsent.
    set (w2 := withLog w1 (log w1 ++ [Sent req])).
    assert (Hsent2 : sentCount (log w2) = S (sentCount (log w))).
    { subst w2. simpl. rewrite sentCount_app, Hsent.
      change (sentCount [Sent req]) with 1%nat. lia. }
    assert (Hne : (attempt =? Api.maxRetries c) = false) by (apply Z.eqb_neq; lia).
    destruct (IH (attempt + 1) w2) as (w' & Hrun & Hlog' & Hdb').
    + lia.
    + lia.
    + intros i Hi. unfold outcome. rewrite Hsent2.
      replace (S (sentCount (log w)) + i)%nat with (sentCount (log w) + S i)%nat by lia.
      apply Hretry. lia.
    + unfold outcome. rewrite Hsent2.
      replace (S (sentCount (log w)) + k)%nat with (sentCount (log w) + S k)%nat by lia.
      intros H. specialize (Hlast H). lia.
    + exists w'.
      assert (Hout : outcome w2 k = outcome w (S k)).
      { unfold outcome. rewrite Hsent2. f_equal. lia. }
      rewrite Hout in Hrun.
      split; [| split].
      * pose proof (Hretry 0%nat ltac:(lia)) as H0. unfold outcome in H0.
        rewrite Nat.add_0_r in H0.
        unfold Spec.retryable in H0.
        destruct (Api.transport net (sentCount (log w)) req) as [e | resp] eqn:E.
        { rewrite Hne. exact Hrun. }
        { rewrite H0, Hne. exact Hrun. }
      * rewrite Hlog'. subst w2. simpl. rewrite Hlog.
        unfold Spec.attemptEvents. rewrite <- !app_assoc. reflexivity.
      * rewrite Hdb'. subst w2. simpl. exact Hdb.
Qed.

End DoRequest.

Lemma ensureValidToken_valid (net : Api.Net) (c : Api.Client) (w : World) :
  Api.accessToken c <> "" ->
  clock w < Api.tokenExpiry c ->
  Api.ensureValidToken net c w = (None, c, w).
Proof.
  intros Htok Hexp. unfold Api.ensureValidToken.
  apply String.eqb_neq in Htok. apply Z.ltb_lt in Hexp.
  now rewrite Htok, Hexp.
Qed.




(** ** The key-value file *)

Lemma ltb_irrefl (a : string) : String.ltb a a = false.
Proof.
  unfold String.ltb.
  pose proof (proj2 (String_as_OT.cmp_eq a a) eq_refl) as H.
  unfold String_as_OT.cmp in H. now rewrite H.
Qed.

Lemma ltb_trans (a b c : string) :
  String.ltb a b = true -> String.ltb b c = true -> String.ltb a c = true.
Proof.
  unfold String.ltb. intros Hab Hbc.
  assert (H1 : String_as_OT.lt a b).
  { apply String_as_OT.cmp_lt. unfold String_as_OT.cmp.
    destruct (String.compare a b); congruence. }
  assert (H2 : String_as_OT.lt b c).
  { apply String_as_OT.cmp_lt. unfold String_as_OT.cmp.
    destruct (String.compare b c); congruence. }
  pose proof (proj2 (String_as_OT.cmp_lt a c) (String_as_OT.lt_trans _ _ _ H1 H2)) as H.
  unfold String_as_OT.cmp in H. now rewrite H.
Qed.

Lemma ltb_total (a b : string) :
  a <> b -> String.ltb a b = false -> String.ltb b a = true.
Proof.
  unfold String.ltb. intros Hne Hab.
  rewrite String.compare_antisym.
  destruct (String.compare a b) eqn:E; simpl; try congruence.
  apply String.compare_eq_iff in E. contradiction.
Qed.

Lemma ltb_asym (a b : string) :
  String.ltb a b = true -> String.ltb b a = false.
Proof.
  intros H. destruct (String.ltb b a) eqn:E; [| reflexivity].
  pose proof (ltb_trans _ _ _ H E) as H1. now rewrite ltb_irrefl in H1.
Qed.

Lemma Get_Set_same (k v : string) (d : BuntDB.DB) :
  BuntDB.Get k (BuntDB.Set_ k v d) = Some v.
Proof.
  induction d as [| [k' v'] r IH]; simpl.
  - now rewrite String.eqb_refl.
  - destruct (String.eqb k k') eqn:E; simpl.
    + now rewrite String.eqb_refl.
    + destruct (String.ltb k k'); simpl.
      * now rewrite String.eqb_refl.
      * now rewrite E.
Qed.

Lemma Get_Set_other (k k' v : string) (d : BuntDB.DB) :
  k' <> k -> BuntDB.Get k' (BuntDB.Set_ k v d) = BuntDB.Get k' d.
Proof.
  intros Hne. apply String.eqb_neq in Hne.
  induction d as [| [k0 v0] r IH]; simpl.
  - now rewrite Hne.
  - destruct (String.eqb_spec k k0) as [<- | Hk]; simpl.
    + now rewrite Hne.
    + destruct (String.ltb k k0); simpl.
      * now rewrite Hne.
      * now rewrite IH.
Qed.

Lemma Set_Set (k v1 v2 : string) (d : BuntDB.DB) :
  BuntDB.Set_ k v2 (BuntDB.Set_ k v1 d) = BuntDB.Set_ k v2 d.
Proof.
  induction d as [| [k' v'] r IH]; simpl.
  - now rewrite String.eqb_refl.
  - destruct (String.eqb k k') eqn:E; simpl.
    + now rewrite String.eqb_refl.
    + destruct (String.ltb k k') eqn:L; simpl.
      * now rewrite String.eqb_refl.
      * now rewrite E, L, IH.
Qed.

Lemma keys_Set (k v : string) (d : BuntDB.DB) (x : string) :
  In x (BuntDB.keys (BuntDB.Set_ k v d)) -> x = k \/ In x (BuntDB.keys d).
Proof.
  unfold BuntDB.keys.
  induction d as [| [k' v'] r IH]; simpl.
  - intros [H | []]. now left.
  - destruct (String.eqb_spec k k') as [<- | Hk]; simpl.
    + intros [H | H]; auto.
    + destruct (String.ltb k k'); simpl.
      * intros [H | [H | H]]; auto.
      * intros [H | H]; auto. destruct (IH H); auto.
Qed.

Lemma In_keys_Set (k v : string) (d : BuntDB.DB) :
  In k (BuntDB.keys (BuntDB.Set_ k v d)).
Proof.
  unfold BuntDB.keys.
  induction d as [| [k' v'] r IH]; simpl.
  - now left.
  - destruct (String.eqb k k'); simpl; [now left |].
    destruct (String.ltb k k'); simpl; [now left | now right].
Qed.

Lemma ordered_Set (k v : string) (d : BuntDB.DB) :
  BuntDB.ordered d -> BuntDB.ordered (BuntDB.Set_ k v d).
Proof.
  unfold BuntDB.ordered.
  induction d as [| [k' v'] r IH]; simpl; intros Hs.
  - repeat constructor.
  - inversion Hs as [| ? ? Hr Hall]; subst.
    destruct (String.eqb_spec k k') as [<- | Hk]; simpl.
    + now constructor.
    + destruct (String.ltb k k') eqn:L; simpl.
      * constructor; [exact Hs |].
        constructor; [exact L |].
        eapply Forall_impl; [| exact Hall]. intros x Hx. eapply ltb_trans; eauto.
      * constructor; [now apply IH |].
        apply Forall_forall. intros x Hx.
        destruct (keys_Set _ _ _ _ Hx) as [-> | Hin].
        -- apply ltb_total; [congruence | exact L].
        -- rewrite Forall_forall in Hall. now apply Hall.
Qed.

Lemma ordered_NoDup (d : BuntDB.DB) :
  BuntDB.ordered d -> NoDup (BuntDB.keys d).
Proof.
  unfold BuntDB.ordered. generalize (BuntDB.keys d) as l.
  induction l as [| a l IH]; intros Hs; constructor;
    inversion Hs as [| ? ? Hr Hall]; subst.
  - intros Hin. rewrite Forall_forall in Hall.
    specialize (Hall a Hin). now rewrite ltb_irrefl in Hall.
  - now apply IH.
Qed.

(** A key that is present keeps the file at its length when it is set. *)
Lemma length_Set_present (k v v' : string) (d : BuntDB.DB) :
  BuntDB.ordered d -> BuntDB.Get k d = Some v' ->
  List.length (BuntDB.Set_ k v d) = List.length d.
Proof.
  unfold BuntDB.ordered.
  induction d as [| [k' w'] r IH]; simpl; intros Hs Hget; [discriminate |].
  inversion Hs as [| ? ? Hr Hall]; subst.
  destruct (String.eqb_spec k k') as [<- | Hk]; simpl; [reflexivity |].
  destruct (String.ltb k k') eqn:L; simpl.
  - exfalso. rewrite Forall_forall in Hall.
    assert (Hin : In k (BuntDB.keys r)).
    { clear - Hget. induction r as [| [a b] r IH]; simpl in *; [discriminate |].
      destruct (String.eqb_spec k a); [now left | right; auto]. }
    pose proof (Hall k Hin) as H. apply ltb_asym in H. congruence.
  - f_equal. now apply IH.
Qed.

(** ** The repository *)

Section Repository.

Variable ctx : Ctx.
Variable json : Device.Codec.
Hypothesis ctx_alive : Spec.alive ctx.

Lemma Save_ok (d : Device.Device) (w : World) (data : string) :
  Device.marshal json (Device.withLastUpdated d (clock w)) = Some data ->
  Device.Save ctx json d w
  = (None, withDb (withPolls w (S (polls w)))
             (BuntDB.Set_ (Device.GUID d) data (db w))).
Proof.
  intros H. unfold Device.Save, poll. rewrite ctx_alive. simpl. now rewrite H.
Qed.

Lemma Update_ok (d : Device.Device) (w : World) (data old : string) :
  Device.marshal json (Device.withLastUpdated d (clock w)) = Some data ->
  BuntDB.Get (Device.GUID d) (db w) = Some old ->
  Device.Update ctx json d w
  = (None, withDb (withPolls w (S (polls w)))
             (BuntDB.Set_ (Device.GUID d) data (db w))).
Proof.
  intros H Hold. unfold Device.Update, poll. rewrite ctx_alive. simpl.
  now rewrite H, Hold.
Qed.

Lemma Get_found (guid : string) (w : World) (data : string) (d : Device.Device) :
  BuntDB.Get guid (db w) = Some data ->
  Device.unmarshal json data = Some d ->
  Device.Get ctx json guid w = (inr d, withPolls w (S (polls w))).
Proof.
  intros H Hd. unfold Device.Get, poll. rewrite ctx_alive. simpl. now rewrite H, Hd.
Qed.

Lemma Get_missing (guid : string) (w : World) :
  BuntDB.Get guid (db w) = None ->
  Device.Get ctx json guid w
  = (inl (Errorf "device not found: %s" guid), withPolls w (S (polls w))).
Proof.
  intros H. unfold Device.Get, poll. rewrite ctx_alive. simpl. now rewrite H.
Qed.

Lemma Get_world (guid : string) (w : World) :
  snd (Device.Get ctx json guid w) = withPolls w (S (polls w)).
Proof.
  unfold Device.Get, poll. rewrite ctx_alive. simpl.
  destruct (BuntDB.Get guid (db w)); [| reflexivity].
  now destruct (Device.unmarshal json s).
Qed.

(** What a scan collects from items that all decode. *)
Lemma Ascend_decoded (keep : Device.Device -> bool) (items : BuntDB.DB)
      (ds : list Device.Device) :
  Forall2 (fun item d => Device.unmarshal json (snd item) = Some d) items ds ->
  forall rest acc,
    BuntDB.Ascend (Device.scan json keep) (items ++ rest) acc
    = BuntDB.Ascend (Device.scan json keep) rest (acc ++ filter keep ds).
Proof.
  induction 1 as [| [k v] d items ds Hd _ IH]; intros rest acc; simpl.
  - now rewrite app_nil_r.
  - unfold Device.scan at 1. simpl in Hd. rewrite Hd.
    rewrite IH. destruct (keep d); simpl; [now rewrite <- app_assoc | reflexivity].
Qed.

(** A scan ends at the first item that does not decode. *)
Lemma Ascend_malformed (keep : Device.Device -> bool) (key value : string)
      (rest : BuntDB.DB) (acc : list Device.Device) :
  Device.unmarshal json value = None ->
  BuntDB.Ascend (Device.scan json keep) ((key, value) :: rest) acc = acc.
Proof.
  intros H. simpl. unfold Device.scan. now rewrite H.
Qed.

End Repository.

Lemma withLastUpdated_restore (d : Device.Device) (t : Z) :
  Device.withLastUpdated (Device.withLastUpdated d t) (Device.LastUpdated d) = d.
Proof. now destruct d. Qed.



(** C9.  When the scan reaches an item whose value does not decode, after
    items that all decode, [List], [GetByPlatform] and [GetActiveDevices]
    return with a nil error what they kept of the items before it: that
    item and every item after it in key order are left out. *)
Theorem scans_stop_at_malformed
        (ctx : Ctx) (json : Device.Codec) (w : World)
        (before after : BuntDB.DB) (key value : string)
        (devices : list Device.Device) :
  ctx (polls w) = false ->
  db w = before ++ (key, value) :: after ->
  Forall2 (fun item d => Device.unmarshal json (snd item) = Some d) before devices ->
  Device.unmarshal json value = None ->
  fst (Device.List_ ctx json w) = Ok devices
  /\ (forall platform,
         fst (Device.GetByPlatform ctx json platform w)
         = Ok (filter (fun d => String.eqb (Device.Platform d) platform) devices))
  /\ fst (Device.GetActiveDevices ctx json w)
     = Ok (filter (fun d => String.eqb (Device.ActivationStatus d) "ACTIVATED") devices).
Proof.
  intros Hctx Hdb Hdec Hbad.
  unfold Device.List_, Device.GetByPlatform, Device.GetActiveDevices, poll.
  rewrite Hctx. simpl. rewrite Hdb.
  repeat split; intros;
    rewrite (Ascend_decoded json _ before devices Hdec), Ascend_malformed by assumption;
    simpl; try reflexivity.
  clear. induction devices; simpl; congruence.
Qed.

(** C9 on a file of three items whose second value is not a Device: the
    scans return the first device alone, without an error. *)
Lemma scans_stop_at_malformed_witness :
  fst (Device.List_ Scenario.background Scenario.codec Scenario.damaged)
  = Ok [Scenario.phone]
  /\ fst (Device.GetByPlatform Scenario.background Scenario.codec "IOS"
            Scenario.damaged) = Ok []
  /\ fst (Device.GetActiveDevices Scenario.background Scenario.codec
            Scenario.damaged) = Ok [Scenario.phone].
Proof.
  destruct (scans_stop_at_malformed Scenario.background Scenario.codec
              Scenario.damaged
              [("a1b2c3d4-0001", Scenario.written Scenario.phone)]
              [("a1b2c3d4-0003", Scenario.written Scenario.phone)]
              "a1b2c3d4-0002" "not json" [Scenario.phone])
    as (H1 & H2 & H3).
  - reflexivity.
  - reflexivity.
  - constructor; [| constructor]. vm_compute. reflexivity.
  - reflexivity.
  - split; [exact H1 |]. split; [exact (H2 "IOS") | exact H3].
Defined.

(** ** The service: parent and child *)

Section Service.

Variable ctx : Ctx.
Variable json : Device.Codec.
Hypothesis ctx_alive : Spec.alive ctx.

Lemma keyed_Set (key data : string) (d : BuntDB.DB) :
  Spec.keyed json d ->
  (forall device, Device.unmarshal json data = Some device -> Device.GUID device = key) ->
  Spec.keyed json (BuntDB.Set_ key data d).
Proof.
  intros Hk Hnew k v device Hget Hdec.
  destruct (String.eqb_spec k key) as [-> | Hne].
  - rewrite Get_Set_same in Hget. injection Hget as <-. now apply Hnew.
  - rewrite Get_Set_other in Hget by exact Hne. eapply Hk; eassumption.
Qed.

(** The world after a successful Save of [d]. *)
Definition saved (d : Device.Device) (data : string) (w : World) : World :=
  withDb (withPolls w (S (polls w))) (BuntDB.Set_ (Device.GUID d) data (db w)).

(** A device whose parent is not in the file is created without error,
    and only its own record is written. *)
Lemma CreateDevice_parent_absent (d : Device.Device) (w : World) (data : string) :
  Device.validateDevice d = None ->
  Device.marshal json (Device.withLastUpdated d (clock w)) = Some data ->
  BuntDB.Get (Device.ParentDeviceGUID d) (db (saved d data w)) = None ->
  exists w',
    Device.CreateDevice ctx json d w = (None, w')
    /\ db w' = BuntDB.Set_ (Device.GUID d) data (db w)
    /\ clock w' = clock w.
Proof.
  intros Hv Hm Habs. unfold Device.CreateDevice.
  rewrite Hv, (Save_ok ctx json ctx_alive d w data Hm). fold (saved d data w).
  destruct (negb (String.eqb (Device.ParentDeviceGUID d) "")).
  - rewrite (Get_missing ctx json ctx_alive _ _ Habs). eexists. split; [reflexivity |].
    split; reflexivity.
  - eexists. split; [reflexivity |]. split; reflexivity.
Qed.

(** A device whose parent is in the file is created without error, and the
    parent is written back with its count raised by one. *)
Lemma CreateDevice_parent_present
      (d parent : Device.Device) (w : World) (data pdata pdata' : string) :
  Device.validateDevice d = None ->
  Device.marshal json (Device.withLastUpdated d (clock w)) = Some data ->
  Device.ParentDeviceGUID d <> "" ->
  BuntDB.Get (Device.ParentDeviceGUID d) (db (saved d data w)) = Some pdata ->
  Device.unmarshal json pdata = Some parent ->
  Device.GUID parent = Device.ParentDeviceGUID d ->
  Device.marshal json
    (Device.withLastUpdated
       (Device.withChildCount parent (GoStrings.wrapInt (Device.ChildCount parent + 1)))
       (clock w)) = Some pdata' ->
  exists w',
    Device.CreateDevice ctx json d w = (None, w')
    /\ db w' = BuntDB.Set_ (Device.ParentDeviceGUID d) pdata'
                 (BuntDB.Set_ (Device.GUID d) data (db w))
    /\ clock w' = clock w.
Proof.
  intros Hv Hm Hp Hget Hdec Hguid Hm'. unfold Device.CreateDevice.
  rewrite Hv, (Save_ok ctx json ctx_alive d w data Hm). fold (saved d data w).
  apply String.eqb_neq in Hp. rewrite Hp. simpl negb. cbv iota.
  rewrite (Get_found ctx json ctx_alive _ _ _ _ Hget Hdec).
  erewrite Update_ok; [| assumption | simpl; exact Hm' | simpl; rewrite Hguid; exact Hget].
  eexists. split; [reflexivity |]. simpl. rewrite Hguid. split; reflexivity.
Qed.

(** Creating a device leaves alone every item that is neither its own nor
    its parent's, in a file whose items hold the devices of their keys. *)
Lemma CreateDevice_keeps (d : Device.Device) (w : World) (data key : string)
      (v : option string) :
  Device.validateDevice d = None ->
  Device.marshal json (Device.withLastUpdated d (clock w)) = Some data ->
  Spec.keyed json (BuntDB.Set_ (Device.GUID d) data (db w)) ->
  key <> Device.ParentDeviceGUID d ->
  BuntDB.Get key (BuntDB.Set_ (Device.GUID d) data (db w)) = v ->
  BuntDB.Get key (db (snd (Device.CreateDevice ctx json d w))) = v
  /\ clock (snd (Device.CreateDevice ctx json d w)) = clock w.
Proof.
  intros Hv Hm Hkeyed Hne Hget. unfold Device.CreateDevice.
  rewrite Hv, (Save_ok ctx json ctx_alive d w data Hm).
  destruct (negb (String.eqb (Device.ParentDeviceGUID d) "")); [| now split].
  unfold Device.Get, poll. rewrite ctx_alive. simpl.
  destruct (BuntDB.Get (Device.ParentDeviceGUID d)
              (BuntDB.Set_ (Device.GUID d) data (db w))) as [pdata |] eqn:Hp;
    [| now split].
  destruct (Device.unmarshal json pdata) as [parent |] eqn:Hdec; [| now split].
  pose proof (Hkeyed _ _ _ Hp Hdec) as Hguid.
  unfold Device.Update, poll. rewrite ctx_alive. simpl.
  match goal with
  | |- context [Device.marshal json (Device.withLastUpdated
                                       (Device.withChildCount ?p ?n) ?t)] =>
      destruct (Device.marshal json
                  (Device.withLastUpdated (Device.withChildCount p n) t))
        as [pdata' |]; [| now split]
  end.
  rewrite Hguid, Hp. simpl. split; [| reflexivity].
  rewrite Get_Set_other by exact Hne. exact Hget.
Qed.

End Service.

Lemma validateDevice_GUID (d : Device.Device) :
  Device.validateDevice d = None -> Device.GUID d <> "".
Proof.
  unfold Device.validateDevice. intros H Hg. rewrite Hg in H. discriminate.
Qed.

Lemma raised_count (parent : Device.Device) (t : Z) :
  Device.ChildCount parent = 0 ->
  Device.withLastUpdated
    (Device.withChildCount (Device.withLastUpdated parent t)
       (GoStrings.wrapInt (Device.ChildCount (Device.withLastUpdated parent t) + 1))) t
  = Device.withLastUpdated (Device.withChildCount parent 1) t.
Proof.
  intros H. destruct parent; simpl in *. subst. reflexivity.
Qed.

(** C5.  A valid child whose parent is not in the file is created without
    error, and the parent is still absent afterwards.  When the parent is
    created next, with the count 0 of a record that comes from the
    synchronisation, its stored count is 0: the earlier child is not
    counted.  A child created after the parent raises the stored count of
    the parent to 1.  The context is live, the file holds under each key
    the device of that key, the codec reads back the records written, and
    the parent differs from the children and is not its own parent. *)
Theorem CreateDevice_opportunistic_linkage
        (ctx : Ctx) (json : Device.Codec)
        (child parent late : Device.Device) (w : World) :
  Spec.alive ctx ->
  Spec.keyed json (db w) ->
  Device.validateDevice child = None ->
  Device.validateDevice parent = None ->
  Device.validateDevice late = None ->
  Device.ParentDeviceGUID child = Device.GUID parent ->
  Device.GUID child <> Device.GUID parent ->
  Device.ParentDeviceGUID late = Device.GUID parent ->
  Device.GUID late <> Device.GUID parent ->
  Device.ParentDeviceGUID parent <> Device.GUID parent ->
  Device.ChildCount parent = 0 ->
  BuntDB.Get (Device.GUID parent) (db w) = None ->
  Spec.roundtrips json (Device.withLastUpdated child (clock w)) ->
  Spec.roundtrips json (Device.withLastUpdated parent (clock w)) ->
  Spec.roundtrips json (Device.withLastUpdated late (clock w)) ->
  Spec.roundtrips json
    (Device.withLastUpdated (Device.withChildCount parent 1) (clock w)) ->
  exists w1,
    Device.CreateDevice ctx json child w = (None, w1)
    /\ BuntDB.Get (Device.GUID parent) (db w1) = None
    /\ forall e w2,
        Device.CreateDevice ctx json parent w1 = (e, w2) ->
        (exists stored w3,
            Device.Get ctx json (Device.GUID parent) w2 = (inr stored, w3)
            /\ stored = Device.withLastUpdated parent (clock w)
            /\ Device.ChildCount stored = 0)
        /\ exists w4 stored' w5,
            Device.CreateDevice ctx json late w2 = (None, w4)
            /\ Device.Get ctx json (Device.GUID parent) w4 = (inr stored', w5)
            /\ stored' = Device.withLastUpdated (Device.withChildCount parent 1) (clock w)
            /\ Device.ChildCount stored' = 1.
Proof.
  intros Hctx Hkeyed Hvc Hvp Hvl Hcp Hcne Hlp Hlne Hpp Hzero Habs
         (jc & Hmc & Huc) (jp & Hmp & Hup) (jl & Hml & Hul) (jp' & Hmp' & Hup').
  destruct (CreateDevice_parent_absent ctx json Hctx child w jc Hvc Hmc)
    as (w1 & Hc1 & Hdb1 & Hclock1).
  { simpl. rewrite Hcp, Get_Set_other by congruence. exact Habs. }
  exists w1. split; [exact Hc1 |].
  assert (Habs1 : BuntDB.Get (Device.GUID parent) (db w1) = None).
  { rewrite Hdb1, Get_Set_other by congruence. exact Habs. }
  split; [exact Habs1 |].
  assert (Hkeyed1 : Spec.keyed json (db w1)).
  { rewrite Hdb1. apply keyed_Set; [exact Hkeyed |].
    intros device Hd. rewrite Huc in Hd. now injection Hd as <-. }
  intros e w2 Hc2.
  rewrite <- Hclock1 in Hmp.
  destruct (CreateDevice_keeps ctx json Hctx parent w1 jp (Device.GUID parent) (Some jp)
              Hvp Hmp) as (Hget2 & Hclock2).
  { apply keyed_Set; [exact Hkeyed1 |].
    intros device Hd. rewrite Hup in Hd. now injection Hd as <-. }
  { congruence. }
  { apply Get_Set_same. }
  rewrite Hc2 in Hget2, Hclock2. simpl in Hget2, Hclock2.
  split.
  { eexists _, _. split; [eapply Get_found; eassumption |].
    split; [reflexivity | exact Hzero]. }
  assert (Hclock : clock w2 = clock w) by congruence.
  rewrite <- Hclock in Hml, Hmp'.
  destruct (CreateDevice_parent_present ctx json Hctx late
              (Device.withLastUpdated parent (clock w)) w2 jl jp jp' Hvl Hml)
    as (w4 & Hc4 & Hdb4 & Hclock4).
  { rewrite Hlp. now apply validateDevice_GUID. }
  { simpl. rewrite Hlp, Get_Set_other by congruence. exact Hget2. }
  { exact Hup. }
  { simpl. congruence. }
  { rewrite Hclock, raised_count by exact Hzero. rewrite <- Hclock. exact Hmp'. }
  eexists w4, _, _. split; [exact Hc4 |].
  split; [eapply Get_found; [exact Hctx | | exact Hup'] |].
  { rewrite Hdb4, Hlp. apply Get_Set_same. }
  split; reflexivity.
Qed.

(** C5 on the devices of the scenarios: the tablet arrives before the
    phone it names as its parent, the watch after it. *)
Lemma CreateDevice_opportunistic_linkage_witness :
  exists w1 e w2 stored w3 w4 stored' w5,
    Device.CreateDevice Scenario.background Scenario.codec Scenario.tablet
      Scenario.world0 = (None, w1)
    /\ BuntDB.Get (Device.GUID Scenario.phone) (db w1) = None
    /\ Device.CreateDevice Scenario.background Scenario.codec Scenario.phone w1 = (e, w2)
    /\ Device.Get Scenario.background Scenario.codec (Device.GUID Scenario.phone) w2
       = (inr stored, w3)
    /\ Device.ChildCount stored = 0
    /\ Device.CreateDevice Scenario.background Scenario.codec Scenario.watch w2
       = (None, w4)
    /\ Device.Get Scenario.background Scenario.codec (Device.GUID Scenario.phone) w4
       = (inr stored', w5)
    /\ Device.ChildCount stored' = 1.
Proof.
  destruct (CreateDevice_opportunistic_linkage Scenario.background Scenario.codec
              Scenario.tablet Scenario.phone Scenario.watch Scenario.world0)
    as (w1 & H1 & H2 & H3).
  - intros n. reflexivity.
  - intros key data device H. discriminate H.
  - reflexivity.
  - reflexivity.
  - reflexivity.
  - reflexivity.
  - discriminate.
  - reflexivity.
  - discriminate.
  - discriminate.
  - reflexivity.
  - reflexivity.
  - eexists; split; vm_compute; reflexivity.
  - eexists; split; vm_compute; reflexivity.
  - eexists; split; vm_compute; reflexivity.
  - eexists; split; vm_compute; reflexivity.
  - destruct (Device.CreateDevice Scenario.background Scenario.codec Scenario.phone w1)
      as [e w2] eqn:E.
    destruct (H3 e w2 eq_refl)
      as ((stored & w3 & H4 & _ & H5) & (w4 & stored' & w5 & H6 & H7 & _ & H8)).
    exists w1, e, w2, stored, w3, w4, stored', w5. repeat split; assumption.
Defined.

(** ** The analyzer: the device label *)

Lemma visitAll_short (now : Z) (devices : list Device.Device) :
  Exists (fun d => (String.length (Device.GUID d) < 8)%nat) devices ->
  forall t, Analyzer.visitAll now t devices = None.
Proof.
  induction 1 as [d r Hshort | d r _ IH]; intros t; simpl.
  - unfold Analyzer.visit, GoStrings.sliceTo.
    replace (8 <=? String.length (Device.GUID d))%nat with false
      by (symmetry; apply Nat.leb_gt; exact Hshort).
    reflexivity.
  - destruct (Analyzer.visit now t d); [apply IH | reflexivity].
Qed.

Lemma visitAll_long (now : Z) (devices : list Device.Device) :
  Forall (fun d => (8 <= String.length (Device.GUID d))%nat) devices ->
  forall t, exists t', Analyzer.visitAll now t devices = Some t'.
Proof.
  induction 1 as [| d r Hlong _ IH]; intros t; simpl.
  - now exists t.
  - assert (Hv : exists t1, Analyzer.visit now t d = Some t1).
    { unfold Analyzer.visit, GoStrings.sliceTo.
      replace (8 <=? String.length (Device.GUID d))%nat with true
        by (symmetry; apply Nat.leb_le; exact Hlong).
      destruct (String.eqb (Device.Platform d) "ANDROID").
      - destruct (negb _); eexists; reflexivity.
      - destruct (String.eqb (Device.Platform d) "IOS"); [| eexists; reflexivity].
        destruct (negb _); eexists; reflexivity. }
    destruct Hv as (t1 & ->). apply IH.
Qed.

(** C8.  When the store lists a device whose GUID has fewer than 8 bytes,
    [AnalyzeDevices] panics on the slice [d.GUID[:8]] and returns neither
    an analysis nor an error; when every listed GUID has at least 8 bytes
    it returns an analysis. *)
Theorem AnalyzeDevices_short_guid_panics
        (ctx : Ctx) (json : Device.Codec) (w : World)
        (devices : list Device.Device) :
  fst (Device.ListDevices ctx json w) = Ok devices ->
  (Exists (fun d => (String.length (Device.GUID d) < 8)%nat) devices ->
   fst (Analyzer.AnalyzeDevices ctx json w) = Panic)
  /\ (Forall (fun d => (8 <= String.length (Device.GUID d))%nat) devices ->
      exists analysis, fst (Analyzer.AnalyzeDevices ctx json w) = Ok analysis).
Proof.
  intros Hlist. unfold Analyzer.AnalyzeDevices.
  destruct (Device.ListDevices ctx json w) as [r w1]. simpl in Hlist. subst r.
  split; intros H.
  - now rewrite visitAll_short.
  - edestruct visitAll_long as (t & Ht); [exact H |]. rewrite Ht. eexists. reflexivity.
Qed.

(** C8 from the empty file: the service accepts the device of GUID [abc],
    and the analysis of the file that holds it panics. *)
Lemma AnalyzeDevices_short_guid_panics_witness :
  exists w1,
    Device.CreateDevice Scenario.background Scenario.codec Scenario.stub
      Scenario.world0 = (None, w1)
    /\ fst (Analyzer.AnalyzeDevices Scenario.background Scenario.codec w1) = Panic.
Proof.
  eexists. split; [vm_compute; reflexivity |].
  refine (proj1 (AnalyzeDevices_short_guid_panics Scenario.background Scenario.codec _
                   [Device.withLastUpdated Scenario.stub (clock Scenario.world0)] _) _).
  - vm_compute. reflexivity.
  - constructor. simpl. lia.
Defined.

(** ** The service: the vulnerability check *)

Lemma Since_above (now date bound : Z) :
  0 <= bound < GoTime.maxDuration ->
  (bound <? GoTime.Since now date) = (bound <? now - date).
Proof.
  unfold GoTime.Since, GoTime.Sub, GoTime.minDuration, GoTime.maxDuration.
  intros H. destruct (Z.ltb_spec bound (now - date));
    [apply Z.ltb_lt | apply Z.ltb_ge]; lia.
Qed.

(** The Android rule: vulnerable exactly when the patch level is empty,
    is no date, or is a date more than 180 days before the clock. *)
Lemma isVulnerable_android (now : Z) (d : Device.Device) :
  Device.Platform d = "ANDROID" ->
  Device.isVulnerable now d = true
  <-> (Device.SecurityPatchLevel (Device.Software_ d) = ""
       \/ GoTime.ParseDate (Device.SecurityPatchLevel (Device.Software_ d)) = None
       \/ exists date,
           GoTime.ParseDate (Device.SecurityPatchLevel (Device.Software_ d)) = Some date
           /\ 180 * 24 * GoTime.Hour < now - date).
Proof.
  intros Hp. unfold Device.isVulnerable. rewrite Hp. simpl String.eqb. cbv iota.
  destruct (String.eqb_spec (Device.SecurityPatchLevel (Device.Software_ d)) "") as [E | E].
  - split; auto.
  - destruct (GoTime.ParseDate (Device.SecurityPatchLevel (Device.Software_ d)))
      as [date |] eqn:P.
    + rewrite Since_above by (vm_compute; split; [discriminate | reflexivity]).
      rewrite Z.ltb_lt. split.
      * intros H. right; right. now exists date.
      * intros [H | [H | (date' & H1 & H2)]]; [contradiction | discriminate |].
        now injection H1 as ->.
    + split; auto.
Qed.

(** The Android rule on the phone of the scenarios, patched on
    2023-09-05: vulnerable on 2024-06-01, not yet on 2024-01-01. *)
Lemma isVulnerable_android_witness :
  Device.isVulnerable (GoTime.Date 2024 6 1) Scenario.phone = true
  /\ Device.isVulnerable (GoTime.Date 2024 1 1) Scenario.phone <> true.
Proof.
  split.
  - apply (proj2 (isVulnerable_android (GoTime.Date 2024 6 1) Scenario.phone eq_refl)).
    right; right. exists (GoTime.Date 2023 9 5). split; reflexivity.
  - intros H.
    apply (proj1 (isVulnerable_android (GoTime.Date 2024 1 1) Scenario.phone eq_refl)) in H.
    destruct H as [H | [H | (date & H1 & H2)]]; try discriminate.
    injection H1 as <-. vm_compute in H2. discriminate.
Defined.

(** The iOS rule of the code: vulnerable exactly when the version is
    empty, or is longer than two bytes and its first two bytes are below
    [15]. *)
Lemma isVulnerable_ios (now : Z) (d : Device.Device) :
  Device.Platform d = "IOS" ->
  Device.isVulnerable now d = true
  <-> (Device.OSVersion (Device.Software_ d) = ""
       \/ (2 < GoStrings.len (Device.OSVersion (Device.Software_ d))
           /\ GoStrings.lt
                (GoStrings.prefix (Device.OSVersion (Device.Software_ d)) 2) "15" = true)).
Proof.
  intros Hp. unfold Device.isVulnerable. rewrite Hp. simpl String.eqb. cbv iota.
  destruct (String.eqb_spec (Device.OSVersion (Device.Software_ d)) "") as [E | E].
  - split; auto.
  - destruct (Z.ltb_spec 2 (GoStrings.len (Device.OSVersion (Device.Software_ d))));
      simpl.
    + destruct (GoStrings.lt _ "15"); split; auto; try discriminate.
      intros [H' | [_ H']]; [contradiction | discriminate].
    + split; [discriminate |]. intros [H' | [H' _]]; [contradiction | lia].
Qed.

Lemma Split_first_cons (a : ascii) (r : string) :
  Ascii.eqb a "." = false ->
  GoStrings.first (GoStrings.Split (String a r) ".")
  = String a (GoStrings.first (GoStrings.Split r ".")).
Proof.
  intros H. simpl. rewrite H.
  destruct (GoStrings.Split r ".") as [| h t] eqn:E; [| reflexivity].
  destruct r; simpl in E; [discriminate |].
  destruct (Ascii.eqb a0 "."); [discriminate |].
  destruct (GoStrings.Split r "."); discriminate.
Qed.

Lemma compare_empty_right (s : string) : String.compare s "" <> Lt.
Proof. destruct s; discriminate. Qed.

(** On a version longer than two bytes, the comparison of its first two
    bytes with [15] is the comparison of its major version with [15]. *)
Lemma lt15_prefix_major (version : string) :
  2 < GoStrings.len version ->
  GoStrings.lt (GoStrings.prefix version 2) "15"
  = GoStrings.lt (GoStrings.first (GoStrings.Split version ".")) "15".
Proof.
  unfold GoStrings.len.
  destruct version as [| a [| b [| c r]]]; simpl String.length; try lia.
  intros _. unfold GoStrings.prefix, GoStrings.lt, String.ltb.
  change (substring 0 2 (String a (String b (String c r)))) with (String a (String b "")).
  destruct (Ascii.eqb_spec a ".") as [-> | Ha].
  { reflexivity. }
  apply Ascii.eqb_neq in Ha. rewrite (Split_first_cons a _ Ha).
  change (String.compare (String a (String b "")) "15")
    with (match Ascii.compare a "1" with
          | Eq => String.compare (String b "") "5"
          | Lt => Lt
          | Gt => Gt
          end).
  change (String.compare
            (String a (GoStrings.first (GoStrings.Split (String b (String c r)) "."))) "15")
    with (match Ascii.compare a "1" with
          | Eq => String.compare
                    (GoStrings.first (GoStrings.Split (String b (String c r)) ".")) "5"
          | Lt => Lt
          | Gt => Gt
          end).
  destruct (Ascii.compare a "1"); try reflexivity.
  destruct (Ascii.eqb_spec b ".") as [-> | Hb].
  { reflexivity. }
  apply Ascii.eqb_neq in Hb. rewrite (Split_first_cons b _ Hb).
  change (String.compare (String b "") "5")
    with (match Ascii.compare b "5" with
          | Eq => Eq
          | Lt => Lt
          | Gt => Gt
          end).
  change (String.compare
            (String b (GoStrings.first (GoStrings.Split (String c r) "."))) "5")
    with (match Ascii.compare b "5" with
          | Eq => String.compare (GoStrings.first (GoStrings.Split (String c r) ".")) ""
          | Lt => Lt
          | Gt => Gt
          end).
  destruct (Ascii.compare b "5"); try reflexivity.
  pose proof (compare_empty_right (GoStrings.first (GoStrings.Split (String c r) "."))).
  destruct (String.compare _ ""); congruence.
Qed.

(** Where the code and C6 agree: on every iOS version that is empty or
    longer than two bytes, the device is vulnerable exactly when its
    major version is below [15] as a string. *)
Lemma isVulnerable_ios_major (now : Z) (d : Device.Device) :
  Device.Platform d = "IOS" ->
  Device.OSVersion (Device.Software_ d) = ""
  \/ 2 < GoStrings.len (Device.OSVersion (Device.Software_ d)) ->
  Device.isVulnerable now d
  = GoStrings.lt
      (GoStrings.first (GoStrings.Split (Device.OSVersion (Device.Software_ d)) "."))
      "15".
Proof.
  intros Hp H. unfold Device.isVulnerable. rewrite Hp. simpl String.eqb. cbv iota.
  destruct H as [-> | H]; [reflexivity |].
  rewrite <- lt15_prefix_major by exact H.
  destruct (String.eqb_spec (Device.OSVersion (Device.Software_ d)) "") as [E | E].
  - rewrite E in H. discriminate H.
  - apply Z.ltb_lt in H. rewrite H. simpl.
    now destruct (GoStrings.lt _ "15").
Qed.

(** Where they part: an iOS version of one or two bytes is never
    vulnerable for the code. *)
Lemma isVulnerable_ios_short (now : Z) (d : Device.Device) :
  Device.Platform d = "IOS" ->
  Device.OSVersion (Device.Software_ d) <> "" ->
  GoStrings.len (Device.OSVersion (Device.Software_ d)) <= 2 ->
  Device.isVulnerable now d = false.
Proof.
  intros Hp Hne Hlen. unfold Device.isVulnerable. rewrite Hp. simpl String.eqb. cbv iota.
  apply String.eqb_neq in Hne. rewrite Hne.
  now replace (2 <? GoStrings.len (Device.OSVersion (Device.Software_ d)))
    with false by (symmetry; apply Z.ltb_ge; lia).
Qed.

(** C6 at the iOS version [14]: its major version, [14], is below [15] as
    a string, and the code does not count the device as vulnerable,
    whatever the clock. *)
Theorem isVulnerable_ios_14 :
  forall now : Z,
    GoStrings.lt (GoStrings.first (GoStrings.Split "14" ".")) "15" = true
    /\ Device.isVulnerable now (Scenario.ios "14") = false.
Proof.
  intros now. split; reflexivity.
Qed.

(** ** The analyzer: the order of the version lists *)

Section SortSlice.

Variables (A K : Type) (less : A -> A -> bool) (key : A -> K).

Hypothesis less_trans :
  forall a b c, less a b = true -> less b c = true -> less a c = true.
Hypothesis less_total :
  forall a b, key a <> key b -> less a b = false -> less b a = true.

Let before (a b : A) : Prop := less a b = true.

Lemma In_insert (x y : A) (l : list A) :
  In y (Analyzer.insert less x l) <-> y = x \/ In y l.
Proof.
  induction l as [| z r IH]; simpl.
  - intuition.
  - destruct (less z x); simpl; rewrite ?IH; intuition.
Qed.

Lemma insert_sorted (x : A) (l : list A) :
  ~ In (key x) (map key l) ->
  StronglySorted before l ->
  StronglySorted before (Analyzer.insert less x l).
Proof.
  induction l as [| y r IH]; simpl; intros Hnew Hs.
  - repeat constructor.
  - inversion Hs as [| ? ? Hr Hall]; subst.
    destruct (less y x) eqn:E.
    + constructor; [apply IH; [tauto | exact Hr] |].
      apply Forall_forall. intros z Hz. apply In_insert in Hz.
      destruct Hz as [-> | Hz]; [exact E |].
      rewrite Forall_forall in Hall. now apply Hall.
    + assert (Hxy : before x y).
      { apply less_total; [| exact E]. intros Hk. apply Hnew. now left. }
      constructor; [exact Hs |].
      constructor; [exact Hxy |].
      eapply Forall_impl; [| exact Hall]. intros z Hz. eapply less_trans; eauto.
Qed.

Lemma insert_perm (x : A) (l : list A) :
  Permutation (x :: l) (Analyzer.insert less x l).
Proof.
  induction l as [| y r IH]; simpl.
  - reflexivity.
  - destruct (less y x); [| reflexivity].
    rewrite perm_swap. now constructor.
Qed.

Lemma sortSlice_perm (l : list A) : Permutation l (Analyzer.sortSlice less l).
Proof.
  induction l as [| x r IH]; simpl.
  - constructor.
  - rewrite <- insert_perm. now constructor.
Qed.

(** A slice whose elements have distinct keys comes out of the sort with
    each element before all those that follow it. *)
Lemma sortSlice_sorted (l : list A) :
  NoDup (map key l) -> StronglySorted before (Analyzer.sortSlice less l).
Proof.
  induction l as [| x r IH]; simpl; intros Hnd.
  - constructor.
  - inversion Hnd as [| ? ? Hnew Hr]; subst.
    apply insert_sorted; [| now apply IH].
    intros Hin. apply Hnew.
    eapply Permutation_in; [| exact Hin].
    apply Permutation_map. symmetry. apply sortSlice_perm.
Qed.

End SortSlice.

Lemma StronglySorted_weaken (A : Type) (R R' : A -> A -> Prop) (l : list A) :
  (forall a b, R a b -> R' a b) -> StronglySorted R l -> StronglySorted R' l.
Proof.
  intros Himp. induction 1 as [| a l _ IH Hall]; constructor; auto.
  eapply Forall_impl; [| exact Hall]. auto.
Qed.

Lemma incr_keys (key : string) (m : list (string * Z)) (x : string) :
  In x (map fst (Analyzer.incr key m)) <-> x = key \/ In x (map fst m).
Proof.
  induction m as [| [k n] r IH]; simpl.
  - intuition.
  - destruct (String.eqb_spec key k) as [-> | Hne]; simpl; rewrite ?IH; intuition.
Qed.

Lemma incr_NoDup (key : string) (m : list (string * Z)) :
  NoDup (map fst m) -> NoDup (map fst (Analyzer.incr key m)).
Proof.
  induction m as [| [k n] r IH]; simpl; intros Hnd.
  - repeat constructor. intros [].
  - inversion Hnd as [| ? ? Hnew Hr]; subst.
    destruct (String.eqb_spec key k) as [-> | Hne]; simpl.
    + now constructor.
    + constructor; [| now apply IH].
      rewrite incr_keys. intros [H | H]; congruence.
Qed.

Lemma counts_NoDup (versions : list string) :
  NoDup (map fst (Spec.counts versions)).
Proof.
  unfold Spec.counts.
  assert (H : forall m, NoDup (map fst m) ->
                        NoDup (map fst (fold_left (fun m v => Analyzer.incr v m) versions m))).
  { induction versions as [| v r IH]; intros m Hm; simpl; [exact Hm |].
    apply IH. now apply incr_NoDup. }
  apply H. constructor.
Qed.

Lemma androidLess_trans (a b c : Analyzer.VersionDistribution) :
  Analyzer.androidLess a b = true -> Analyzer.androidLess b c = true ->
  Analyzer.androidLess a c = true.
Proof.
  unfold Analyzer.androidLess, GoStrings.gt. intros H1 H2. eapply ltb_trans; eauto.
Qed.

Lemma androidLess_total (a b : Analyzer.VersionDistribution) :
  Analyzer.Version a <> Analyzer.Version b ->
  Analyzer.androidLess a b = false -> Analyzer.androidLess b a = true.
Proof.
  unfold Analyzer.androidLess, GoStrings.gt. intros Hne H.
  apply ltb_total; [congruence | exact H].
Qed.

(** The Android list is in strictly descending order of version string,
    for every map of counts. *)
Lemma analyzeAndroidVersionDistribution_sorted (now : Z) (patches : list (string * Z)) :
  NoDup (map fst patches) ->
  StronglySorted
    (fun a b => GoStrings.gt (Analyzer.Version a) (Analyzer.Version b) = true)
    (Analyzer.analyzeAndroidVersionDistribution now patches).
Proof.
  intros Hnd. unfold Analyzer.analyzeAndroidVersionDistribution.
  apply (sortSlice_sorted _ _ Analyzer.androidLess Analyzer.Version
           androidLess_trans androidLess_total).
  rewrite map_map. simpl. exact Hnd.
Qed.

Lemma iosLess_trans (a b c : Analyzer.VersionDistribution) :
  Analyzer.iosLess a b = true -> Analyzer.iosLess b c = true ->
  Analyzer.iosLess a c = true.
Proof.
  unfold Analyzer.iosLess, GoStrings.gt.
  set (ma := GoStrings.first (GoStrings.Split (Analyzer.Version a) ".")).
  set (mb := GoStrings.first (GoStrings.Split (Analyzer.Version b) ".")).
  set (mc := GoStrings.first (GoStrings.Split (Analyzer.Version c) ".")).
  destruct (String.eqb_spec ma mb) as [Eab | Nab];
    destruct (String.eqb_spec mb mc) as [Ebc | Nbc]; simpl; intros H1 H2.
  - replace (String.eqb ma mc) with true by (symmetry; apply String.eqb_eq; congruence).
    simpl. eapply ltb_trans; eauto.
  - rewrite Eab. apply String.eqb_neq in Nbc. rewrite Nbc. exact H2.
  - rewrite <- Ebc. apply String.eqb_neq in Nab. rewrite Nab. exact H1.
  - pose proof (ltb_trans _ _ _ H2 H1) as H.
    destruct (String.eqb_spec ma mc) as [E | N]; simpl; [| exact H].
    rewrite E, ltb_irrefl in H. discriminate.
Qed.

Lemma iosLess_total (a b : Analyzer.VersionDistribution) :
  Analyzer.Version a <> Analyzer.Version b ->
  Analyzer.iosLess a b = false -> Analyzer.iosLess b a = true.
Proof.
  unfold Analyzer.iosLess, GoStrings.gt.
  set (ma := GoStrings.first (GoStrings.Split (Analyzer.Version a) ".")).
  set (mb := GoStrings.first (GoStrings.Split (Analyzer.Version b) ".")).
  intros Hne. rewrite (String.eqb_sym mb ma).
  destruct (String.eqb_spec ma mb) as [E | N]; simpl; intros H.
  - apply ltb_total; [congruence | exact H].
  - apply ltb_total; [congruence | exact H].
Qed.

(** What the code does for iOS: the list is in strictly descending order
    of the pair of the major version, as a string, and the version. *)
Lemma analyzeIOSVersionDistribution_sorted (versions : list (string * Z)) :
  NoDup (map fst versions) ->
  StronglySorted
    (fun a b =>
       GoStrings.gt (Spec.major (Analyzer.Version a))
         (Spec.major (Analyzer.Version b)) = true
       \/ (Spec.major (Analyzer.Version a) = Spec.major (Analyzer.Version b)
           /\ GoStrings.gt (Analyzer.Version a) (Analyzer.Version b) = true))
    (Analyzer.analyzeIOSVersionDistribution versions).
Proof.
  intros Hnd. unfold Analyzer.analyzeIOSVersionDistribution.
  eapply StronglySorted_weaken;
    [| apply (sortSlice_sorted _ _ Analyzer.iosLess Analyzer.Version
                iosLess_trans iosLess_total); rewrite map_map; simpl; exact Hnd].
  intros a b. unfold Analyzer.iosLess, Spec.major.
  destruct (String.eqb_spec (GoStrings.first (GoStrings.Split (Analyzer.Version a) "."))
              (GoStrings.first (GoStrings.Split (Analyzer.Version b) "."))); simpl; auto.
Qed.

(** Two sorted slices with the same elements are the same slice: the
    order in which a Go map is ranged over does not show in the lists. *)
Lemma sorted_perm_unique (A : Type) (R : A -> A -> Prop) :
  (forall a, ~ R a a) ->
  (forall a b c, R a b -> R b c -> R a c) ->
  forall l1 l2 : list A,
    StronglySorted R l1 -> StronglySorted R l2 -> Permutation l1 l2 -> l1 = l2.
Proof.
  intros Hirr Htrans.
  induction l1 as [| a r1 IH]; intros l2 H1 H2 Hp.
  - apply Permutation_nil in Hp. now subst.
  - destruct l2 as [| b r2].
    { apply Permutation_sym, Permutation_nil in Hp. discriminate. }
    inversion H1 as [| ? ? Hr1 Hall1]; subst.
    inversion H2 as [| ? ? Hr2 Hall2]; subst.
    rewrite Forall_forall in Hall1, Hall2.
    assert (Hab : a = b).
    { assert (Ha : In a (b :: r2)) by (eapply Permutation_in; [exact Hp | now left]).
      assert (Hb : In b (a :: r1))
        by (eapply Permutation_in; [symmetry; exact Hp | now left]).
      destruct Ha as [Ha | Ha]; [congruence |].
      destruct Hb as [Hb | Hb]; [congruence |].
      exfalso. apply (Hirr a). eapply Htrans; [apply Hall1; exact Hb | apply Hall2; exact Ha]. }
    subst b. f_equal. apply IH; try assumption.
    eapply Permutation_cons_inv. exact Hp.
Qed.

Lemma total_perm (m m' : list (string * Z)) :
  Permutation m m' -> Analyzer.total m = Analyzer.total m'.
Proof.
  unfold Analyzer.total.
  assert (H : forall l acc,
             fold_left (fun t (e : string * Z) => t + snd e) l acc
             = acc + fold_right (fun e t => snd e + t) 0 l).
  { induction l as [| e l IH]; intros acc; simpl; [lia |]. rewrite IH. lia. }
  intros Hp. rewrite !H. f_equal.
  induction Hp; simpl; lia.
Qed.

Lemma analyzeAndroidVersionDistribution_order (now : Z) (m m' : list (string * Z)) :
  NoDup (map fst m) -> Permutation m m' ->
  Analyzer.analyzeAndroidVersionDistribution now m
  = Analyzer.analyzeAndroidVersionDistribution now m'.
Proof.
  intros Hnd Hp.
  assert (Hnd' : NoDup (map fst m')).
  { eapply Permutation_NoDup; [apply Permutation_map; exact Hp | exact Hnd]. }
  apply (sorted_perm_unique _ (fun a b => Analyzer.androidLess a b = true)).
  - intros a. unfold Analyzer.androidLess, GoStrings.gt. now rewrite ltb_irrefl.
  - exact androidLess_trans.
  - apply (sortSlice_sorted _ _ Analyzer.androidLess Analyzer.Version
             androidLess_trans androidLess_total).
    rewrite map_map. exact Hnd.
  - apply (sortSlice_sorted _ _ Analyzer.androidLess Analyzer.Version
             androidLess_trans androidLess_total).
    rewrite map_map. exact Hnd'.
  - unfold Analyzer.analyzeAndroidVersionDistribution.
    rewrite <- !sortSlice_perm, (total_perm m m' Hp).
    now apply Permutation_map.
Qed.

Lemma iosLess_irrefl (a : Analyzer.VersionDistribution) :
  Analyzer.iosLess a a = false.
Proof.
  unfold Analyzer.iosLess, GoStrings.gt. rewrite String.eqb_refl. simpl.
  apply ltb_irrefl.
Qed.

Lemma analyzeIOSVersionDistribution_order (m m' : list (string * Z)) :
  NoDup (map fst m) -> Permutation m m' ->
  Analyzer.analyzeIOSVersionDistribution m
  = Analyzer.analyzeIOSVersionDistribution m'.
Proof.
  intros Hnd Hp.
  assert (Hnd' : NoDup (map fst m')).
  { eapply Permutation_NoDup; [apply Permutation_map; exact Hp | exact Hnd]. }
  apply (sorted_perm_unique _ (fun a b => Analyzer.iosLess a b = true)).
  - intros a. now rewrite iosLess_irrefl.
  - exact iosLess_trans.
  - apply (sortSlice_sorted _ _ Analyzer.iosLess Analyzer.Version
             iosLess_trans iosLess_total).
    rewrite map_map. exact Hnd.
  - apply (sortSlice_sorted _ _ Analyzer.iosLess Analyzer.Version
             iosLess_trans iosLess_total).
    rewrite map_map. exact Hnd'.
  - unfold Analyzer.analyzeIOSVersionDistribution.
    rewrite <- !sortSlice_perm, (total_perm m m' Hp).
    now apply Permutation_map.
Qed.

(** For every sequence of observed patch levels, the Android list is in
    strictly descending order of version string. *)
Theorem android_versions_descending (now : Z) (versions : list string) :
  StronglySorted
    (fun a b => GoStrings.gt (Analyzer.Version a) (Analyzer.Version b) = true)
    (Analyzer.analyzeAndroidVersionDistribution now (Spec.counts versions)).
Proof.
  apply analyzeAndroidVersionDistribution_sorted, counts_NoDup.
Qed.

(** For every sequence of observed versions, the iOS list is in strictly
    descending order of the major version compared as a string, then of
    the version string. *)
Theorem ios_versions_descending_as_strings (versions : list string) :
  StronglySorted
    (fun a b =>
       GoStrings.gt (Spec.major (Analyzer.Version a))
         (Spec.major (Analyzer.Version b)) = true
       \/ (Spec.major (Analyzer.Version a) = Spec.major (Analyzer.Version b)
           /\ GoStrings.gt (Analyzer.Version a) (Analyzer.Version b) = true))
    (Analyzer.analyzeIOSVersionDistribution (Spec.counts versions)).
Proof.
  apply analyzeIOSVersionDistribution_sorted, counts_NoDup.
Qed.

(** C7 at the versions 9.3 and 10.0, observed in either order: the iOS
    list puts 9.3 first, although its major version 9 is the smaller
    integer, because the majors are compared as strings. *)
Theorem analyzeIOSVersionDistribution_9_before_10 :
  map Analyzer.Version
    (Analyzer.analyzeIOSVersionDistribution (Spec.counts ["9.3"; "10.0"]))
  = ["9.3"; "10.0"]
  /\ map Analyzer.Version
       (Analyzer.analyzeIOSVersionDistribution (Spec.counts ["10.0"; "9.3"]))
     = ["9.3"; "10.0"]
  /\ GoStrings.Atoi (Spec.major "9.3") = Some 9
  /\ GoStrings.Atoi (Spec.major "10.0") = Some 10
  /\ GoStrings.gt (Spec.major "9.3") (Spec.major "10.0") = true.
Proof.
  repeat split; vm_compute; reflexivity.
Qed.

(** ** The synchronisation loop *)

Lemma wrapInt_small (n : Z) :
  GoStrings.minInt <= n <= GoStrings.maxInt -> GoStrings.wrapInt n = n.
Proof.
  unfold GoStrings.wrapInt, GoStrings.minInt, GoStrings.maxInt. intros H.
  rewrite Z.mod_small; lia.
Qed.

Lemma ceilDiv_nonneg (total limit : Z) : 0 <= Spec.ceilDiv total limit.
Proof. unfold Spec.ceilDiv. lia. Qed.

(** A page of at least [limit] devices lowers by one the pages still to
    come. *)
Lemma ceilDiv_step (total limit size : Z) :
  1 <= limit -> 0 < total -> limit <= size ->
  Spec.ceilDiv (total - size) limit + 1 <= Spec.ceilDiv total limit.
Proof.
  unfold Spec.ceilDiv. intros Hl Ht Hs.
  assert (H1 : (total - size + limit - 1) / limit <= (total - 1) / limit)
    by (apply Z.div_le_mono; lia).
  assert (H2 : (total + limit - 1) / limit = (total - 1) / limit + 1).
  { replace (total + limit - 1) with (total - 1 + 1 * limit) by lia.
    rewrite Z.div_add by lia. reflexivity. }
  assert (H3 : 0 <= (total - 1) / limit) by (apply Z.div_pos; lia).
  lia.
Qed.

Section Pagination.

Variable S : Type.
Variable ctxDone : S -> bool * S.
Variable GetDevices : string -> Z -> S -> result Api.DevicesResponse * S.
Variable CreateDevice : Device.Device -> S -> option error * S.
Variable limit : Z.

Let pages := Main.pages S ctxDone GetDevices CreateDevice limit.

(** A fetch of the list is a call that [GetDevices] answered. *)
Let called (f : Main.Fetch) : Prop :=
  exists s s', GetDevices (Main.cursor f) limit s = (Main.reply f, s').

(** More fuel does not change what the loop returns. *)
Lemma pages_fuel (fuel : nat) :
  forall lastOID count total s out,
    pages fuel lastOID count total s = Some out ->
    pages (Datatypes.S fuel) lastOID count total s = Some out.
Proof.
  induction fuel as [| fuel IH]; intros lastOID count total s out H;
    [discriminate |].
  unfold pages in *. simpl in H. simpl.
  destruct (ctxDone s) as [done s0]. destruct done; [exact H |].
  destruct (GetDevices lastOID limit s0) as [r s1].
  destruct r as [devicesResp | e |]; try exact H.
  destruct ((Z.of_nat (List.length (Api.Devices devicesResp)) =? 0)
            || (total <=? count)); [exact H |].
  destruct (Main.runWorkers S CreateDevice (Api.Devices devicesResp) s1)
    as [reports s2].
  destruct (Main.firstError reports); [exact H |].
  destruct (Main.pages S ctxDone GetDevices CreateDevice limit fuel _ _ _ s2)
    as [[[r' s3] fetches] |] eqn:E; [| discriminate].
  apply IH in E. simpl in E. rewrite E. exact H.
Qed.

Lemma pages_more_fuel (fuel fuel' : nat) lastOID count total s out :
  (fuel <= fuel')%nat ->
  pages fuel lastOID count total s = Some out ->
  pages fuel' lastOID count total s = Some out.
Proof.
  induction 1 as [| m _ IH]; intros H; [exact H |].
  apply pages_fuel. exact (IH H).
Qed.

(** The fetches of the loop follow the schedule, and each is a call that
    [GetDevices] answered. *)
Lemma pages_Schedule (fuel : nat) :
  forall lastOID count total s r s' fetches,
    pages fuel lastOID count total s = Some (r, s', fetches) ->
    Spec.Schedule limit total count lastOID fetches r /\ Forall called fetches.
Proof.
  induction fuel as [| fuel IH]; intros lastOID count total s r s' fetches H;
    [discriminate |].
  unfold pages in H. simpl in H.
  destruct (ctxDone s) as [done s0]. destruct done.
  { injection H as <- <- <-. split; constructor. }
  destruct (GetDevices lastOID limit s0) as [r1 s1] eqn:Hget.
  assert (Hcalled : called {| Main.cursor := lastOID; Main.limit := limit;
                              Main.reply := r1 |})
    by (exists s0, s1; exact Hget).
  destruct r1 as [devicesResp | e |].
  - destruct ((Z.of_nat (List.length (Api.Devices devicesResp)) =? 0)
              || (total <=? count)) eqn:Hstop.
    + injection H as <- <- <-. split; [| now repeat constructor].
      eapply Spec.Schedule_done; try reflexivity.
      apply orb_true_iff in Hstop. destruct Hstop as [Hz | Hc].
      * left. apply Z.eqb_eq in Hz. destruct (Api.Devices devicesResp);
          [reflexivity | discriminate].
      * right. now apply Z.leb_le.
    + apply orb_false_iff in Hstop. destruct Hstop as [Hz Hc].
      apply Z.eqb_neq in Hz. apply Z.leb_gt in Hc.
      destruct (Main.runWorkers S CreateDevice (Api.Devices devicesResp) s1)
        as [reports s2].
      destruct (Main.firstError reports) as [e |].
      * injection H as <- <- <-. split; [| now repeat constructor].
        apply Spec.Schedule_failed; try reflexivity. discriminate.
      * destruct (Main.pages S ctxDone GetDevices CreateDevice limit fuel _ _ _ s2)
          as [[[r' s3] fs] |] eqn:E; [| discriminate].
        injection H as <- <- <-.
        apply IH in E. destruct E as [Hs Hc'].
        split; [| now constructor].
        apply Spec.Schedule_next; try reflexivity; try assumption.
        unfold Spec.page. simpl. intros Hnil. rewrite Hnil in Hz. now apply Hz.
  - injection H as <- <- <-. split; [| now repeat constructor].
    apply Spec.Schedule_failed; try reflexivity. discriminate.
  - injection H as <- <- <-. split; [| now repeat constructor].
    apply Spec.Schedule_failed; try reflexivity. discriminate.
Qed.

(** When the pages that are not empty hold at least [least] and at most
    [limit] devices, the loop ends within the fuel of one turn per page
    still to come and one more, after at most that many fetches. *)
Lemma pages_terminate (least : Z) :
  1 <= least ->
  (forall c s r s',
      GetDevices c limit s = (Ok r, s') ->
      Api.Devices r = []
      \/ least <= Z.of_nat (List.length (Api.Devices r)) <= limit) ->
  forall (fuel : nat) lastOID count total s,
    0 <= count ->
    total + limit <= GoStrings.maxInt ->
    (Z.to_nat (Spec.ceilDiv (total - count) least) < fuel)%nat ->
    exists r s' fetches,
      pages fuel lastOID count total s = Some (r, s', fetches)
      /\ Z.of_nat (List.length fetches) <= Spec.ceilDiv (total - count) least + 1.
Proof.
  intros Hleast Hpage.
  induction fuel as [| fuel IH]; intros lastOID count total s Hcount Hfit Hfuel;
    [lia |].
  pose proof (ceilDiv_nonneg (total - count) least) as Hnn.
  unfold pages. simpl.
  destruct (ctxDone s) as [done s0]. destruct done.
  { eexists _, _, _. split; [reflexivity | simpl; lia]. }
  destruct (GetDevices lastOID limit s0) as [r1 s1] eqn:Hget.
  destruct r1 as [devicesResp | e |];
    [| eexists _, _, _; split; [reflexivity | simpl; lia] ..].
  destruct ((Z.of_nat (List.length (Api.Devices devicesResp)) =? 0)
            || (total <=? count)) eqn:Hstop.
  { eexists _, _, _. split; [reflexivity | simpl; lia]. }
  apply orb_false_iff in Hstop. destruct Hstop as [Hz Hc].
  apply Z.eqb_neq in Hz. apply Z.leb_gt in Hc.
  destruct (Hpage _ _ _ _ Hget) as [Hnil | Hsize];
    [rewrite Hnil in Hz; now contradiction Hz |].
  destruct (Main.runWorkers S CreateDevice (Api.Devices devicesResp) s1)
    as [reports s2].
  destruct (Main.firstError reports) as [e |].
  { eexists _, _, _. split; [reflexivity | simpl; lia]. }
  set (size := Z.of_nat (List.length (Api.Devices devicesResp))) in *.
  rewrite wrapInt_small by (unfold GoStrings.minInt, GoStrings.maxInt in *; lia).
  pose proof (ceilDiv_step (total - count) least size Hleast ltac:(lia) ltac:(lia))
    as Hstep.
  replace (total - count - size) with (total - (count + size)) in Hstep by lia.
  pose proof (ceilDiv_nonneg (total - (count + size)) least) as Hnn'.
  destruct (IH (Main.lastOIDOf (Api.Devices devicesResp)) (count + size) total s2)
    as (r & s' & fs & Hrun & Hlen); [lia | lia | lia |].
  unfold pages in Hrun. rewrite Hrun.
  eexists _, _, _. split; [reflexivity |].
  simpl List.length. lia.
Qed.

End Pagination.

(** When every page that is not empty ends on an oid that follows the
    cursor it was asked with, for a transitive [follows], the cursors of
    the fetches are each followed by all the later ones. *)
Lemma Schedule_cursors (follows : string -> string -> Prop) (limit total : Z) :
  (forall a b c, follows a b -> follows b c -> follows a c) ->
  forall count lastOID fetches r,
    Spec.Schedule limit total count lastOID fetches r ->
    Forall (fun f => Spec.page f <> [] ->
                     follows (Main.cursor f) (Main.lastOIDOf (Spec.page f))) fetches ->
    StronglySorted follows (map Main.cursor fetches)
    /\ forall x, follows x lastOID -> Forall (follows x) (map Main.cursor fetches).
Proof.
  intros Htrans. induction 1 as [count c | count c f d Hc Hl Hr Hstop
                                | count c f r Hc Hl Hr
                                | count c f fs r Hc Hl Hp Hlt Hs IH];
    intros Hgood; simpl.
  - split; constructor.
  - split; [repeat constructor |]. intros x Hx. rewrite Hc. now repeat constructor.
  - split; [repeat constructor |]. intros x Hx. rewrite Hc. now repeat constructor.
  - inversion Hgood as [| ? ? Hf Hrest]; subst.
    destruct (IH Hrest) as [Hsorted Hall].
    specialize (Hf Hp).
    split.
    + constructor; [exact Hsorted | apply Hall; exact Hf].
    + intros x Hx. constructor; [exact Hx |].
      apply Hall. eapply Htrans; eauto.
Qed.

(** C3, as the code has it.  Let the server declare [total] devices and
    answer the fetches of [limit] devices with pages that are empty or
    hold at least [least] and at most [limit] devices, the counts staying
    within the range of an int.  Then the loop ends, with any fuel above
    the pages to come, after at most [ceil(total / least) + 1] fetches:
    [ceil(total / limit) + 1] when the pages are full, [total + 1] for
    any pages.  Its fetches follow the schedule: each asks at the cursor
    left by the page before it, and the loop goes on after a fetch only
    when that fetch returned devices and was made with the running count
    below [total].  When each page ends on an oid that follows the cursor
    it was asked with, the cursors are in strictly increasing order of
    fetch, and none is used twice. *)
Theorem pagination_schedule
        (S : Type) (ctxDone : S -> bool * S)
        (GetDevices : string -> Z -> S -> result Api.DevicesResponse * S)
        (CreateDevice : Device.Device -> S -> option error * S)
        (limit least total : Z) (s : S) :
  1 <= least <= limit ->
  total + limit <= GoStrings.maxInt ->
  (forall c s r s',
      GetDevices c limit s = (Ok r, s') ->
      Api.Devices r = []
      \/ least <= Z.of_nat (List.length (Api.Devices r)) <= limit) ->
  exists r s' fetches,
    (forall fuel,
        (Z.to_nat (Spec.ceilDiv total least) < fuel)%nat ->
        Main.pages S ctxDone GetDevices CreateDevice limit fuel "" 0 total s
        = Some (r, s', fetches))
    /\ Z.of_nat (List.length fetches) <= Spec.ceilDiv total least + 1
    /\ Spec.Schedule limit total 0 "" fetches r
    /\ forall follows : string -> string -> Prop,
        (forall a b c, follows a b -> follows b c -> follows a c) ->
        (forall c s r s',
            GetDevices c limit s = (Ok r, s') ->
            Api.Devices r <> [] ->
            follows c (Main.lastOIDOf (Api.Devices r))) ->
        StronglySorted follows (map Main.cursor fetches)
        /\ ((forall a, ~ follows a a) -> NoDup (map Main.cursor fetches)).
Proof.
  intros Hleast Hfit Hpage.
  destruct (pages_terminate S ctxDone GetDevices CreateDevice limit least
              ltac:(lia) Hpage (Datatypes.S (Z.to_nat (Spec.ceilDiv total least)))
              "" 0 total s)
    as (r & s' & fetches & Hrun & Hlen); [lia | exact Hfit | rewrite Z.sub_0_r; lia |].
  rewrite Z.sub_0_r in Hlen.
  exists r, s', fetches.
  destruct (pages_Schedule _ _ _ _ _ _ _ _ _ _ _ _ _ Hrun) as [Hs Hcalled].
  split; [| split; [exact Hlen | split; [exact Hs |]]].
  - intros fuel Hfuel.
    eapply pages_more_fuel; [| exact Hrun]. lia.
  - intros follows Htrans Hfollows.
    assert (Hsorted : StronglySorted follows (map Main.cursor fetches)).
    { eapply Schedule_cursors; [exact Htrans | exact Hs |].
      eapply Forall_impl; [| exact Hcalled].
      intros f (s0 & s1 & Hcall) Hne. unfold Spec.page in *.
      destruct (Main.reply f) as [d | |]; try (now contradiction Hne).
      eapply Hfollows; eassumption. }
    split; [exact Hsorted |].
    intros Hirr. clear - Hsorted Hirr.
    induction Hsorted as [| a l _ IH Hall]; constructor; [| exact IH].
    intros Hin. rewrite Forall_forall in Hall. exact (Hirr a (Hall a Hin)).
Qed.

(** C3 on the four devices served in full pages of two: three fetches,
    at the cursors of the schedule, in increasing order. *)
Lemma pagination_schedule_witness :
  exists r s' fetches,
    Main.pages nat Scenario.neverDone Scenario.fullPages Scenario.accept 2 3 "" 0 4 0%nat
    = Some (r, s', fetches)
    /\ Z.of_nat (List.length fetches) <= 3
    /\ StronglySorted (fun a b => String.ltb a b = true) (map Main.cursor fetches).
Proof.
  destruct (pagination_schedule nat Scenario.neverDone Scenario.fullPages
              Scenario.accept 2 2 4 0%nat)
    as (r & s' & fetches & Hrun & Hlen & _ & Hcursors).
  - lia.
  - vm_compute. discriminate.
  - intros c s r s' H. injection H as <- _. simpl.
    destruct (String.eqb c ""); [right; simpl; lia |].
    destruct (String.eqb c "1002"); [right; simpl; lia | now left].
  - exists r, s', fetches.
    split; [apply Hrun; vm_compute; lia |].
    split; [exact Hlen |].
    apply (Hcursors (fun a b => String.ltb a b = true) ltb_trans).
    intros c s r0 s0 H. injection H as <- _. simpl.
    destruct (String.eqb_spec c "") as [-> | _]; [reflexivity |].
    destruct (String.eqb_spec c "1002") as [-> | _]; [reflexivity |].
    intros Hne. now contradiction Hne.
Defined.

(** C3 as stated fails for a server free to fill its pages as it likes:
    the server that declares four devices and returns one device, always
    the same, per fetch of two is fetched five times, more than
    [ceil(4/2) + 1 = 3], and four of the fetches use the same cursor. *)
Lemma pagination_counterexample :
  ~ (forall (S : Type) (ctxDone : S -> bool * S)
            (GetDevices : string -> Z -> S -> result Api.DevicesResponse * S)
            (CreateDevice : Device.Device -> S -> option error * S)
            (limit total : Z) (s : S) (fuel : nat) r s' fetches,
        1 <= limit ->
        Main.pages S ctxDone GetDevices CreateDevice limit fuel "" 0 total s
        = Some (r, s', fetches) ->
        Z.of_nat (List.length fetches) <= Spec.ceilDiv total limit + 1
        /\ NoDup (map Main.cursor fetches)).
Proof.
  intros H.
  destruct (Main.pages nat Scenario.neverDone Scenario.stingy Scenario.accept
              2 6 "" 0 4 0%nat) as [[[r s'] fetches] |] eqn:E;
    [| vm_compute in E; discriminate].
  destruct (H nat Scenario.neverDone Scenario.stingy Scenario.accept
              2 4 0%nat 6%nat r s' fetches ltac:(lia) E) as [Hlen _].
  vm_compute in E. injection E as <- <- <-.
  vm_compute in Hlen. now apply Hlen.
Qed.

(** ** The end-to-end scenario

    Against the synthetic API the run succeeds with three fetches, at the
    cursors left by the pages; it sends five requests, one of them the
    retry of the 429, after the single sleep; the file then holds four
    records and the statistics count four devices. *)
Example synchronisation_scenario :
  exists w' fetches stats w'',
    Main.run Scenario.background Scenario.syncNet Scenario.codec 2 4
      (Scenario.client3, Scenario.world0)
    = Some (Ok tt, (Scenario.client3, w'), fetches)
    /\ map Main.cursor fetches = [""; "1002"; "1004"]%string
    /\ sentCount (log w') = 5%nat
    /\ Spec.sleptCount (log w') = 1%nat
    /\ List.length (db w') = 4%nat
    /\ Device.GetDeviceStatistics Scenario.background Scenario.codec w' = (Ok stats, w'')
    /\ Device.TotalDevices stats = 4.
Proof.
  eexists _, _, _, _.
  split; [vm_compute; reflexivity |].
  split; [reflexivity |].
  split; [reflexivity |].
  split; [reflexivity |].
  split; [reflexivity |].
  split; [vm_compute; reflexivity | reflexivity].
Qed.

(** ** The key-value file: deletion, and what every write preserves *)

Lemma Delete_missing (k : string) (d : BuntDB.DB) :
  BuntDB.Get k d = None <-> BuntDB.Delete k d = None.
Proof.
  induction d as [| [k' v'] r IH]; simpl; [split; reflexivity |].
  destruct (String.eqb k k'); [split; discriminate |].
  destruct (BuntDB.Delete k r); split; intros H; try discriminate; try reflexivity.
  - apply IH in H. discriminate.
  - now apply IH.
Qed.

Lemma Get_In_keys (k v : string) (d : BuntDB.DB) :
  BuntDB.Get k d = Some v -> In k (BuntDB.keys d).
Proof.
  induction d as [| [a b] r IH]; simpl; [discriminate |].
  destruct (String.eqb_spec k a); [now left | right; auto].
Qed.

Lemma Get_Delete_other (k k' : string) (d d' : BuntDB.DB) :
  k' <> k -> BuntDB.Delete k d = Some d' -> BuntDB.Get k' d' = BuntDB.Get k' d.
Proof.
  intros Hne. revert d'.
  induction d as [| [a b] r IH]; simpl; intros d' H; [discriminate |].
  destruct (String.eqb_spec k a) as [<- | Hk].
  - injection H as <-. apply String.eqb_neq in Hne. now rewrite Hne.
  - destruct (BuntDB.Delete k r) as [r' |]; [| discriminate].
    injection H as <-. simpl. destruct (String.eqb k' a); [reflexivity | now apply IH].
Qed.

Lemma keys_Delete (k : string) (d d' : BuntDB.DB) (x : string) :
  BuntDB.Delete k d = Some d' -> In x (BuntDB.keys d') -> In x (BuntDB.keys d).
Proof.
  revert d'. induction d as [| [a b] r IH]; simpl; intros d' H Hin; [discriminate |].
  destruct (String.eqb k a).
  - injection H as <-. now right.
  - destruct (BuntDB.Delete k r) as [r' |]; [| discriminate].
    injection H as <-. simpl in Hin. destruct Hin as [Hin | Hin]; [now left |].
    right. now apply (IH r').
Qed.

Lemma ordered_Delete (k : string) (d d' : BuntDB.DB) :
  BuntDB.ordered d -> BuntDB.Delete k d = Some d' -> BuntDB.ordered d'.
Proof.
  unfold BuntDB.ordered. revert d'.
  induction d as [| [a b] r IH]; simpl; intros d' Hs H; [discriminate |].
  inversion Hs as [| ? ? Hr Hall]; subst.
  destruct (String.eqb k a).
  - injection H as <-. exact Hr.
  - destruct (BuntDB.Delete k r) as [r' |] eqn:E; [| discriminate].
    injection H as <-. simpl. constructor; [now apply IH |].
    apply Forall_forall. intros x Hx. rewrite Forall_forall in Hall.
    apply Hall. eapply keys_Delete; eauto.
Qed.

Lemma Get_Delete_same (k : string) (d d' : BuntDB.DB) :
  BuntDB.ordered d -> BuntDB.Delete k d = Some d' -> BuntDB.Get k d' = None.
Proof.
  unfold BuntDB.ordered. revert d'.
  induction d as [| [a b] r IH]; simpl; intros d' Hs H; [discriminate |].
  inversion Hs as [| ? ? Hr Hall]; subst.
  destruct (String.eqb_spec k a) as [<- | Hk].
  - injection H as <-.
    destruct (BuntDB.Get k r) as [v |] eqn:E; [| reflexivity].
    apply Get_In_keys in E. rewrite Forall_forall in Hall.
    specialize (Hall k E). now rewrite ltb_irrefl in Hall.
  - destruct (BuntDB.Delete k r) as [r' |] eqn:E; [| discriminate].
    injection H as <-. simpl. apply String.eqb_neq in Hk. rewrite Hk. now apply IH.
Qed.

Lemma length_Delete (k : string) (d d' : BuntDB.DB) :
  BuntDB.Delete k d = Some d' -> List.length d = S (List.length d').
Proof.
  revert d'. induction d as [| [a b] r IH]; simpl; intros d' H; [discriminate |].
  destruct (String.eqb k a).
  - now injection H as <-.
  - destruct (BuntDB.Delete k r) as [r' |]; [| discriminate].
    injection H as <-. simpl. f_equal. now apply IH.
Qed.

(** [Update] never creates a record: on a guid that is absent it fails and
    leaves the file as it is.  On a guid that is present it replaces the
    value of that key alone: the other keys keep their values and the file
    its length. *)
Theorem Update_only_replaces
        (ctx : Ctx) (json : Device.Codec) (d : Device.Device) (w : World) :
  (BuntDB.Get (Device.GUID d) (db w) = None ->
   fst (Device.Update ctx json d w) <> None
   /\ db (snd (Device.Update ctx json d w)) = db w)
  /\ (Spec.alive ctx ->
      BuntDB.ordered (db w) ->
      forall old data,
        BuntDB.Get (Device.GUID d) (db w) = Some old ->
        Device.marshal json (Device.withLastUpdated d (clock w)) = Some data ->
        exists w',
          Device.Update ctx json d w = (None, w')
          /\ BuntDB.Get (Device.GUID d) (db w') = Some data
          /\ (forall key, key <> Device.GUID d ->
                          BuntDB.Get key (db w') = BuntDB.Get key (db w))
          /\ List.length (db w') = List.length (db w)).
Proof.
  split.
  - intros Habs. unfold Device.Update, poll.
    destruct (ctx (polls w)); [split; [discriminate | reflexivity] |].
    simpl. destruct (Device.marshal json _); [| split; [discriminate | reflexivity]].
    rewrite Habs. split; [discriminate | reflexivity].
  - intros Hctx Hord old data Hold Hm.
    rewrite (Update_ok ctx json Hctx d w data old Hm Hold).
    eexists. split; [reflexivity |]. simpl.
    split; [apply Get_Set_same |].
    split; [intros key Hne; now apply Get_Set_other |].
    eapply length_Set_present; eassumption.
Qed.

(** [Delete] on a guid that is absent fails and leaves the file as it is.
    On a guid that is present, in a file in key order, it removes that
    record alone: a Get of the guid then finds nothing, the other keys
    keep their values, and the file is one item shorter and still in key
    order. *)
Theorem Delete_removes_one
        (ctx : Ctx) (json : Device.Codec) (guid : string) (w : World) :
  (BuntDB.Get guid (db w) = None ->
   fst (Device.Delete ctx guid w) <> None
   /\ db (snd (Device.Delete ctx guid w)) = db w)
  /\ (Spec.alive ctx ->
      BuntDB.ordered (db w) ->
      forall old,
        BuntDB.Get guid (db w) = Some old ->
        exists w' e w'',
          Device.Delete ctx guid w = (None, w')
          /\ Device.Get ctx json guid w' = (inl e, w'')
          /\ BuntDB.Get guid (db w') = None
          /\ (forall key, key <> guid ->
                          BuntDB.Get key (db w') = BuntDB.Get key (db w))
          /\ List.length (db w) = S (List.length (db w'))
          /\ BuntDB.ordered (db w')).
Proof.
  split.
  - intros Habs. unfold Device.Delete, poll.
    destruct (ctx (polls w)); [split; [discriminate | reflexivity] |].
    simpl. rewrite (proj1 (Delete_missing guid (db w)) Habs).
    split; [discriminate | reflexivity].
  - intros Hctx Hord old Hold.
    destruct (BuntDB.Delete guid (db w)) as [d' |] eqn:E.
    2:{ apply Delete_missing in E. congruence. }
    assert (Hgone : BuntDB.Get guid d' = None) by (eapply Get_Delete_same; eauto).
    exists (withDb (withPolls w (S (polls w))) d').
    eexists _, _.
    split; [unfold Device.Delete, poll; rewrite Hctx; simpl; now rewrite E |].
    split; [apply Get_missing; [exact Hctx | exact Hgone] |].
    simpl. split; [exact Hgone |].
    split; [intros key Hne; eapply Get_Delete_other; eauto |].
    split; [eapply length_Delete; eauto | eapply ordered_Delete; eauto].
Qed.

Lemma keyed_Delete (json : Device.Codec) (k : string) (d d' : BuntDB.DB) :
  BuntDB.ordered d -> Spec.keyed json d -> BuntDB.Delete k d = Some d' ->
  Spec.keyed json d'.
Proof.
  intros Hord Hk Hdel key data device Hget Hdec.
  destruct (String.eqb_spec key k) as [-> | Hne].
  - rewrite (Get_Delete_same k d d' Hord Hdel) in Hget. discriminate.
  - rewrite (Get_Delete_other k key d d' Hne Hdel) in Hget. eapply Hk; eassumption.
Qed.

Section Sound.

Variable ctx : Ctx.
Variable json : Device.Codec.
Hypothesis json_faithful : Spec.faithful json.

Lemma sound_polls (w : World) (n : nat) :
  Spec.sound json w -> Spec.sound json (withPolls w n).
Proof. intros H. exact H. Qed.

Lemma sound_Save (d : Device.Device) (w : World) :
  Spec.sound json w -> Spec.sound json (snd (Device.Save ctx json d w)).
Proof.
  intros [Hord Hk]. unfold Device.Save, poll.
  destruct (ctx (polls w)); [split; assumption |]. simpl.
  destruct (Device.marshal json _) as [data |] eqn:Hm; [| split; assumption].
  split; simpl.
  - now apply ordered_Set.
  - apply keyed_Set; [exact Hk |].
    intros device Hd. exact (json_faithful _ _ _ Hm Hd).
Qed.

Lemma sound_Update (d : Device.Device) (w : World) :
  Spec.sound json w -> Spec.sound json (snd (Device.Update ctx json d w)).
Proof.
  intros [Hord Hk]. unfold Device.Update, poll.
  destruct (ctx (polls w)); [split; assumption |]. simpl.
  destruct (Device.marshal json _) as [data |] eqn:Hm; [| split; assumption].
  destruct (BuntDB.Get (Device.GUID d) (db w)); [| split; assumption].
  split; simpl.
  - now apply ordered_Set.
  - apply keyed_Set; [exact Hk |].
    intros device Hd. exact (json_faithful _ _ _ Hm Hd).
Qed.

Lemma sound_Delete (guid : string) (w : World) :
  Spec.sound json w -> Spec.sound json (snd (Device.Delete ctx guid w)).
Proof.
  intros [Hord Hk]. unfold Device.Delete, poll.
  destruct (ctx (polls w)); [split; assumption |]. simpl.
  destruct (BuntDB.Delete guid (db w)) as [d' |] eqn:Hd; [| split; assumption].
  split; simpl.
  - eapply ordered_Delete; eassumption.
  - eapply keyed_Delete; eassumption.
Qed.

Lemma sound_Get (guid : string) (w : World) :
  Spec.sound json w -> Spec.sound json (snd (Device.Get ctx json guid w)).
Proof.
  intros H. unfold Device.Get, poll.
  destruct (ctx (polls w)); [exact H |]. simpl.
  destruct (BuntDB.Get guid (db w)); [| exact H].
  destruct (Device.unmarshal json s); exact H.
Qed.

(** Splits a call of the repository into its result and the world it
    leaves, which is sound when the world it started from is. *)
Ltac step_sound :=
  match goal with
  | |- context [Device.Save ctx json ?d ?w] =>
      let H := fresh "Hs" in
      assert (H : Spec.sound json (snd (Device.Save ctx json d w)))
        by (apply sound_Save; assumption);
      destruct (Device.Save ctx json d w) as [[?e |] ?w]; simpl in H
  | |- context [Device.Get ctx json ?g ?w] =>
      let H := fresh "Hs" in
      assert (H : Spec.sound json (snd (Device.Get ctx json g w)))
        by (apply sound_Get; assumption);
      destruct (Device.Get ctx json g w) as [[?e | ?d] ?w]; simpl in H
  | |- context [Device.Update ctx json ?d ?w] =>
      let H := fresh "Hs" in
      assert (H : Spec.sound json (snd (Device.Update ctx json d w)))
        by (apply sound_Update; assumption);
      destruct (Device.Update ctx json d w) as [[?e |] ?w]; simpl in H
  | |- context [Device.Delete ctx ?g ?w] =>
      let H := fresh "Hs" in
      assert (H : Spec.sound json (snd (Device.Delete ctx g w)))
        by (apply sound_Delete; assumption);
      destruct (Device.Delete ctx g w) as [[?e |] ?w]; simpl in H
  | |- context [if ?b then _ else _] => destruct b
  end.

Lemma sound_CreateDevice (d : Device.Device) (w : World) :
  Spec.sound json w -> Spec.sound json (snd (Device.CreateDevice ctx json d w)).
Proof.
  intros H. unfold Device.CreateDevice.
  destruct (Device.validateDevice d); [exact H |].
  repeat (step_sound; simpl; try assumption).
Qed.

Lemma sound_UpdateDevice (d : Device.Device) (w : World) :
  Spec.sound json w -> Spec.sound json (snd (Device.UpdateDevice ctx json d w)).
Proof.
  intros H. unfold Device.UpdateDevice.
  destruct (Device.validateDevice d); [exact H |].
  repeat (step_sound; simpl; try assumption).
Qed.

Lemma sound_DeleteDevice (guid : string) (w : World) :
  Spec.sound json w -> Spec.sound json (snd (Device.DeleteDevice ctx json guid w)).
Proof.
  intros H. unfold Device.DeleteDevice.
  repeat (step_sound; simpl; try assumption).
Qed.

End Sound.


(** ** The reference codec keeps the guid *)

Lemma lit_app (p s : string) : Scenario.lit p (p ++ s)%string = Some s.
Proof.
  induction p as [| a p IH]; simpl; [reflexivity |].
  now rewrite Ascii.eqb_refl.
Qed.

Lemma untilQuote_plain (v rest : string) :
  Scenario.plain v = true ->
  Scenario.untilQuote (v ++ Scenario.quote ++ rest)%string = Some (v, rest).
Proof.
  induction v as [| c v IH]; intros H; [reflexivity |].
  cbn [Scenario.plain] in H.
  apply andb_prop in H as [H Hv].
  apply andb_prop in H as [H _]. apply andb_prop in H as [H _].
  apply negb_true_iff in H.
  cbn [append Scenario.untilQuote]. rewrite H. now rewrite IH.
Qed.

Lemma append_assoc (a b c : string) : ((a ++ b) ++ c = a ++ (b ++ c))%string.
Proof. induction a as [| x a IH]; simpl; [reflexivity | now rewrite IH]. Qed.

Lemma stringField_jfield (name v rest : string) :
  Scenario.plain v = true ->
  Scenario.stringField name (Scenario.jfield name (Scenario.jstring v) ++ rest)%string
  = Some (v, rest).
Proof.
  intros H. unfold Scenario.stringField.
  replace (Scenario.jfield name (Scenario.jstring v) ++ rest)%string
    with (Scenario.jfield name Scenario.quote ++ (v ++ Scenario.quote ++ rest))%string.
  - rewrite lit_app. now apply untilQuote_plain.
  - unfold Scenario.jfield, Scenario.jstring. now repeat rewrite append_assoc.
Qed.

Lemma unmarshalDevice_guid (guid rest : string) (d : Device.Device) :
  Scenario.plain guid = true ->
  Scenario.unmarshalDevice
    ("{" ++ Scenario.jfield "guid" (Scenario.jstring guid) ++ rest)%string = Some d ->
  Device.GUID d = guid.
Proof.
  intros H. unfold Scenario.unmarshalDevice.
  rewrite lit_app, stringField_jfield by exact H.
  repeat match goal with
         | |- match ?x with _ => _ end = _ -> _ =>
             destruct x as [[] |]; try discriminate
         | |- match ?x with _ => _ end = _ -> _ =>
             destruct x; try discriminate
         end.
  intros E. injection E as <-. reflexivity.
Qed.

Lemma codec_faithful : Spec.faithful Scenario.codec.
Proof.
  intros d data d' Hm Hu.
  cbn [Device.marshal Device.unmarshal Scenario.codec] in Hm, Hu.
  unfold Scenario.marshalDevice in Hm.
  destruct (Scenario.plain (Device.GUID d)) eqn:Hg; [| discriminate].
  match type of Hm with
  | (if ?b then _ else _) = _ => destruct b; [| discriminate]
  end.
  match type of Hm with
  | Some ?x = Some _ => assert (E : x = data) by congruence
  end.
  rewrite <- E in Hu.
  eapply unmarshalDevice_guid; eassumption.
Qed.

Lemma ordered_family : BuntDB.ordered (db Scenario.family).
Proof. vm_compute. repeat constructor. Qed.

(** On the scenarios: an Update of the tablet in the empty file fails and
    writes nothing; an Update of the phone in the file of the family
    replaces the record of the phone alone. *)
Lemma Update_only_replaces_witness :
  (fst (Device.Update Scenario.background Scenario.codec Scenario.tablet
          Scenario.world0) <> None
   /\ db (snd (Device.Update Scenario.background Scenario.codec Scenario.tablet
                 Scenario.world0)) = [])
  /\ exists w',
      Device.Update Scenario.background Scenario.codec Scenario.phone Scenario.family
      = (None, w')
      /\ (forall key, key <> Device.GUID Scenario.phone ->
                      BuntDB.Get key (db w') = BuntDB.Get key (db Scenario.family))
      /\ List.length (db w') = 3%nat.
Proof.
  split.
  - apply (proj1 (Update_only_replaces Scenario.background Scenario.codec
                    Scenario.tablet Scenario.world0)).
    reflexivity.
  - destruct (proj2 (Update_only_replaces Scenario.background Scenario.codec
                       Scenario.phone Scenario.family)
                (fun n => eq_refl) ordered_family
                (Scenario.written
                   (Device.withLastUpdated (Device.withChildCount Scenario.phone 2)
                      (clock Scenario.world0)))
                (Scenario.written
                   (Device.withLastUpdated Scenario.phone (clock Scenario.world0))))
      as (w' & H1 & _ & H3 & H4).
    + vm_compute. reflexivity.
    + vm_compute. reflexivity.
    + exists w'. split; [exact H1 |]. split; [exact H3 |]. exact H4.
Defined.

(** On the file of the family: a Delete of an unknown guid fails and
    writes nothing; a Delete of the watch removes its record alone. *)
Lemma Delete_removes_one_witness :
  (fst (Device.Delete Scenario.background "a1b2c3d4-0009" Scenario.family) <> None
   /\ db (snd (Device.Delete Scenario.background "a1b2c3d4-0009" Scenario.family))
      = db Scenario.family)
  /\ exists w' e w'',
      Device.Delete Scenario.background (Device.GUID Scenario.watch) Scenario.family
      = (None, w')
      /\ Device.Get Scenario.background Scenario.codec (Device.GUID Scenario.watch) w'
         = (inl e, w'')
      /\ List.length (db w') = 2%nat.
Proof.
  split.
  - apply (proj1 (Delete_removes_one Scenario.background Scenario.codec
                    "a1b2c3d4-0009" Scenario.family)).
    reflexivity.
  - destruct (proj2 (Delete_removes_one Scenario.background Scenario.codec
                       (Device.GUID Scenario.watch) Scenario.family)
                (fun n => eq_refl) ordered_family
                (Scenario.written
                   (Device.withLastUpdated Scenario.watch (clock Scenario.world0))))
      as (w' & e & w'' & H1 & H2 & _ & _ & H5 & _).
    + vm_compute. reflexivity.
    + exists w', e, w''. split; [exact H1 |]. split; [exact H2 |].
      change (List.length (db Scenario.family)) with 3%nat in H5. congruence.
Defined.


(** ** The service: what it refuses, and what it lets pass *)

(** [validateDevice] accepts exactly the devices with a guid, one of the
    two platforms and one of the three statuses; on any other device
    [CreateDevice] and [UpdateDevice] return a validation error before
    they poll the context or touch the file: the world is the one they
    were given. *)
Theorem service_rejects_invalid
        (ctx : Ctx) (json : Device.Codec) (d : Device.Device) (w : World) :
  let valid :=
    Device.GUID d <> ""
    /\ (Device.Platform d = "ANDROID" \/ Device.Platform d = "IOS")
    /\ (Device.ActivationStatus d = "ACTIVATED"
        \/ Device.ActivationStatus d = "DEACTIVATED"
        \/ Device.ActivationStatus d = "PENDING") in
  (Device.validateDevice d = None <-> valid)
  /\ (~ valid ->
      exists e,
        Device.CreateDevice ctx json d w = (Some (Wrapf "validating device" e), w)
        /\ Device.UpdateDevice ctx json d w = (Some (Wrapf "validating device" e), w)).
Proof.
  intros valid.
  assert (Hiff : Device.validateDevice d = None <-> valid).
  { subst valid. unfold Device.validateDevice, Device.validStatuses.
    destruct (String.eqb_spec (Device.GUID d) "") as [Hg | Hg].
    { split; [discriminate | intros [H _]; contradiction]. }
    destruct (String.eqb_spec (Device.Platform d) "ANDROID") as [Ha | Ha];
      destruct (String.eqb_spec (Device.Platform d) "IOS") as [Hi | Hi];
      destruct (String.eqb_spec (Device.ActivationStatus d) "ACTIVATED") as [H1 | H1];
      destruct (String.eqb_spec (Device.ActivationStatus d) "DEACTIVATED") as [H2 | H2];
      destruct (String.eqb_spec (Device.ActivationStatus d) "PENDING") as [H3 | H3];
      simpl; split; try discriminate; try (intros _; tauto); intros (_ & Hp & Hs);
      try (destruct Hp; contradiction); destruct Hs as [Hs | [Hs | Hs]]; contradiction. }
  split; [exact Hiff |].
  intros Hn. unfold Device.CreateDevice, Device.UpdateDevice.
  destruct (Device.validateDevice d) as [e |].
  - exists e. split; reflexivity.
  - exfalso. apply Hn. now apply Hiff.
Qed.

(** A device of an unknown platform: both calls refuse it and leave the
    file of the family as it is. *)
Lemma service_rejects_invalid_witness :
  exists e,
    Device.CreateDevice Scenario.background Scenario.codec
      Scenario.desktop
      Scenario.family
    = (Some (Wrapf "validating device" e), Scenario.family).
Proof.
  destruct (service_rejects_invalid Scenario.background Scenario.codec
              Scenario.desktop
              Scenario.family) as [_ H].
  destruct H as (e & H1 & _).
  - intros (_ & [Hp | Hp] & _); discriminate Hp.
  - exists e. exact H1.
Defined.

(** A guid that is not in the file: [GetDevice] and [DeleteDevice] report
    that the device was not found, and so does [UpdateDevice] for a valid
    device of that guid; none of them writes.  An empty guid is refused by
    [GetDevice] and [DeleteDevice] before the context is polled. *)
Theorem service_missing_device
        (ctx : Ctx) (json : Device.Codec) (guid : string) (w : World) :
  Spec.alive ctx ->
  BuntDB.Get guid (db w) = None ->
  let notFound := Errorf "device not found: %s" guid in
  let w' := withPolls w (S (polls w)) in
  (guid <> "" ->
   Device.GetDevice ctx json guid w = (inl notFound, w')
   /\ Device.DeleteDevice ctx json guid w = (Some (Wrapf "getting device" notFound), w')
   /\ forall d,
       Device.validateDevice d = None -> Device.GUID d = guid ->
       Device.UpdateDevice ctx json d w
       = (Some (Wrapf "getting existing device" notFound), w'))
  /\ Device.GetDevice ctx json "" w = (inl (Errorf "device GUID is required" ""), w)
  /\ Device.DeleteDevice ctx json "" w = (Some (Errorf "device GUID is required" ""), w).
Proof.
  intros Hctx Habs notFound w'. split; [| split; reflexivity].
  intros Hne. apply String.eqb_neq in Hne.
  unfold Device.GetDevice, Device.DeleteDevice, Device.UpdateDevice.
  rewrite Hne, (Get_missing ctx json Hctx guid w Habs).
  split; [reflexivity |]. split; [reflexivity |].
  intros d Hv <-. rewrite Hv, (Get_missing ctx json Hctx _ w Habs). reflexivity.
Qed.

(** The guid of the device of the scenarios that was never created is
    not in the file of the family. *)
Lemma service_missing_device_witness :
  Device.DeleteDevice Scenario.background Scenario.codec "a1b2c3d4-0009" Scenario.family
  = (Some (Wrapf "getting device" (Errorf "device not found: %s" "a1b2c3d4-0009")),
     withPolls Scenario.family (S (polls Scenario.family)))
  /\ Device.UpdateDevice Scenario.background Scenario.codec (Scenario.ios "16.1")
       Scenario.family
     = (Some (Wrapf "getting existing device"
                (Errorf "device not found: %s" "a1b2c3d4-0009")),
        withPolls Scenario.family (S (polls Scenario.family))).
Proof.
  destruct (service_missing_device Scenario.background Scenario.codec
              "a1b2c3d4-0009" Scenario.family) as [H _].
  - intros n. reflexivity.
  - reflexivity.
  - destruct H as (_ & H2 & H3); [discriminate |].
    split; [exact H2 |]. apply H3; reflexivity.
Defined.

(** [CreateDevice] lets every failure of the parent lookup pass: when the
    device names a parent and the Get of that parent fails, because the
    context was cancelled after the Save, because the parent is not in
    the file, or because its record does not decode, the call returns nil
    with the device saved and no other record written. *)
Theorem CreateDevice_swallows_lookup_failure
        (ctx : Ctx) (json : Device.Codec) (d : Device.Device) (w : World)
        (data : string) :
  Device.validateDevice d = None ->
  ctx (polls w) = false ->
  Device.marshal json (Device.withLastUpdated d (clock w)) = Some data ->
  Device.ParentDeviceGUID d <> "" ->
  let file := BuntDB.Set_ (Device.GUID d) data (db w) in
  ctx (S (polls w)) = true
  \/ BuntDB.Get (Device.ParentDeviceGUID d) file = None
  \/ (exists pdata,
        BuntDB.Get (Device.ParentDeviceGUID d) file = Some pdata
        /\ Device.unmarshal json pdata = None) ->
  Device.CreateDevice ctx json d w
  = (None, withDb (withPolls w (S (S (polls w)))) file).
Proof.
  intros Hv Hctx Hm Hp file Hfail. apply String.eqb_neq in Hp.
  unfold Device.CreateDevice, Device.Save, Device.Get, poll.
  rewrite Hv, Hctx. simpl. rewrite Hm, Hp. simpl. fold file.
  destruct Hfail as [Hc | [Habs | (pdata & Hget & Hdec)]].
  - now rewrite Hc.
  - rewrite Habs. now destruct (ctx (S (polls w))).
  - rewrite Hget, Hdec. now destruct (ctx (S (polls w))).
Qed.

(** The watch is created in the file of the family under a context that
    is cancelled once the watch is saved: the call returns nil, and the
    phone still counts two children. *)
Lemma CreateDevice_swallows_lookup_failure_witness :
  exists w',
    Device.CreateDevice (Scenario.cancelledFrom 8) Scenario.codec Scenario.watch
      Scenario.family = (None, w')
    /\ BuntDB.Get (Device.GUID Scenario.phone) (db w')
       = BuntDB.Get (Device.GUID Scenario.phone) (db Scenario.family).
Proof.
  eexists. split.
  - apply (CreateDevice_swallows_lookup_failure (Scenario.cancelledFrom 8) Scenario.codec
             Scenario.watch Scenario.family
             (Scenario.written
                (Device.withLastUpdated Scenario.watch (clock Scenario.world0)))).
    + reflexivity.
    + reflexivity.
    + vm_compute. reflexivity.
    + discriminate.
    + left. reflexivity.
  - vm_compute. reflexivity.
Defined.

Lemma count_again (parent : Device.Device) (t : Z) (n : Z) :
  Device.withLastUpdated
    (Device.withChildCount (Device.withLastUpdated (Device.withChildCount parent n) t)
       (GoStrings.wrapInt
          (Device.ChildCount (Device.withLastUpdated (Device.withChildCount parent n) t)
           + 1))) t
  = Device.withLastUpdated (Device.withChildCount parent (GoStrings.wrapInt (n + 1))) t.
Proof. reflexivity. Qed.



(** [DeleteDevice] of a child whose parent is in the file removes the
    child and writes the parent back with its count lowered by one,
    whatever the count was: there is no floor at zero, so that the count
    of a parent that never counted this child becomes negative.  The
    context is live, the file in key order, and the codec reads back the
    record written for the parent. *)
Theorem DeleteDevice_lowers_parent_count
        (ctx : Ctx) (json : Device.Codec) (guid : string)
        (device parent : Device.Device) (w : World) (data pdata : string) :
  Spec.alive ctx ->
  BuntDB.ordered (db w) ->
  guid <> "" ->
  BuntDB.Get guid (db w) = Some data ->
  Device.unmarshal json data = Some device ->
  Device.ParentDeviceGUID device = Device.GUID parent ->
  Device.GUID parent <> "" ->
  Device.GUID parent <> guid ->
  BuntDB.Get (Device.GUID parent) (db w) = Some pdata ->
  Device.unmarshal json pdata = Some parent ->
  GoStrings.minInt < Device.ChildCount parent <= GoStrings.maxInt ->
  Spec.roundtrips json
    (Device.withLastUpdated
       (Device.withChildCount parent (Device.ChildCount parent - 1)) (clock w)) ->
  exists w' stored w'',
    Device.DeleteDevice ctx json guid w = (None, w')
    /\ BuntDB.Get guid (db w') = None
    /\ Device.Get ctx json (Device.GUID parent) w' = (inr stored, w'')
    /\ Device.ChildCount stored = Device.ChildCount parent - 1
    /\ List.length (db w) = S (List.length (db w')).
Proof.
  intros Hctx Hord Hg Hget Hdec Hp Hpne Hne Hpget Hpdec Hc (j & Hm & Hu).
  assert (Hw : GoStrings.wrapInt (Device.ChildCount parent - 1)
               = Device.ChildCount parent - 1).
  { apply wrapInt_small. unfold GoStrings.minInt, GoStrings.maxInt in *. lia. }
  destruct (BuntDB.Delete guid (db w)) as [d' |] eqn:Hdel.
  2:{ apply Delete_missing in Hdel. congruence. }
  assert (Hgone : BuntDB.Get guid d' = None) by (eapply Get_Delete_same; eauto).
  assert (Hkept : BuntDB.Get (Device.GUID parent) d' = Some pdata).
  { rewrite (Get_Delete_other guid (Device.GUID parent) (db w) d' Hne Hdel).
    exact Hpget. }
  eexists _, _, _.
  split.
  { unfold Device.DeleteDevice. apply String.eqb_neq in Hg. rewrite Hg.
    rewrite (Get_found ctx json Hctx guid w data device Hget Hdec).
    unfold Device.Delete, poll. rewrite Hctx. simpl. rewrite Hdel.
    rewrite Hp. apply String.eqb_neq in Hpne. rewrite Hpne. simpl negb. cbv iota.
    erewrite Get_found; [| exact Hctx | simpl; exact Hkept | exact Hpdec].
    erewrite Update_ok; [reflexivity | exact Hctx | simpl; rewrite Hw; exact Hm
                         | simpl; exact Hkept]. }
  simpl.
  split; [rewrite Get_Set_other by congruence; exact Hgone |].
  split; [eapply Get_found; [exact Hctx | simpl; apply Get_Set_same | exact Hu] |].
  split; [reflexivity |].
  erewrite length_Set_present; [eapply length_Delete; exact Hdel | | exact Hkept].
  eapply ordered_Delete; eassumption.
Qed.

(** In the file where the phone does not count the tablet, deleting the
    tablet leaves the phone with a count of -1. *)
Lemma DeleteDevice_lowers_parent_count_witness :
  exists w' stored w'',
    Device.DeleteDevice Scenario.background Scenario.codec
      (Device.GUID Scenario.tablet) Scenario.uncounted = (None, w')
    /\ Device.Get Scenario.background Scenario.codec (Device.GUID Scenario.phone) w'
       = (inr stored, w'')
    /\ Device.ChildCount stored = -1.
Proof.
  destruct (DeleteDevice_lowers_parent_count Scenario.background Scenario.codec
              (Device.GUID Scenario.tablet)
              (Device.withLastUpdated Scenario.tablet (clock Scenario.world0))
              (Device.withLastUpdated Scenario.phone (clock Scenario.world0))
              Scenario.uncounted
              (Scenario.written
                 (Device.withLastUpdated Scenario.tablet (clock Scenario.world0)))
              (Scenario.written
                 (Device.withLastUpdated Scenario.phone (clock Scenario.world0))))
    as (w' & stored & w'' & H1 & _ & H3 & H4 & _).
  - intros n. reflexivity.
  - vm_compute. repeat constructor.
  - discriminate.
  - vm_compute. reflexivity.
  - vm_compute. reflexivity.
  - reflexivity.
  - discriminate.
  - discriminate.
  - vm_compute. reflexivity.
  - vm_compute. reflexivity.
  - vm_compute. split; [reflexivity | discriminate].
  - eexists. split; vm_compute; reflexivity.
  - exists w', stored, w''. repeat split; assumption.
Defined.

(** [UpdateDevice] of a device that is in the file.  When the update
    keeps the parent the device had, the record of the device is the only
    one written.  When it names another parent, and both parents are in
    the file, the old parent is written back with its count lowered by
    one and the new parent with its count raised by one; every other
    record is left as it was.  The context is live and the codec reads
    back the records written. *)
Theorem UpdateDevice_moves_child
        (ctx : Ctx) (json : Device.Codec) (d existing : Device.Device)
        (w : World) (data data' : string) :
  Spec.alive ctx ->
  Device.validateDevice d = None ->
  BuntDB.Get (Device.GUID d) (db w) = Some data ->
  Device.unmarshal json data = Some existing ->
  Device.marshal json (Device.withLastUpdated d (clock w)) = Some data' ->
  (Device.ParentDeviceGUID existing = Device.ParentDeviceGUID d ->
   exists w',
     Device.UpdateDevice ctx json d w = (None, w')
     /\ db w' = BuntDB.Set_ (Device.GUID d) data' (db w))
  /\ forall oldParent newParent odata ndata,
      Device.ParentDeviceGUID existing = Device.GUID oldParent ->
      Device.ParentDeviceGUID d = Device.GUID newParent ->
      Device.GUID oldParent <> "" ->
      Device.GUID newParent <> "" ->
      Device.GUID oldParent <> Device.GUID newParent ->
      Device.GUID oldParent <> Device.GUID d ->
      Device.GUID newParent <> Device.GUID d ->
      BuntDB.Get (Device.GUID oldParent) (db w) = Some odata ->
      Device.unmarshal json odata = Some oldParent ->
      BuntDB.Get (Device.GUID newParent) (db w) = Some ndata ->
      Device.unmarshal json ndata = Some newParent ->
      GoStrings.minInt < Device.ChildCount oldParent <= GoStrings.maxInt ->
      GoStrings.minInt <= Device.ChildCount newParent < GoStrings.maxInt ->
      Spec.roundtrips json
        (Device.withLastUpdated
           (Device.withChildCount oldParent (Device.ChildCount oldParent - 1))
           (clock w)) ->
      Spec.roundtrips json
        (Device.withLastUpdated
           (Device.withChildCount newParent (Device.ChildCount newParent + 1))
           (clock w)) ->
      exists w' old w1 new w2,
        Device.UpdateDevice ctx json d w = (None, w')
        /\ BuntDB.Get (Device.GUID d) (db w') = Some data'
        /\ Device.Get ctx json (Device.GUID oldParent) w' = (inr old, w1)
        /\ Device.ChildCount old = Device.ChildCount oldParent - 1
        /\ Device.Get ctx json (Device.GUID newParent) w' = (inr new, w2)
        /\ Device.ChildCount new = Device.ChildCount newParent + 1
        /\ forall key,
            key <> Device.GUID d -> key <> Device.GUID oldParent ->
            key <> Device.GUID newParent ->
            BuntDB.Get key (db w') = BuntDB.Get key (db w).
Proof.
  intros Hctx Hv Hget Hdec Hm. split.
  - intros Hsame. unfold Device.UpdateDevice.
    rewrite Hv, (Get_found ctx json Hctx _ w data existing Hget Hdec).
    erewrite Update_ok; [| exact Hctx | simpl; exact Hm | simpl; exact Hget].
    apply String.eqb_eq in Hsame. rewrite Hsame. simpl negb. cbv iota.
    eexists. split; reflexivity.
  - intros oldParent newParent odata ndata Ho Hn Hone Hnne Hon Hod Hnd
           Hoget Hodec Hnget Hndec Hoc Hnc (jo & Hmo & Huo) (jn & Hmn & Hun).
    assert (Hwo : GoStrings.wrapInt (Device.ChildCount oldParent - 1)
                  = Device.ChildCount oldParent - 1).
    { apply wrapInt_small. unfold GoStrings.minInt, GoStrings.maxInt in *. lia. }
    assert (Hwn : GoStrings.wrapInt (Device.ChildCount newParent + 1)
                  = Device.ChildCount newParent + 1).
    { apply wrapInt_small. unfold GoStrings.minInt, GoStrings.maxInt in *. lia. }
    assert (Hdiff : String.eqb (Device.ParentDeviceGUID existing)
                      (Device.ParentDeviceGUID d) = false).
    { apply String.eqb_neq. congruence. }
    apply String.eqb_neq in Hone, Hnne.
    eexists _, _, _, _, _.
    split.
    { unfold Device.UpdateDevice.
      rewrite Hv, (Get_found ctx json Hctx _ w data existing Hget Hdec).
      erewrite Update_ok; [| exact Hctx | simpl; exact Hm | simpl; exact Hget].
      rewrite Hdiff, Ho, Hn, Hone, Hnne. simpl negb. cbv iota.
      erewrite Get_found;
        [| exact Hctx
         | simpl; rewrite Get_Set_other by exact Hod; exact Hoget | exact Hodec].
      erewrite Update_ok;
        [| exact Hctx | simpl; rewrite Hwo; exact Hmo
         | simpl; rewrite Get_Set_other by exact Hod; exact Hoget].
      erewrite Get_found;
        [| exact Hctx
         | simpl; rewrite Get_Set_other by congruence;
           rewrite Get_Set_other by exact Hnd; exact Hnget
         | exact Hndec].
      erewrite Update_ok;
        [reflexivity | exact Hctx | simpl; rewrite Hwn; exact Hmn
         | simpl; rewrite Get_Set_other by congruence;
           rewrite Get_Set_other by exact Hnd; exact Hnget]. }
    simpl.
    split.
    { rewrite !Get_Set_other by congruence. apply Get_Set_same. }
    split.
    { eapply Get_found; [exact Hctx | | exact Huo]. simpl.
      rewrite Get_Set_other by exact Hon. apply Get_Set_same. }
    split; [reflexivity |].
    split.
    { eapply Get_found; [exact Hctx | | exact Hun]. simpl. apply Get_Set_same. }
    split; [reflexivity |].
    intros key H1 H2 H3. now rewrite !Get_Set_other by assumption.
Qed.

(** The watch is handed over from the first phone to the second: the
    first then counts one child, the second one. *)
Lemma UpdateDevice_moves_child_witness :
  exists w' old w1 new w2,
    Device.UpdateDevice Scenario.background Scenario.codec Scenario.moved Scenario.household
    = (None, w')
    /\ Device.Get Scenario.background Scenario.codec (Device.GUID Scenario.phone) w'
       = (inr old, w1)
    /\ Device.ChildCount old = 1
    /\ Device.Get Scenario.background Scenario.codec (Device.GUID Scenario.spare) w'
       = (inr new, w2)
    /\ Device.ChildCount new = 1.
Proof.
  destruct (UpdateDevice_moves_child Scenario.background Scenario.codec Scenario.moved
              (Device.withLastUpdated Scenario.watch (clock Scenario.world0))
              Scenario.household
              (Scenario.written
                 (Device.withLastUpdated Scenario.watch (clock Scenario.world0)))
              (Scenario.written
                 (Device.withLastUpdated Scenario.moved (clock Scenario.world0))))
    as [_ H].
  - intros n. reflexivity.
  - reflexivity.
  - vm_compute. reflexivity.
  - vm_compute. reflexivity.
  - vm_compute. reflexivity.
  - destruct (H (Device.withLastUpdated (Device.withChildCount Scenario.phone 2)
                   (clock Scenario.world0))
                (Device.withLastUpdated Scenario.spare (clock Scenario.world0))
                (Scenario.written
                   (Device.withLastUpdated (Device.withChildCount Scenario.phone 2)
                      (clock Scenario.world0)))
                (Scenario.written
                   (Device.withLastUpdated Scenario.spare (clock Scenario.world0))))
      as (w' & old & w1 & new & w2 & H1 & _ & H3 & H4 & H5 & H6 & _).
    + reflexivity.
    + reflexivity.
    + discriminate.
    + discriminate.
    + discriminate.
    + discriminate.
    + discriminate.
    + vm_compute. reflexivity.
    + vm_compute. reflexivity.
    + vm_compute. reflexivity.
    + vm_compute. reflexivity.
    + vm_compute. split; [reflexivity | discriminate].
    + vm_compute. split; [discriminate | reflexivity].
    + eexists. split; vm_compute; reflexivity.
    + eexists. split; vm_compute; reflexivity.
    + exists w', old, w1, new, w2. repeat split; assumption.
Defined.

(** ** The statistics of the service *)

Lemma isVulnerable_platform (now : Z) (d : Device.Device) :
  Device.isVulnerable now d = true ->
  String.eqb (Device.Platform d) "ANDROID" || String.eqb (Device.Platform d) "IOS" = true.
Proof.
  unfold Device.isVulnerable.
  destruct (String.eqb (Device.Platform d) "ANDROID"); [reflexivity |].
  destruct (String.eqb (Device.Platform d) "IOS"); [reflexivity | discriminate].
Qed.

Lemma countIf_cons (test : Device.Device -> bool) (d : Device.Device)
      (r : list Device.Device) :
  Spec.countIf test (d :: r) = (if test d then 1 else 0) + Spec.countIf test r.
Proof.
  unfold Spec.countIf. cbn [filter].
  destruct (test d); cbn [List.length]; lia.
Qed.

Lemma countIf_bounds (test : Device.Device -> bool) (l : list Device.Device) :
  0 <= Spec.countIf test l <= Z.of_nat (List.length l).
Proof.
  induction l as [| d r IH]; [unfold Spec.countIf; simpl; lia |].
  rewrite countIf_cons. cbn [List.length]. destruct (test d); lia.
Qed.

(** What the loop of [GetDeviceStatistics] adds to each counter. *)
Lemma tally_fold (now : Z) (devices : list Device.Device) (s : Device.Statistics) :
  let s' := fold_left (Device.tally now) devices s in
  Device.TotalDevices s' = Device.TotalDevices s
  /\ Device.StatsLastUpdated s' = Device.StatsLastUpdated s
  /\ Device.ActiveDevices s'
     = Device.ActiveDevices s
       + Spec.countIf (fun d => String.eqb (Device.ActivationStatus d) "ACTIVATED") devices
  /\ Device.AndroidDevices s'
     = Device.AndroidDevices s
       + Spec.countIf (fun d => String.eqb (Device.Platform d) "ANDROID") devices
  /\ Device.IOSDevices s'
     = Device.IOSDevices s
       + Spec.countIf (fun d => String.eqb (Device.Platform d) "IOS") devices
  /\ Device.ParentDevices s'
     = Device.ParentDevices s
       + Spec.countIf (fun d => String.eqb (Device.ParentDeviceGUID d) "") devices
  /\ Device.ChildDevices s'
     = Device.ChildDevices s
       + Spec.countIf (fun d => negb (String.eqb (Device.ParentDeviceGUID d) "")) devices
  /\ Device.VulnerableDevices s'
     = Device.VulnerableDevices s + Spec.countIf (Device.isVulnerable now) devices.
Proof.
  revert s. induction devices as [| d r IH]; intros s; cbn [fold_left]; cbv zeta.
  - unfold Spec.countIf. simpl. repeat split; lia.
  - specialize (IH (Device.tally now s d)). cbv zeta in IH.
    destruct IH as (H1 & H2 & H3 & H4 & H5 & H6 & H7 & H8).
    cbn [Device.tally Device.TotalDevices Device.StatsLastUpdated Device.ActiveDevices
         Device.AndroidDevices Device.IOSDevices Device.ParentDevices
         Device.ChildDevices Device.VulnerableDevices] in H1, H2, H3, H4, H5, H6, H7, H8.
    unfold Device.incrIf in *.
    rewrite !countIf_cons.
    repeat split; try assumption;
      match goal with
      | H : ?x = _ |- ?x = _ => rewrite H
      end;
      match goal with |- context [if ?b then _ else _] => destruct b end; lia.
Qed.

(** The counters of [GetDeviceStatistics] under a live context.  The
    total is the number of devices the scan listed, and every device is
    either a parent or a child.  The other counters stay within it: the
    Android and iOS devices together, the activated devices, and the
    vulnerable devices, which are never more than the Android and iOS
    devices together, since a device of another platform is never
    counted as vulnerable.  The timestamp is the clock of the call. *)
Theorem GetDeviceStatistics_counters
        (ctx : Ctx) (json : Device.Codec) (w : World) :
  Spec.alive ctx ->
  exists stats devices w',
    Device.GetDeviceStatistics ctx json w = (Ok stats, w')
    /\ Device.List_ ctx json w = (Ok devices, w')
    /\ Device.TotalDevices stats = Z.of_nat (List.length devices)
    /\ Device.ParentDevices stats + Device.ChildDevices stats
       = Device.TotalDevices stats
    /\ 0 <= Device.ActiveDevices stats <= Device.TotalDevices stats
    /\ 0 <= Device.AndroidDevices stats
    /\ 0 <= Device.IOSDevices stats
    /\ Device.AndroidDevices stats + Device.IOSDevices stats
       <= Device.TotalDevices stats
    /\ 0 <= Device.VulnerableDevices stats
       <= Device.AndroidDevices stats + Device.IOSDevices stats
    /\ Device.StatsLastUpdated stats = clock w.
Proof.
  intros Hctx. unfold Device.GetDeviceStatistics, Device.List_, poll.
  rewrite Hctx. simpl.
  set (devices := BuntDB.Ascend _ _ _).
  eexists _, devices, _. split; [reflexivity |]. split; [reflexivity |].
  match goal with
  | |- context [fold_left (Device.tally ?now) devices ?s] =>
      destruct (tally_fold now devices s) as (H1 & H2 & H3 & H4 & H5 & H6 & H7 & H8);
      set (stats := fold_left (Device.tally now) devices s) in *
  end.
  simpl in H1, H2, H3, H4, H5, H6, H7, H8.
  rewrite H1, H2, H3, H4, H5, H6, H7, H8. clear.
  assert (Hpc : forall l,
             Spec.countIf (fun d => String.eqb (Device.ParentDeviceGUID d) "") l
             + Spec.countIf (fun d => negb (String.eqb (Device.ParentDeviceGUID d) "")) l
             = Z.of_nat (List.length l)).
  { induction l as [| d r IH]; [reflexivity |].
    rewrite !countIf_cons. cbn [List.length].
    destruct (String.eqb (Device.ParentDeviceGUID d) ""); cbn [negb]; lia. }
  assert (Hai : forall l,
             Spec.countIf (fun d => String.eqb (Device.Platform d) "ANDROID") l
             + Spec.countIf (fun d => String.eqb (Device.Platform d) "IOS") l
             <= Z.of_nat (List.length l)).
  { induction l as [| d r IH]; [unfold Spec.countIf; simpl; lia |].
    rewrite !countIf_cons. cbn [List.length].
    destruct (String.eqb_spec (Device.Platform d) "ANDROID") as [E | E].
    - rewrite E. change (String.eqb "ANDROID" "IOS") with false. lia.
    - destruct (String.eqb (Device.Platform d) "IOS"); lia. }
  assert (Hv : forall now l,
             Spec.countIf (Device.isVulnerable now) l
             <= Spec.countIf (fun d => String.eqb (Device.Platform d) "ANDROID") l
                + Spec.countIf (fun d => String.eqb (Device.Platform d) "IOS") l).
  { intros now. induction l as [| d r IH]; [unfold Spec.countIf; simpl; lia |].
    rewrite !countIf_cons.
    pose proof (isVulnerable_platform now d) as Hp.
    destruct (Device.isVulnerable now d).
    - specialize (Hp eq_refl).
      destruct (String.eqb (Device.Platform d) "ANDROID");
        destruct (String.eqb (Device.Platform d) "IOS"); try discriminate; lia.
    - destruct (String.eqb (Device.Platform d) "ANDROID");
        destruct (String.eqb (Device.Platform d) "IOS"); lia. }
  pose proof (countIf_bounds
                (fun d => String.eqb (Device.ActivationStatus d) "ACTIVATED") devices).
  pose proof (countIf_bounds (fun d => String.eqb (Device.Platform d) "ANDROID") devices).
  pose proof (countIf_bounds (fun d => String.eqb (Device.Platform d) "IOS") devices).
  pose proof (countIf_bounds (Device.isVulnerable (clock w)) devices).
  specialize (Hpc devices). specialize (Hai devices).
  specialize (Hv (clock w) devices).
  repeat split; try lia.
Qed.

(** On the file of the family: three devices, one parent and two
    children. *)
Lemma GetDeviceStatistics_counters_witness :
  exists stats devices w',
    Device.GetDeviceStatistics Scenario.background Scenario.codec Scenario.family
    = (Ok stats, w')
    /\ Device.List_ Scenario.background Scenario.codec Scenario.family = (Ok devices, w')
    /\ Device.TotalDevices stats = Z.of_nat (List.length devices)
    /\ Device.ParentDevices stats + Device.ChildDevices stats
       = Device.TotalDevices stats
    /\ 0 <= Device.VulnerableDevices stats
       <= Device.AndroidDevices stats + Device.IOSDevices stats.
Proof.
  destruct (GetDeviceStatistics_counters Scenario.background Scenario.codec Scenario.family)
    as (stats & devices & w' & H1 & H2 & H3 & H4 & _ & _ & _ & _ & H9 & _).
  - intros n. reflexivity.
  - exists stats, devices, w'. repeat split; try assumption; apply H9.
Defined.

(** ** The analysis: its views count the same devices *)

Lemma total_fold (m : list (string * Z)) (acc : Z) :
  fold_left (fun t (e : string * Z) => t + snd e) m acc
  = acc + Analyzer.total m.
Proof.
  unfold Analyzer.total. revert acc.
  induction m as [| e r IH]; intros acc; simpl; [lia |].
  rewrite IH, (IH (snd e)). lia.
Qed.

Lemma total_cons (e : string * Z) (m : list (string * Z)) :
  Analyzer.total (e :: m) = snd e + Analyzer.total m.
Proof. unfold Analyzer.total. simpl. rewrite total_fold. reflexivity. Qed.

Lemma total_incr (key : string) (m : list (string * Z)) :
  Analyzer.total (Analyzer.incr key m) = Analyzer.total m + 1.
Proof.
  induction m as [| [k n] r IH]; [reflexivity |].
  cbn [Analyzer.incr]. destruct (String.eqb key k).
  - rewrite !total_cons. simpl. lia.
  - rewrite !total_cons, IH. lia.
Qed.

Lemma recorded_recordAt (m : Analyzer.StatsMap) (risk : Analyzer.RiskLevel) (id : string) :
  Spec.recorded (Analyzer.recordAt m risk id) = Spec.recorded m + 1.
Proof. unfold Spec.recorded. destruct risk; simpl; lia. Qed.

Lemma listsItsCount_recordAt (m : Analyzer.StatsMap) (risk : Analyzer.RiskLevel)
      (id : string) :
  Spec.listsItsCount m -> Spec.listsItsCount (Analyzer.recordAt m risk id).
Proof.
  unfold Spec.listsItsCount. intros (H1 & H2 & H3).
  destruct risk; cbn [Analyzer.recordAt Analyzer.high Analyzer.medium Analyzer.low
                      Analyzer.record Analyzer.Count Analyzer.AffectedDevices];
    rewrite ?length_app; cbn [List.length]; repeat split; lia.
Qed.

Lemma distributed_perm (l l' : list Analyzer.VersionDistribution) :
  Permutation l l' -> Spec.distributed l = Spec.distributed l'.
Proof. unfold Spec.distributed. induction 1; simpl; lia. Qed.

Lemma distributed_map (f : string * Z -> Analyzer.VersionDistribution)
      (m : list (string * Z)) :
  (forall e, Analyzer.VersionCount (f e) = snd e) ->
  Spec.distributed (map f m) = Analyzer.total m.
Proof.
  intros Hf. induction m as [| e r IH]; [reflexivity |].
  rewrite total_cons. cbn [map]. unfold Spec.distributed in *. simpl.
  now rewrite Hf, IH.
Qed.

(** What the loop of [AnalyzeDevices] has counted after some devices. *)
Lemma visitAll_counts (now : Z) (devices : list Device.Device) (t t' : Analyzer.Tally) :
  Analyzer.visitAll now t devices = Some t' ->
  Spec.listsItsCount (Analyzer.statsAndroid t) ->
  Spec.listsItsCount (Analyzer.statsIOS t) ->
  Spec.listsItsCount (Analyzer.statsAndroid t')
  /\ Spec.listsItsCount (Analyzer.statsIOS t')
  /\ Spec.recorded (Analyzer.statsAndroid t')
     = Spec.recorded (Analyzer.statsAndroid t)
       + Spec.reporting "ANDROID" Device.SecurityPatchLevel devices
  /\ Spec.recorded (Analyzer.statsIOS t')
     = Spec.recorded (Analyzer.statsIOS t)
       + Spec.reporting "IOS" Device.OSVersion devices
  /\ Analyzer.total (Analyzer.androidPatches t')
     = Analyzer.total (Analyzer.androidPatches t)
       + Spec.reporting "ANDROID" Device.SecurityPatchLevel devices
  /\ Analyzer.total (Analyzer.iosVersions t')
     = Analyzer.total (Analyzer.iosVersions t)
       + Spec.reporting "IOS" Device.OSVersion devices.
Proof.
  revert t. induction devices as [| d r IH]; intros t Hrun Ha Hi.
  - injection Hrun as <-. unfold Spec.reporting, Spec.countIf. simpl.
    (split; [assumption |]; split; [assumption |]; repeat split; lia).
  - cbn [Analyzer.visitAll] in Hrun.
    destruct (Analyzer.visit now t d) as [t1 |] eqn:Hv; [| discriminate].
    unfold Spec.reporting in *. rewrite !countIf_cons.
    unfold Analyzer.visit in Hv.
    destruct (GoStrings.sliceTo (Device.GUID d) 8) as [guid8 |]; [| discriminate].
    destruct (String.eqb_spec (Device.Platform d) "ANDROID") as [E | E].
    + rewrite E. change (String.eqb "ANDROID" "IOS") with false.
      destruct (String.eqb (Device.SecurityPatchLevel (Device.Software_ d)) "");
        cbn [negb andb] in *; injection Hv as <-.
      * destruct (IH t Hrun Ha Hi) as (H1 & H2 & H3 & H4 & H5 & H6).
        (split; [assumption |]; split; [assumption |]; repeat split; lia).
      * destruct (IH _ Hrun) as (H1 & H2 & H3 & H4 & H5 & H6);
          [now apply listsItsCount_recordAt | exact Hi |].
        cbn [Analyzer.statsAndroid Analyzer.statsIOS Analyzer.androidPatches
             Analyzer.iosVersions] in H3, H4, H5, H6.
        rewrite recorded_recordAt in H3. rewrite total_incr in H5.
        (split; [assumption |]; split; [assumption |]; repeat split; lia).
    + destruct (String.eqb (Device.Platform d) "IOS").
      * destruct (String.eqb (Device.OSVersion (Device.Software_ d)) "");
          cbn [negb andb] in *; injection Hv as <-.
        -- destruct (IH t Hrun Ha Hi) as (H1 & H2 & H3 & H4 & H5 & H6).
           (split; [assumption |]; split; [assumption |]; repeat split; lia).
        -- destruct (IH _ Hrun) as (H1 & H2 & H3 & H4 & H5 & H6);
             [exact Ha | now apply listsItsCount_recordAt |].
           cbn [Analyzer.statsAndroid Analyzer.statsIOS Analyzer.androidPatches
                Analyzer.iosVersions] in H3, H4, H5, H6.
           rewrite recorded_recordAt in H4. rewrite total_incr in H6.
           (split; [assumption |]; split; [assumption |]; repeat split; lia).
      * injection Hv as <-. cbn [andb].
        destruct (IH t Hrun Ha Hi) as (H1 & H2 & H3 & H4 & H5 & H6).
        (split; [assumption |]; split; [assumption |]; repeat split; lia).
Qed.

(** Whenever [AnalyzeDevices] returns an analysis, its views agree on how
    many devices they cover.  The Android risk levels together record as
    many devices as the Android version distribution accounts for, namely
    the listed Android devices that report a patch level; the same holds
    of the iOS views and the listed iOS devices that report a version.
    Each risk level counts exactly the devices it lists as affected, and
    the timestamp is the clock of the call. *)
Theorem AnalyzeDevices_views_agree
        (ctx : Ctx) (json : Device.Codec) (w w' : World) (a : Analyzer.Analysis) :
  Analyzer.AnalyzeDevices ctx json w = (Ok a, w') ->
  exists devices,
    Device.List_ ctx json w = (Ok devices, w')
    /\ Spec.recorded (Analyzer.SecurityStatsAndroid a)
       = Spec.reporting "ANDROID" Device.SecurityPatchLevel devices
    /\ Spec.distributed (Analyzer.VersionDistributionAndroid a)
       = Spec.reporting "ANDROID" Device.SecurityPatchLevel devices
    /\ Spec.recorded (Analyzer.SecurityStatsIOS a)
       = Spec.reporting "IOS" Device.OSVersion devices
    /\ Spec.distributed (Analyzer.VersionDistributionIOS a)
       = Spec.reporting "IOS" Device.OSVersion devices
    /\ Spec.listsItsCount (Analyzer.SecurityStatsAndroid a)
    /\ Spec.listsItsCount (Analyzer.SecurityStatsIOS a)
    /\ Analyzer.Timestamp a = clock w.
Proof.
  unfold Analyzer.AnalyzeDevices, Device.ListDevices.
  destruct (Device.List_ ctx json w) as [[devices | e |] w1] eqn:Hl;
    try discriminate.
  destruct (Analyzer.visitAll (clock w1) _ devices) as [t |] eqn:Hv; [| discriminate].
  intros H. injection H as <- <-.
  apply visitAll_counts in Hv; [| repeat split | repeat split].
  destruct Hv as (H1 & H2 & H3 & H4 & H5 & H6).
  cbn [Analyzer.statsAndroid Analyzer.statsIOS Analyzer.androidPatches
       Analyzer.iosVersions] in H3, H4, H5, H6.
  change (Spec.recorded Analyzer.initSecurityStats) with 0 in H3, H4.
  change (Analyzer.total []) with 0 in H5, H6.
  exists devices. split; [reflexivity |].
  cbn [Analyzer.SecurityStatsAndroid Analyzer.SecurityStatsIOS
       Analyzer.VersionDistributionAndroid Analyzer.VersionDistributionIOS
       Analyzer.Timestamp].
  split; [lia |].
  split.
  { unfold Analyzer.analyzeAndroidVersionDistribution.
    rewrite <- (distributed_perm _ _ (sortSlice_perm _ _ _)).
    rewrite distributed_map by reflexivity. lia. }
  split; [lia |].
  split.
  { unfold Analyzer.analyzeIOSVersionDistribution.
    rewrite <- (distributed_perm _ _ (sortSlice_perm _ _ _)).
    rewrite distributed_map by reflexivity. lia. }
  split; [exact H1 |]. split; [exact H2 |].
  unfold Device.List_, poll in Hl. destruct (ctx (polls w)); [discriminate |].
  now injection Hl as _ <-.
Qed.

(** On the file of the family: one Android device with a patch level and
    two iOS devices with a version. *)
Lemma AnalyzeDevices_views_agree_witness :
  exists a w',
    Analyzer.AnalyzeDevices Scenario.background Scenario.codec Scenario.family = (Ok a, w')
    /\ Spec.recorded (Analyzer.SecurityStatsAndroid a) = 1
    /\ Spec.distributed (Analyzer.VersionDistributionAndroid a) = 1
    /\ Spec.recorded (Analyzer.SecurityStatsIOS a) = 2
    /\ Spec.distributed (Analyzer.VersionDistributionIOS a) = 2.
Proof.
  destruct (Analyzer.AnalyzeDevices Scenario.background Scenario.codec Scenario.family)
    as [r w'] eqn:Hrun.
  assert (Hl : Device.List_ Scenario.background Scenario.codec Scenario.family
               = (Ok [Device.withLastUpdated (Device.withChildCount Scenario.phone 2)
                        (clock Scenario.world0);
                      Device.withLastUpdated Scenario.tablet (clock Scenario.world0);
                      Device.withLastUpdated Scenario.watch (clock Scenario.world0)],
                  withPolls Scenario.family (S (polls Scenario.family))))
    by (vm_compute; reflexivity).
  destruct r as [a | e |].
  - destruct (AnalyzeDevices_views_agree Scenario.background Scenario.codec
                Scenario.family w' a Hrun) as (devices & H0 & H1 & H2 & H3 & H4 & _).
    rewrite Hl in H0. injection H0 as <- _.
    exists a, w'. split; [reflexivity |].
    split; [exact H1 |]. split; [exact H2 |]. split; [exact H3 | exact H4].
  - exfalso. revert Hrun. unfold Analyzer.AnalyzeDevices, Device.ListDevices.
    rewrite Hl. vm_compute. discriminate.
  - exfalso. revert Hrun. unfold Analyzer.AnalyzeDevices, Device.ListDevices.
    rewrite Hl. vm_compute. discriminate.
Defined.

(** ** The client: what a call may cost, and what it never returns *)

Section Budget.

Variable ctx : Ctx.
Variable net : Api.Net.

Lemma attempts_log (n : nat) :
  forall (attempt : Z) (c : Api.Client) (method url : string)
         (body : option string) (w : World),
  exists evs,
    log (snd (Api.attempts ctx net n attempt c method url body w)) = log w ++ evs
    /\ Forall (Spec.ofLoop (Api.apiRequest c method url body) (Api.retryDelay c)) evs
    /\ (sentCount evs <= n)%nat
    /\ (Spec.sleptCount evs <= n)%nat
    /\ (attempt = 0 -> (Spec.sleptCount evs <= Nat.pred n)%nat)
    /\ db (snd (Api.attempts ctx net n attempt c method url body w)) = db w
    /\ clock (snd (Api.attempts ctx net n attempt c method url body w))
       = clock w + Z.max 0 (Api.retryDelay c) * Z.of_nat (Spec.sleptCount evs).
Proof.
  induction n as [| n IH]; intros attempt c method url body w.
  { exists []. simpl. rewrite app_nil_r.
    split; [reflexivity |]. split; [constructor |].
    unfold sentCount, Spec.sleptCount. simpl. repeat split; lia. }
  cbn [Api.attempts]. unfold poll.
  destruct (ctx (polls w)).
  { exists []. simpl. rewrite app_nil_r.
    split; [reflexivity |]. split; [constructor |].
    unfold sentCount, Spec.sleptCount. simpl. repeat split; lia. }
  set (w0 := withPolls w (S (polls w))).
  set (req := Api.apiRequest c method url body).
  set (naps := if 0 <? attempt then [Slept (Api.retryDelay c)] else []).
  set (w1 := if 0 <? attempt then sleep (Api.retryDelay c) w0 else w0).
  assert (Hlog1 : log w1 = log w ++ naps).
  { subst w1 naps. destruct (0 <? attempt); simpl; [reflexivity | now rewrite app_nil_r]. }
  assert (Hdb1 : db w1 = db w) by (subst w1; now destruct (0 <? attempt)).
  assert (Hclock1 : clock w1 = clock w + Z.max 0 (Api.retryDelay c) * Z.of_nat (Spec.sleptCount naps)).
  { subst w1 naps. destruct (0 <? attempt); unfold Spec.sleptCount; simpl; lia. }
  assert (Hnaps : Forall (Spec.ofLoop req (Api.retryDelay c)) naps).
  { subst naps.
    destruct (0 <? attempt); [constructor; [right; reflexivity | constructor]
                             | constructor]. }
  assert (Hnsent : sentCount naps = 0%nat) by (subst naps; now destruct (0 <? attempt)).
  assert (Hnslept : (Spec.sleptCount naps <= 1)%nat).
  { subst naps. destruct (0 <? attempt); unfold Spec.sleptCount; simpl; lia. }
  assert (Hfirst : attempt = 0 -> Spec.sleptCount naps = 0%nat).
  { intros ->. reflexivity. }
  destruct (Api.newRequestErr net method url).
  { exists naps. cbn [snd]. repeat split; try assumption; lia. }
  unfold send. fold req.
  set (w2 := withLog w1 (log w1 ++ [Sent req])).
  assert (Hstop : exists evs,
             log w2 = log w ++ evs
             /\ Forall (Spec.ofLoop req (Api.retryDelay c)) evs
             /\ (sentCount evs <= S n)%nat
             /\ (Spec.sleptCount evs <= S n)%nat
             /\ (attempt = 0 -> (Spec.sleptCount evs <= n)%nat)
             /\ db w2 = db w
             /\ clock w2 = clock w + Z.max 0 (Api.retryDelay c) * Z.of_nat (Spec.sleptCount evs)).
  { exists (naps ++ [Sent req]). subst w2. cbn [log db clock withLog].
    rewrite Hlog1, <- app_assoc, sentCount_app, sleptCount_app, Hnsent.
    change (sentCount [Sent req]) with 1%nat.
    change (Spec.sleptCount [Sent req]) with 0%nat.
    rewrite Nat.add_0_r.
    split; [reflexivity |].
    split; [apply Forall_app; split;
            [exact Hnaps | constructor; [left; reflexivity | constructor]] |].
    split; [lia |]. split; [lia |].
    split; [intros H; specialize (Hfirst H); lia |].
    split; [exact Hdb1 | exact Hclock1]. }
  assert (Hmore : exists evs,
             log (snd (Api.attempts ctx net n (attempt + 1) c method url body w2))
             = log w ++ evs
             /\ Forall (Spec.ofLoop req (Api.retryDelay c)) evs
             /\ (sentCount evs <= S n)%nat
             /\ (Spec.sleptCount evs <= S n)%nat
             /\ (attempt = 0 -> (Spec.sleptCount evs <= n)%nat)
             /\ db (snd (Api.attempts ctx net n (attempt + 1) c method url body w2)) = db w
             /\ clock (snd (Api.attempts ctx net n (attempt + 1) c method url body w2))
                = clock w + Z.max 0 (Api.retryDelay c) * Z.of_nat (Spec.sleptCount evs)).
  { destruct (IH (attempt + 1) c method url body w2)
      as (evs & Hl & Hf & Hs & Hz & _ & Hd & Hc).
    exists (naps ++ [Sent req] ++ evs).
    rewrite Hl, Hd, Hc. subst w2. cbn [log db clock withLog].
    rewrite Hlog1, <- !app_assoc, !sentCount_app, !sleptCount_app, Hnsent.
    change (sentCount [Sent req]) with 1%nat.
    change (Spec.sleptCount [Sent req]) with 0%nat.
    split; [reflexivity |].
    split.
    { apply Forall_app; split; [exact Hnaps |].
      apply Forall_app; split;
        [constructor; [left; reflexivity | constructor] | exact Hf]. }
    split; [lia |]. split; [lia |].
    split; [intros H; specialize (Hfirst H); lia |].
    split; [exact Hdb1 |]. rewrite Hclock1. lia. }
  destruct (Api.transport net (sentCount (log w1)) req) as [e | resp].
  - destruct (attempt =? Api.maxRetries c); [exact Hstop | exact Hmore].
  - destruct (StatusCode resp =? 429).
    + destruct (attempt =? Api.maxRetries c); [exact Hstop | exact Hmore].
    + destruct (400 <=? StatusCode resp); exact Hstop.
Qed.

(** With as many turns as [doRequest] gives it, the loop ends by a return
    of its body, with a response or an error: it never falls through to
    the return after it. *)
Lemma attempts_returns (n : nat) :
  forall (attempt : Z) (c : Api.Client) (method url : string)
         (body : option string) (w : World),
    Z.of_nat n = Api.maxRetries c + 1 - attempt ->
    (0 < n)%nat ->
    Spec.answered (fst (Api.attempts ctx net n attempt c method url body w)).
Proof.
  induction n as [| n IH]; intros attempt c method url body w Hn Hpos; [lia |].
  cbn [Api.attempts]. unfold poll.
  destruct (ctx (polls w)); [exact I |].
  destruct (Api.newRequestErr net method url); [exact I |].
  unfold send.
  match goal with
  | |- context [Api.transport net ?k ?r] => destruct (Api.transport net k r) as [e | resp]
  end.
  - destruct (Z.eqb_spec attempt (Api.maxRetries c)) as [E | E]; [exact I |].
    apply IH; lia.
  - destruct (StatusCode resp =? 429).
    + destruct (Z.eqb_spec attempt (Api.maxRetries c)) as [E | E]; [exact I |].
      apply IH; lia.
    + destruct (400 <=? StatusCode resp); exact I.
Qed.

Lemma ensureValidToken_log (c : Api.Client) (w : World) :
  exists evs,
    log (snd (Api.ensureValidToken net c w)) = log w ++ evs
    /\ (evs = [] \/ evs = [Sent (Spec.tokenRequest c)])
    /\ (Api.accessToken c <> "" -> clock w < Api.tokenExpiry c -> evs = [])
    /\ db (snd (Api.ensureValidToken net c w)) = db w
    /\ clock (snd (Api.ensureValidToken net c w)) = clock w
    /\ polls (snd (Api.ensureValidToken net c w)) = polls w
    /\ Api.maxRetries (snd (fst (Api.ensureValidToken net c w))) = Api.maxRetries c
    /\ Api.retryDelay (snd (fst (Api.ensureValidToken net c w))) = Api.retryDelay c
    /\ Api.baseURL (snd (fst (Api.ensureValidToken net c w))) = Api.baseURL c.
Proof.
  unfold Api.ensureValidToken.
  destruct (negb (String.eqb (Api.accessToken c) "") && (clock w <? Api.tokenExpiry c))
    eqn:Hvalid.
  { exists []. simpl. rewrite app_nil_r. repeat split; auto. }
  assert (Hstale : Api.accessToken c <> "" -> clock w < Api.tokenExpiry c -> False).
  { intros H1 H2. apply String.eqb_neq in H1. apply Z.ltb_lt in H2.
    rewrite H1, H2 in Hvalid. discriminate. }
  destruct (Api.newRequestErr net "POST" _).
  { exists []. simpl. rewrite app_nil_r. repeat split; auto. }
  unfold send. fold (Spec.tokenRequest c).
  exists [Sent (Spec.tokenRequest c)].
  destruct (Api.transport net _ _) as [e | resp];
    [| destruct (negb (StatusCode resp =? 200));
       [| destruct (Api.decodeToken net (Body resp))]];
    simpl; repeat split; auto; intros; exfalso; auto.
Qed.

End Budget.

(** What one call of [doRequest] may cost, whatever the network answers,
    whatever the context and whatever the state of the token: at most
    one request for a token, none when the token is valid, then at most
    [maxRetries + 1] requests of the API and at most [maxRetries] sleeps,
    each of the configured delay.  The clock advances by these sleeps and
    the file is not touched. *)
Theorem doRequest_budget
        (ctx : Ctx) (net : Api.Net) (c : Api.Client) (w : World)
        (method path : string) (body : option string) :
  let w' := snd (Api.doRequest ctx net method path body c w) in
  exists refresh evs,
    log w' = log w ++ refresh ++ evs
    /\ (refresh = [] \/ refresh = [Sent (Spec.tokenRequest c)])
    /\ (Api.accessToken c <> "" -> clock w < Api.tokenExpiry c -> refresh = [])
    /\ (sentCount evs <= Z.to_nat (Api.maxRetries c + 1))%nat
    /\ (Spec.sleptCount evs <= Z.to_nat (Api.maxRetries c))%nat
    /\ (forall d, In (Slept d) (refresh ++ evs) -> d = Api.retryDelay c)
    /\ clock w' = clock w + Z.max 0 (Api.retryDelay c) * Z.of_nat (Spec.sleptCount evs)
    /\ db w' = db w.
Proof.
  intros w'. subst w'. unfold Api.doRequest.
  destruct (ensureValidToken_log net c w)
    as (refresh & Hl & Hr & Hv & Hd & Hc & _ & Hmax & Hdelay & _).
  destruct (Api.ensureValidToken net c w) as [[terr c1] w1].
  cbn [fst snd] in *.
  assert (Hnap : forall d evs,
             Forall (fun e => e = Slept d -> d = Api.retryDelay c) evs ->
             In (Slept d) (refresh ++ evs) -> d = Api.retryDelay c).
  { intros d evs Hf Hin. apply in_app_or in Hin as [Hin | Hin].
    - destruct Hr as [-> | ->]; [destruct Hin |].
      destruct Hin as [Hin | []]. discriminate Hin.
    - rewrite Forall_forall in Hf. now apply (Hf (Slept d)). }
  destruct terr as [e |].
  - exists refresh, []. cbn [snd]. rewrite app_nil_r.
    split; [exact Hl |]. split; [exact Hr |]. split; [exact Hv |].
    split; [apply Nat.le_0_l |]. split; [apply Nat.le_0_l |].
    split; [intros d; rewrite <- (app_nil_r refresh) at 1; apply Hnap; constructor |].
    split; [unfold Spec.sleptCount; simpl; lia | exact Hd].
  - destruct (attempts_log ctx net (Z.to_nat (Api.maxRetries c1 + 1)) 0 c1 method
                (Api.baseURL c ++ path)%string body w1)
      as (evs & Hl2 & Hf & Hs & Hz & Hz0 & Hd2 & Hc2).
    destruct (Api.attempts ctx net _ 0 c1 method _ body w1) as [r w2].
    cbn [snd] in *.
    exists refresh, evs. rewrite Hmax, Hdelay in *.
    split; [rewrite Hl2, Hl; now rewrite app_assoc |].
    split; [exact Hr |]. split; [exact Hv |].
    split; [exact Hs |].
    split; [specialize (Hz0 eq_refl); lia |].
    split.
    { intros d. apply Hnap. eapply Forall_impl; [| exact Hf].
      intros ev [E | E] E'; congruence. }
    split; [rewrite Hc2, Hc; reflexivity | congruence].
Qed.

Lemma doRequest_returns (ctx : Ctx) (net : Api.Net) (c : Api.Client) (w : World)
      (method path : string) (body : option string) :
  0 <= Api.maxRetries c ->
  Spec.answered (fst (fst (Api.doRequest ctx net method path body c w))).
Proof.
  intros Hmax. unfold Api.doRequest.
  destruct (ensureValidToken_log net c w) as (_ & _ & _ & _ & _ & _ & _ & Hm & _).
  destruct (Api.ensureValidToken net c w) as [[terr c1] w1]. cbn [fst snd] in Hm.
  destruct terr as [e |]; [exact I |].
  pose proof (attempts_returns ctx net (Z.to_nat (Api.maxRetries c1 + 1)) 0 c1 method
                (Api.baseURL c ++ path)%string body w1) as H.
  destruct (Api.attempts ctx net _ 0 c1 method _ body w1) as [r w2].
  cbn [fst] in *. apply H; lia.
Qed.

(** A client whose [maxRetries] is not negative never panics. *)
Lemma client_answers (ctx : Ctx) (net : Api.Net) (c : Api.Client) (w : World) :
  0 <= Api.maxRetries c ->
  forall lastOID limit platform version,
    fst (fst (Api.GetDevices ctx net lastOID limit c w)) <> Panic
    /\ fst (fst (Api.GetVulnerabilities ctx net platform version c w)) <> Panic.
Proof.
  intros Hmax lastOID limit platform version. split.
  - unfold Api.GetDevices.
    match goal with
    | |- context [Api.doRequest ctx net ?m ?p ?b c w] =>
        pose proof (doRequest_returns ctx net c w m p b Hmax) as H;
        destruct (Api.doRequest ctx net m p b c w) as [[r c1] w1]
    end.
    cbn [fst] in *. destruct r as [[resp |] | e |]; try discriminate;
      try contradiction.
    destruct (Api.decodeDevices net (Body resp)); discriminate.
  - unfold Api.GetVulnerabilities.
    destruct (String.eqb version ""); [discriminate |].
    match goal with
    | |- context [match ?u with inl _ => _ | inr _ => _ end] =>
        destruct u as [e | url]; [discriminate |]
    end.
    pose proof (doRequest_returns ctx net c w "GET" url None Hmax) as H.
    destruct (Api.doRequest ctx net "GET" url None c w) as [[r c1] w1].
    cbn [fst] in *. destruct r as [[resp |] | e |]; try discriminate;
      try contradiction.
    destruct (Api.decodeVulnerabilities net (Body resp)); discriminate.
Qed.

(** The return after the loop of [doRequest], which hands back a nil
    response with a nil error, is reached exactly when [maxRetries] is
    negative.  With [maxRetries] at 0 or more, [GetDevices] and
    [GetVulnerabilities] never panic, whatever the network and the
    context.  With a negative [maxRetries] and a valid token,
    [GetDevices] panics on the nil response before any request is sent or
    the context polled. *)
Theorem nil_response_needs_negative_retries
        (ctx : Ctx) (net : Api.Net) (c : Api.Client) (w : World) :
  (0 <= Api.maxRetries c ->
   forall lastOID limit platform version,
     fst (fst (Api.GetDevices ctx net lastOID limit c w)) <> Panic
     /\ fst (fst (Api.GetVulnerabilities ctx net platform version c w)) <> Panic)
  /\ (Api.maxRetries c < 0 ->
      Api.accessToken c <> "" ->
      clock w < Api.tokenExpiry c ->
      forall lastOID limit,
        Api.GetDevices ctx net lastOID limit c w = (Panic, c, w)).
Proof.
  split.
  - apply client_answers.
  - intros Hneg Htok Hexp lastOID limit.
    unfold Api.GetDevices, Api.doRequest.
    rewrite ensureValidToken_valid by assumption.
    replace (Z.to_nat (Api.maxRetries c + 1)) with 0%nat by lia.
    reflexivity.
Qed.

(** A client with four turns and a client with none, on a network that
    answers 200 with a body that does not decode: the first gets an error,
    the second panics with nothing sent. *)
Lemma nil_response_needs_negative_retries_witness :
  fst (fst (Api.GetDevices Scenario.background
              (Scenario.constantNet (Scenario.status 200 "")) "" 1
              Scenario.client3 Scenario.world0)) <> Panic
  /\ Api.GetDevices Scenario.background
       (Scenario.constantNet (Scenario.status 200 "")) "" 1
       Scenario.careless Scenario.world0
     = (Panic, Scenario.careless, Scenario.world0).
Proof.
  split.
  - apply (proj1 (nil_response_needs_negative_retries Scenario.background
                    (Scenario.constantNet (Scenario.status 200 ""))
                    Scenario.client3 Scenario.world0)
             ltac:(discriminate) "" 1 "" "").
  - apply (proj2 (nil_response_needs_negative_retries Scenario.background
                    (Scenario.constantNet (Scenario.status 200 ""))
                    Scenario.careless Scenario.world0)).
    + reflexivity.
    + discriminate.
    + reflexivity.
Defined.

(** ** The client: the token *)

Lemma stale_invalid (c : Api.Client) (w : World) :
  Spec.stale c (clock w) ->
  negb (String.eqb (Api.accessToken c) "") && (clock w <? Api.tokenExpiry c) = false.
Proof.
  intros [H | H].
  - rewrite H. reflexivity.
  - replace (clock w <? Api.tokenExpiry c) with false
      by (symmetry; apply Z.ltb_ge; exact H).
    apply andb_false_r.
Qed.

(** With a stale token, the first request of a call asks for a token. *)
Lemma stale_token_first (ctx : Ctx) (net : Api.Net) (c : Api.Client) (w : World)
      (method path : string) (body : option string) :
  Spec.stale c (clock w) ->
  Api.newRequestErr net "POST" (Api.baseURL c ++ "/oauth2/token")%string = None ->
  exists evs,
    log (snd (Api.doRequest ctx net method path body c w))
    = log w ++ Sent (Spec.tokenRequest c) :: evs.
Proof.
  intros Hstale Hurl.
  unfold Api.doRequest, Api.ensureValidToken.
  rewrite (stale_invalid c w Hstale), Hurl. unfold send. fold (Spec.tokenRequest c).
  destruct (Api.transport net (sentCount (log w)) (Spec.tokenRequest c))
    as [msg | resp]; [now exists [] |].
  destruct (negb (StatusCode resp =? 200)); [now exists [] |].
  destruct (Api.decodeToken net (Body resp)) as [token |]; [| now exists []].
  set (c1 := Api.withToken c _ _).
  set (w1 := withLog w _).
  destruct (attempts_log ctx net (Z.to_nat (Api.maxRetries c1 + 1)) 0 c1 method
              (Api.baseURL c ++ path)%string body w1)
    as (evs & Hl & _).
  destruct (Api.attempts ctx net _ 0 c1 method _ body w1) as [r w2].
  cbn [snd] in *. exists evs.
  rewrite Hl. subst w1. cbn [log withLog]. now rewrite <- app_assoc.
Qed.

(** A call of [doRequest] with a stale token asks for a new one first,
    with the application key as its bearer.  When the answer is 200 and
    decodes, the client keeps the new token, with an expiry of the clock
    plus [expires_in] seconds, and every request of the API that follows
    in the call carries that new token.  Any other answer ends the call
    with an error after this single request: no request of the API is
    sent and the client is left as it was. *)
Theorem doRequest_refreshes_stale_token
        (ctx : Ctx) (net : Api.Net) (c : Api.Client) (w : World)
        (method path : string) (body : option string) :
  Spec.stale c (clock w) ->
  Api.newRequestErr net "POST" (Api.baseURL c ++ "/oauth2/token")%string = None ->
  exists r c' w' evs,
    Api.doRequest ctx net method path body c w = (r, c', w')
    /\ log w' = log w ++ Sent (Spec.tokenRequest c) :: evs
    /\ match Api.transport net (sentCount (log w)) (Spec.tokenRequest c) with
       | inl msg =>
           evs = [] /\ c' = c
           /\ r = Err (Wrapf "ensuring valid token"
                         (Wrapf "requesting token" (TransportErr msg)))
       | inr resp =>
           if StatusCode resp =? 200 then
             match Api.decodeToken net (Body resp) with
             | Some token =>
                 c' = Api.withToken c (Api.AccessToken token)
                        (clock w
                         + GoStrings.wrapInt (Api.ExpiresIn token * GoTime.Second))
                 /\ Forall
                      (Spec.ofLoop
                         {| Method := method;
                            URL := Api.baseURL c ++ path;
                            Authorization := "Bearer " ++ Api.AccessToken token;
                            Accept := "application/json";
                            ContentType := match body with
                                           | Some _ => Some "application/json"
                                           | None => None
                                           end |}
                         (Api.retryDelay c))
                      evs
             | None =>
                 evs = [] /\ c' = c
                 /\ r = Err (Wrapf "ensuring valid token"
                               (Wrapf "decoding token response" JSONErr))
             end
           else
             evs = [] /\ c' = c
             /\ r = Err (Wrapf "ensuring valid token"
                           (NewAPIError (StatusCode resp)
                              ("token request failed: " ++ Body resp) None))
       end.
Proof.
  intros Hstale Hurl.
  unfold Api.doRequest, Api.ensureValidToken.
  rewrite (stale_invalid c w Hstale), Hurl. unfold send. fold (Spec.tokenRequest c).
  destruct (Api.transport net (sentCount (log w)) (Spec.tokenRequest c))
    as [msg | resp].
  { eexists _, _, _, []. split; [reflexivity |]. split; [reflexivity |].
    repeat split. }
  destruct (StatusCode resp =? 200); cbn [negb].
  2:{ eexists _, _, _, []. split; [reflexivity |]. split; [reflexivity |].
      repeat split. }
  destruct (Api.decodeToken net (Body resp)) as [token |].
  2:{ eexists _, _, _, []. split; [reflexivity |]. split; [reflexivity |].
      repeat split. }
  set (c1 := Api.withToken c _ _).
  set (w1 := withLog w _).
  destruct (attempts_log ctx net (Z.to_nat (Api.maxRetries c1 + 1)) 0 c1 method
              (Api.baseURL c ++ path)%string body w1)
    as (evs & Hl & Hf & _).
  destruct (Api.attempts ctx net _ 0 c1 method _ body w1) as [r w2].
  cbn [snd] in Hl.
  exists r, c1, w2, evs.
  split; [reflexivity |].
  split; [rewrite Hl; subst w1; cbn [log withLog]; now rewrite <- app_assoc |].
  split; [reflexivity | exact Hf].
Qed.

(** A client without a token on a network that grants one and then
    answers 429: the call asks for the token, then spends its four
    attempts with the token it was granted. *)
Lemma doRequest_refreshes_stale_token_witness :
  exists r c' w' evs,
    Api.doRequest Scenario.background Scenario.grantingNet "GET" "/mra/api/v2/devices"
      None Scenario.fresh Scenario.world0 = (r, c', w')
    /\ log w' = Sent (Spec.tokenRequest Scenario.fresh) :: evs
    /\ Api.accessToken c' = "granted"
    /\ Api.tokenExpiry c' = clock Scenario.world0 + GoTime.Hour
    /\ sentCount evs = 4%nat.
Proof.
  destruct (doRequest_refreshes_stale_token Scenario.background Scenario.grantingNet
              Scenario.fresh Scenario.world0 "GET" "/mra/api/v2/devices" None)
    as (r & c' & w' & evs & H1 & H2 & H3).
  - left. reflexivity.
  - reflexivity.
  - exists r, c', w', evs. split; [exact H1 |]. split; [exact H2 |].
    cbn in H3. destruct H3 as [-> _].
    split; [reflexivity |]. split; [reflexivity |].
    assert (E : log w' = log (snd (Api.doRequest Scenario.background Scenario.grantingNet
                                    "GET" "/mra/api/v2/devices" None Scenario.fresh
                                    Scenario.world0)))
      by (now rewrite H1).
    rewrite H2 in E. vm_compute in E. injection E as ->. reflexivity.
Defined.

(** ** The configuration guards the client *)

Lemma validate_ok (args : list string) (c : Config.Config) :
  Config.validate args c = None ->
  (Config.ApplicationKey (Config.API c) = "" -> nth 1 args "" = "--local")
  /\ GoTime.Second <= Config.Timeout (Config.API c)
  /\ 0 <= Config.MaxRetries (Config.API c)
  /\ GoTime.Second <= Config.RetryDelay (Config.API c)
  /\ Config.Path (Config.Database c) <> ""
  /\ 1 <= Config.MaxConnections (Config.Database c)
  /\ 1 <= Config.WorkerCount (Config.App c)
  /\ 1 <= Config.BatchSize (Config.App c)
  /\ GoTime.Second <= Config.ShutdownTimeout (Config.App c).
Proof.
  unfold Config.validate.
  destruct (negb _ && String.eqb (Config.ApplicationKey (Config.API c)) "") eqn:Hkey;
    [discriminate |].
  destruct (Z.ltb_spec (Config.Timeout (Config.API c)) (1 * GoTime.Second));
    [discriminate |].
  destruct (Z.ltb_spec (Config.MaxRetries (Config.API c)) 0); [discriminate |].
  destruct (Z.ltb_spec (Config.RetryDelay (Config.API c)) (1 * GoTime.Second));
    [discriminate |].
  destruct (String.eqb_spec (Config.Path (Config.Database c)) ""); [discriminate |].
  destruct (Z.ltb_spec (Config.MaxConnections (Config.Database c)) 1); [discriminate |].
  destruct (negb (Config.isValidEnvironment _)); [discriminate |].
  destruct (negb (Config.isValidLogLevel _)); [discriminate |].
  destruct (Z.ltb_spec (Config.WorkerCount (Config.App c)) 1); [discriminate |].
  destruct (Z.ltb_spec (Config.BatchSize (Config.App c)) 1); [discriminate |].
  destruct (Z.ltb_spec (Config.ShutdownTimeout (Config.App c)) (1 * GoTime.Second));
    [discriminate |].
  intros _. repeat split; try lia; try assumption.
  intros Hempty. rewrite Hempty in Hkey. cbn [String.eqb] in Hkey.
  rewrite andb_true_r in Hkey. apply negb_false_iff in Hkey.
  apply andb_prop in Hkey as [_ Hkey]. now apply String.eqb_eq.
Qed.

(** A configuration that [Load] returns has passed the validation: its
    retries are not negative, its delays, batch size and worker count are
    at least one second or one, its path is not empty, and its
    application key is empty only when the process was started with
    [--local].  The client that [NewClient] builds from it therefore never
    panics in [GetDevices] or [GetVulnerabilities], whatever the network
    and the context, and since it starts without a token its first
    request, when one can be built, asks for a token with the application
    key. *)
Theorem Load_guards_the_client
        (ParseDuration : string -> option Z) (dotenv : option (error * bool))
        (env : Config.Env) (args : list string) (cfg : Config.Config) :
  Config.Load ParseDuration dotenv env args = Ok cfg ->
  let c := Api.NewClient (Config.API cfg) in
  (0 <= Api.maxRetries c
   /\ GoTime.Second <= Api.retryDelay c
   /\ 1 <= Config.BatchSize (Config.App cfg)
   /\ 1 <= Config.WorkerCount (Config.App cfg)
   /\ Config.Path (Config.Database cfg) <> ""
   /\ (Api.applicationKey c = "" -> nth 1 args "" = "--local"))
  /\ forall ctx net w lastOID limit platform version,
      fst (fst (Api.GetDevices ctx net lastOID limit c w)) <> Panic
      /\ fst (fst (Api.GetVulnerabilities ctx net platform version c w)) <> Panic
      /\ (Api.newRequestErr net "POST" (Api.baseURL c ++ "/oauth2/token")%string = None ->
          exists evs,
            log (snd (Api.GetDevices ctx net lastOID limit c w))
            = log w ++ Sent (Spec.tokenRequest c) :: evs).
Proof.
  intros Hload c. unfold Config.Load in Hload.
  assert (Hv : Config.validate args cfg = None).
  { destruct dotenv as [[err [|]] |]; try discriminate;
      match type of Hload with
      | match Config.validate args ?x with _ => _ end = _ =>
          destruct (Config.validate args x) eqn:E; [discriminate |];
          injection Hload as <-; exact E
      end. }
  apply validate_ok in Hv.
  destruct Hv as (Hkey & _ & Hmax & Hdelay & Hpath & _ & Hworkers & Hbatch & _).
  split; [repeat split; assumption |].
  intros ctx net w lastOID limit platform version.
  destruct (client_answers ctx net c w Hmax lastOID limit platform version)
    as [H1 H2].
  split; [exact H1 |]. split; [exact H2 |].
  intros Hurl. unfold Api.GetDevices.
  match goal with
  | |- context [Api.doRequest ctx net ?m ?p ?b c w] =>
      destruct (stale_token_first ctx net c w m p b) as (evs & Hlog);
      [left; reflexivity | exact Hurl |];
      destruct (Api.doRequest ctx net m p b c w) as [[r c'] w']
  end.
  exists evs. cbn [snd] in Hlog. rewrite <- Hlog.
  destruct r as [[resp |] | e |]; try reflexivity.
  destruct (Api.decodeDevices net (Body resp)); reflexivity.
Qed.

(** A process started with [--local], no [.env] file and an empty
    environment loads the defaults; the client built from them asks for a
    token first. *)
Lemma Load_guards_the_client_witness :
  Config.Load Scenario.noDuration (Some (Errorf "open .env: %s" "no such file", true))
    Scenario.emptyEnv ["scanner"; "--local"] = Ok Scenario.defaults
  /\ 0 <= Api.maxRetries (Api.NewClient (Config.API Scenario.defaults))
  /\ fst (fst (Api.GetDevices Scenario.background Scenario.grantingNet "" 1
                 (Api.NewClient (Config.API Scenario.defaults)) Scenario.world0))
     <> Panic.
Proof.
  destruct (Load_guards_the_client Scenario.noDuration
              (Some (Errorf "open .env: %s" "no such file", true))
              Scenario.emptyEnv ["scanner"; "--local"] Scenario.defaults)
    as [(H1 & _) H2].
  - reflexivity.
  - split; [reflexivity |]. split; [exact H1 |].
    apply (H2 Scenario.background Scenario.grantingNet Scenario.world0 "" 1 "" "").
Defined.

(** ** The update patterns: oldest and newest *)

Lemma insert_le_sorted (x : Z) (l : list Z) :
  StronglySorted Z.le l -> StronglySorted Z.le (Analyzer.insert Z.ltb x l).
Proof.
  induction l as [| y r IH]; simpl; intros Hs; [repeat constructor |].
  inversion Hs as [| ? ? Hr Hall]; subst.
  destruct (Z.ltb_spec y x) as [Hlt | Hge].
  - constructor; [now apply IH |].
    apply Forall_forall. intros z Hz. apply In_insert in Hz.
    destruct Hz as [-> | Hz]; [lia |].
    rewrite Forall_forall in Hall. now apply Hall.
  - constructor; [exact Hs |].
    constructor; [exact Hge |].
    rewrite Forall_forall in Hall. apply Forall_forall. intros z Hz.
    specialize (Hall z Hz). lia.
Qed.

Lemma sortSlice_le_sorted (l : list Z) :
  StronglySorted Z.le (Analyzer.sortSlice Z.ltb l).
Proof.
  induction l as [| x r IH]; simpl; [constructor | now apply insert_le_sorted].
Qed.

Lemma sorted_le_unique (l1 l2 : list Z) :
  StronglySorted Z.le l1 -> StronglySorted Z.le l2 -> Permutation l1 l2 -> l1 = l2.
Proof.
  revert l2. induction l1 as [| a r1 IH]; intros l2 H1 H2 Hp.
  - apply Permutation_nil in Hp. now subst.
  - destruct l2 as [| b r2].
    { apply Permutation_sym, Permutation_nil in Hp. discriminate. }
    inversion H1 as [| ? ? Hr1 Hall1]; subst.
    inversion H2 as [| ? ? Hr2 Hall2]; subst.
    rewrite Forall_forall in Hall1, Hall2.
    assert (Hab : a = b).
    { assert (Ha : In a (b :: r2)) by (eapply Permutation_in; [exact Hp | now left]).
      assert (Hb : In b (a :: r1))
        by (eapply Permutation_in; [symmetry; exact Hp | now left]).
      destruct Ha as [-> | Ha]; [reflexivity |].
      destruct Hb as [-> | Hb]; [reflexivity |].
      specialize (Hall1 b Hb). specialize (Hall2 a Ha). lia. }
    subst b. f_equal. apply IH; try assumption.
    eapply Permutation_cons_inv. exact Hp.
Qed.

Lemma sortSlice_le_perm (l l' : list Z) :
  Permutation l l' -> Analyzer.sortSlice Z.ltb l = Analyzer.sortSlice Z.ltb l'.
Proof.
  intros Hp. apply sorted_le_unique; try apply sortSlice_le_sorted.
  rewrite <- (sortSlice_perm Z Z.ltb l), <- (sortSlice_perm Z Z.ltb l'). exact Hp.
Qed.

Lemma last_nonempty (x : Z) (l : list Z) (d e : Z) :
  last (x :: l) d = last (x :: l) e.
Proof.
  revert x. induction l as [| y l IH]; intros x; [reflexivity |].
  change (last (x :: y :: l) d) with (last (y :: l) d).
  change (last (x :: y :: l) e) with (last (y :: l) e).
  apply IH.
Qed.

(** The ends of a sorted slice bound its elements and belong to it. *)
Lemma sorted_ends (d : Z) (r : list Z) :
  StronglySorted Z.le (d :: r) ->
  In (last (d :: r) d) (d :: r)
  /\ forall x, In x (d :: r) -> d <= x <= last (d :: r) d.
Proof.
  revert d. induction r as [| e r IH]; intros d Hs.
  - simpl. split; [now left |]. intros x [<- | []]. lia.
  - inversion Hs as [| ? ? Hr Hall]; subst.
    destruct (IH e Hr) as [Hin Hb].
    rewrite Forall_forall in Hall.
    assert (Hlast : last (d :: e :: r) d = last (e :: r) e).
    { change (last (d :: e :: r) d) with (last (e :: r) d). apply last_nonempty. }
    rewrite Hlast. split; [now right |].
    intros x [<- | Hx].
    + specialize (Hall _ Hin). lia.
    + specialize (Hb x Hx). specialize (Hall x Hx). lia.
Qed.

Lemma majorNumbers_perm (m m' : list (string * Z)) :
  Permutation m m' ->
  Permutation (Analyzer.majorNumbers m) (Analyzer.majorNumbers m').
Proof.
  induction 1 as [| [v n] l l' _ IH | [v n] [v' n'] l | l l' l'' _ IH1 _ IH2].
  - constructor.
  - cbn [Analyzer.majorNumbers].
    destruct (String.eqb _ ""); [exact IH |].
    destruct (GoStrings.Atoi _); [now constructor | exact IH].
  - cbn [Analyzer.majorNumbers].
    destruct (String.eqb (GoStrings.first (GoStrings.Split v' ".")) "");
      destruct (String.eqb (GoStrings.first (GoStrings.Split v ".")) "");
      try reflexivity;
      destruct (GoStrings.Atoi (GoStrings.first (GoStrings.Split v' ".")));
      destruct (GoStrings.Atoi (GoStrings.first (GoStrings.Split v ".")));
      try reflexivity.
    apply perm_swap.
  - now transitivity (Analyzer.majorNumbers l').
Qed.

Lemma parsedDates_perm (m m' : list (string * Z)) :
  Permutation m m' ->
  Permutation (Analyzer.parsedDates m) (Analyzer.parsedDates m').
Proof.
  induction 1 as [| [v n] l l' _ IH | [v n] [v' n'] l | l l' l'' _ IH1 _ IH2].
  - constructor.
  - cbn [Analyzer.parsedDates].
    destruct (GoTime.ParseDate v); [now constructor | exact IH].
  - cbn [Analyzer.parsedDates].
    destruct (GoTime.ParseDate v'); destruct (GoTime.ParseDate v); try reflexivity.
    apply perm_swap.
  - now transitivity (Analyzer.parsedDates l').
Qed.

(** The order in which the entries of the two maps of counts are visited,
    which Go leaves unspecified, does not show in the analysis: the update
    patterns and the version distributions are the same for every order
    of the same entries. *)
Theorem analysis_ignores_map_order (now : Z) (m m' : list (string * Z)) :
  NoDup (map fst m) ->
  Permutation m m' ->
  Analyzer.analyzeAndroidUpdatePatterns m = Analyzer.analyzeAndroidUpdatePatterns m'
  /\ Analyzer.analyzeIOSUpdatePatterns m = Analyzer.analyzeIOSUpdatePatterns m'
  /\ Analyzer.analyzeAndroidVersionDistribution now m
     = Analyzer.analyzeAndroidVersionDistribution now m'
  /\ Analyzer.analyzeIOSVersionDistribution m
     = Analyzer.analyzeIOSVersionDistribution m'.
Proof.
  intros Hnd Hp.
  split; [| split; [| split]].
  - unfold Analyzer.analyzeAndroidUpdatePatterns.
    rewrite (sortSlice_le_perm _ _ (parsedDates_perm m m' Hp)).
    destruct m as [| e r]; destruct m' as [| e' r']; try reflexivity.
    apply Permutation_nil in Hp. discriminate.
  - unfold Analyzer.analyzeIOSUpdatePatterns.
    rewrite (sortSlice_le_perm _ _ (majorNumbers_perm m m' Hp)).
    destruct m as [| e r]; destruct m' as [| e' r']; try reflexivity.
    apply Permutation_nil in Hp. discriminate.
  - now apply analyzeAndroidVersionDistribution_order.
  - now apply analyzeIOSVersionDistribution_order.
Qed.

(** Three iOS versions, visited in two orders. *)
Lemma analysis_ignores_map_order_witness :
  Analyzer.analyzeIOSUpdatePatterns [("16.1", 2); ("17.2", 1); ("14", 1)]
  = Analyzer.analyzeIOSUpdatePatterns [("14", 1); ("16.1", 2); ("17.2", 1)]
  /\ Analyzer.analyzeIOSVersionDistribution [("16.1", 2); ("17.2", 1); ("14", 1)]
     = Analyzer.analyzeIOSVersionDistribution [("14", 1); ("16.1", 2); ("17.2", 1)].
Proof.
  destruct (analysis_ignores_map_order 0
              [("16.1", 2); ("17.2", 1); ("14", 1)]
              [("14", 1); ("16.1", 2); ("17.2", 1)]) as (_ & H2 & _ & H4).
  - repeat constructor; simpl; intuition discriminate.
  - apply Permutation_sym.
    apply (Permutation_cons_app [("16.1", 2); ("17.2", 1)] [] ("14", 1)).
    rewrite app_nil_r. reflexivity.
  - split; [exact H2 | exact H4].
Defined.

(** The update patterns name the extremes.  [analyzeIOSUpdatePatterns]
    returns nil exactly when no version has a numeric major; otherwise
    its oldest and newest patch are the least and the greatest of these
    majors, its timespan is twelve months for each major between them,
    and it lists no gap.  [analyzeAndroidUpdatePatterns] returns nil
    exactly when no patch level is a date; otherwise its oldest and
    newest patch are the earliest and the latest of these dates, and its
    timespan is the months of thirty days between them. *)
Theorem update_patterns_name_the_extremes (entries : list (string * Z)) :
  match Analyzer.analyzeIOSUpdatePatterns entries with
  | None => Analyzer.majorNumbers entries = []
  | Some p =>
      exists oldest newest,
        In oldest (Analyzer.majorNumbers entries)
        /\ In newest (Analyzer.majorNumbers entries)
        /\ (forall n, In n (Analyzer.majorNumbers entries) -> oldest <= n <= newest)
        /\ Analyzer.OldestPatch p = ("iOS " ++ GoStrings.itoa oldest)%string
        /\ Analyzer.NewestPatch p = ("iOS " ++ GoStrings.itoa newest)%string
        /\ Analyzer.UpdateTimespan p = GoStrings.wrapInt ((newest - oldest) * 12)
        /\ Analyzer.UpdateGaps p = []
  end
  /\ match Analyzer.analyzeAndroidUpdatePatterns entries with
     | None => Analyzer.parsedDates entries = []
     | Some p =>
         exists oldest newest,
           In oldest (Analyzer.parsedDates entries)
           /\ In newest (Analyzer.parsedDates entries)
           /\ (forall t, In t (Analyzer.parsedDates entries) -> oldest <= t <= newest)
           /\ Analyzer.OldestPatch p = GoTime.FormatDate oldest
           /\ Analyzer.NewestPatch p = GoTime.FormatDate newest
           /\ Analyzer.UpdateTimespan p
              = GoTime.months30 (GoTime.Sub newest oldest)
     end.
Proof.
  assert (Hends : forall l : list Z,
             match Analyzer.sortSlice Z.ltb l with
             | [] => l = []
             | d :: r =>
                 In d l /\ In (last (d :: r) d) l
                 /\ forall x, In x l -> d <= x <= last (d :: r) d
             end).
  { intros l. pose proof (sortSlice_perm Z Z.ltb l) as Hp.
    pose proof (sortSlice_le_sorted l) as Hs.
    destruct (Analyzer.sortSlice Z.ltb l) as [| d r].
    - now apply Permutation_sym, Permutation_nil in Hp.
    - destruct (sorted_ends d r Hs) as [Hin Hb].
      split; [eapply Permutation_in; [symmetry; exact Hp | now left] |].
      split; [eapply Permutation_in; [symmetry; exact Hp | exact Hin] |].
      intros x Hx. apply Hb. eapply Permutation_in; [exact Hp | exact Hx]. }
  split.
  - unfold Analyzer.analyzeIOSUpdatePatterns.
    destruct entries as [| e entries]; [reflexivity |].
    specialize (Hends (Analyzer.majorNumbers (e :: entries))).
    destruct (Analyzer.sortSlice Z.ltb (Analyzer.majorNumbers (e :: entries)))
      as [| d r]; [exact Hends |].
    destruct Hends as (H1 & H2 & H3).
    exists d, (last (d :: r) d). repeat split; try assumption; apply H3; assumption.
  - unfold Analyzer.analyzeAndroidUpdatePatterns.
    destruct entries as [| e entries]; [reflexivity |].
    specialize (Hends (Analyzer.parsedDates (e :: entries))).
    destruct (Analyzer.sortSlice Z.ltb (Analyzer.parsedDates (e :: entries)))
      as [| d r]; [exact Hends |].
    destruct Hends as (H1 & H2 & H3).
    exists d, (last (d :: r) d). repeat split; try assumption; apply H3; assumption.
Qed.

(** ** The scans, and a cancelled context *)

Lemma Ascend_scan_filter (json : Device.Codec) (keep : Device.Device -> bool)
      (items : BuntDB.DB) (acc : list Device.Device) :
  BuntDB.Ascend (Device.scan json keep) items (filter keep acc)
  = filter keep (BuntDB.Ascend (Device.scan json (fun _ => true)) items acc).
Proof.
  revert acc. induction items as [| [k v] r IH]; intros acc; [reflexivity |].
  cbn [BuntDB.Ascend]. unfold Device.scan at 1 3.
  destruct (Device.unmarshal json v) as [d |]; [| reflexivity].
  rewrite <- IH, filter_app. cbn [filter].
  destruct (keep d); [reflexivity | now rewrite app_nil_r].
Qed.

(** On every file, whether or not its values decode, [GetByPlatform] and
    [GetActiveDevices] return the devices that [List] returns, filtered
    by platform and by the status ACTIVATED, in the order of [List]; they
    leave the same world.  The service's [GetDevicesByPlatform] does the
    same for a platform that is not empty and refuses the empty one
    without polling the context. *)
Theorem filtered_scans_filter_List
        (ctx : Ctx) (json : Device.Codec) (w : World) (platform : string) :
  let filtered (keep : Device.Device -> bool) :=
    match Device.List_ ctx json w with
    | (Ok devices, w') => (Ok (filter keep devices), w')
    | other => other
    end in
  Device.GetByPlatform ctx json platform w
  = filtered (fun d => String.eqb (Device.Platform d) platform)
  /\ Device.GetActiveDevices ctx json w
     = filtered (fun d => String.eqb (Device.ActivationStatus d) "ACTIVATED")
  /\ Device.GetDevicesByPlatform ctx json platform w
     = if String.eqb platform "" then (Err (Errorf "platform is required" ""), w)
       else filtered (fun d => String.eqb (Device.Platform d) platform).
Proof.
  intros filtered. subst filtered.
  unfold Device.GetDevicesByPlatform, Device.GetByPlatform, Device.GetActiveDevices,
    Device.List_, poll.
  destruct (ctx (polls w)).
  - repeat split.
  - cbn [fst snd].
    rewrite <- !(Ascend_scan_filter json _ (db (withPolls w (S (polls w)))) []).
    repeat split.
Qed.

(** Once the context is cancelled, no call of the service reads or writes
    the file: each returns the error of the context after a single poll,
    wrapped as the call wraps the errors of its first step. *)
Theorem cancelled_context_stops_the_service
        (ctx : Ctx) (json : Device.Codec) (w : World) :
  ctx (polls w) = true ->
  let w' := withPolls w (S (polls w)) in
  db w' = db w
  /\ (forall d,
         Device.validateDevice d = None ->
         Device.CreateDevice ctx json d w = (Some (Wrapf "saving device" CtxErr), w')
         /\ Device.UpdateDevice ctx json d w
            = (Some (Wrapf "getting existing device" CtxErr), w'))
  /\ (forall guid,
         guid <> "" ->
         Device.GetDevice ctx json guid w = (inl CtxErr, w')
         /\ Device.DeleteDevice ctx json guid w
            = (Some (Wrapf "getting device" CtxErr), w'))
  /\ Device.ListDevices ctx json w = (Err CtxErr, w')
  /\ Device.GetActiveDevices ctx json w = (Err CtxErr, w')
  /\ (forall platform,
         platform <> "" ->
         Device.GetDevicesByPlatform ctx json platform w = (Err CtxErr, w'))
  /\ Device.GetDeviceStatistics ctx json w = (Err (Wrapf "listing devices" CtxErr), w')
  /\ Analyzer.AnalyzeDevices ctx json w = (Err (Wrapf "listing devices" CtxErr), w').
Proof.
  intros Hctx w'. split; [reflexivity |].
  split.
  { intros d Hv. unfold Device.CreateDevice, Device.UpdateDevice, Device.Save,
      Device.Get, poll. rewrite Hv, Hctx. split; reflexivity. }
  split.
  { intros guid Hg. apply String.eqb_neq in Hg.
    unfold Device.GetDevice, Device.DeleteDevice, Device.Get, poll.
    rewrite Hg, Hctx. split; reflexivity. }
  unfold Analyzer.AnalyzeDevices, Device.GetDeviceStatistics, Device.ListDevices,
    Device.GetDevicesByPlatform, Device.GetByPlatform, Device.GetActiveDevices,
    Device.List_, poll.
  rewrite Hctx. repeat split.
  intros platform Hp. apply String.eqb_neq in Hp. now rewrite Hp.
Qed.

(** The file of the family under a context that is cancelled from the
    start: the watch cannot be deleted, and the file keeps its three
    records. *)
Lemma cancelled_context_stops_the_service_witness :
  Device.DeleteDevice (Scenario.cancelledFrom 0) Scenario.codec
    (Device.GUID Scenario.watch) Scenario.family
  = (Some (Wrapf "getting device" CtxErr),
     withPolls Scenario.family (S (polls Scenario.family)))
  /\ List.length (db (withPolls Scenario.family (S (polls Scenario.family)))) = 3%nat.
Proof.
  destruct (cancelled_context_stops_the_service (Scenario.cancelledFrom 0) Scenario.codec
              Scenario.family) as (H1 & _ & H3 & _).
  - reflexivity.
  - split; [apply H3; discriminate |]. rewrite H1. reflexivity.
Defined.

(** ** A run never removes a record *)

Lemma keeps_refl (d : BuntDB.DB) : Spec.keeps d d.
Proof. intros key H. exact H. Qed.

Lemma keeps_trans (d1 d2 d3 : BuntDB.DB) :
  Spec.keeps d1 d2 -> Spec.keeps d2 d3 -> Spec.keeps d1 d3.
Proof. intros H1 H2 key H. apply H2, H1, H. Qed.

Lemma keeps_Set (k v : string) (d : BuntDB.DB) : Spec.keeps d (BuntDB.Set_ k v d).
Proof.
  intros key H. destruct (String.eqb_spec key k) as [-> | Hne].
  - rewrite Get_Set_same. discriminate.
  - now rewrite Get_Set_other.
Qed.

Lemma keeps_eq (d d' : BuntDB.DB) : d' = d -> Spec.keeps d d'.
Proof. intros ->. apply keeps_refl. Qed.

Section Frame.

(** What the collaborators of [processDevices] preserve, the run
    preserves. *)
Variable S : Type.
Variable ctxDone : S -> bool * S.
Variable GetDevices : string -> Z -> S -> result Api.DevicesResponse * S.
Variable CreateDevice : Device.Device -> S -> option error * S.
Variable AnalyzeDevices : S -> result Analyzer.Analysis * S.
Variable BatchSize : Z.
Variable R : S -> S -> Prop.

Hypothesis R_refl : forall s, R s s.
Hypothesis R_trans : forall s1 s2 s3, R s1 s2 -> R s2 s3 -> R s1 s3.
Hypothesis R_ctxDone : forall s, R s (snd (ctxDone s)).
Hypothesis R_GetDevices : forall lastOID limit s, R s (snd (GetDevices lastOID limit s)).
Hypothesis R_CreateDevice : forall d s, R s (snd (CreateDevice d s)).
Hypothesis R_AnalyzeDevices : forall s, R s (snd (AnalyzeDevices s)).

Lemma runWorkers_frame (devices : list Api.Device) (s : S) :
  R s (snd (Main.runWorkers S CreateDevice devices s)).
Proof.
  revert s. induction devices as [| d r IH]; intros s; [apply R_refl |].
  cbn [Main.runWorkers]. unfold Main.worker.
  pose proof (R_CreateDevice (Main.toDevice d) s) as H1.
  destruct (CreateDevice (Main.toDevice d) s) as [e s1]. cbn [snd] in H1.
  assert (H2 : R s1 (snd (Main.runWorkers S CreateDevice r s1))) by apply IH.
  destruct e as [e |];
    destruct (Main.runWorkers S CreateDevice r s1) as [es s2];
    cbn [snd] in *; eapply R_trans; eassumption.
Qed.

Lemma pages_frame (fuel : nat) :
  forall lastOID processedCount totalDevices s r s' fetches,
    Main.pages S ctxDone GetDevices CreateDevice BatchSize fuel lastOID
      processedCount totalDevices s = Some (r, s', fetches) ->
    R s s'.
Proof.
  induction fuel as [| fuel IH];
    intros lastOID processedCount totalDevices s r s' fetches Hrun; [discriminate |].
  cbn [Main.pages] in Hrun.
  pose proof (R_ctxDone s) as H0.
  destruct (ctxDone s) as [done s0]. cbn [snd] in H0.
  destruct done; [injection Hrun as _ <- _; exact H0 |].
  pose proof (R_GetDevices lastOID BatchSize s0) as H1.
  destruct (GetDevices lastOID BatchSize s0) as [res s1]. cbn [snd] in H1.
  assert (H01 : R s s1) by (eapply R_trans; eassumption).
  destruct res as [devicesResp | e |];
    [| injection Hrun as _ <- _; exact H01 | injection Hrun as _ <- _; exact H01].
  destruct (_ || _); [injection Hrun as _ <- _; exact H01 |].
  pose proof (runWorkers_frame (Api.Devices devicesResp) s1) as H2.
  destruct (Main.runWorkers S CreateDevice (Api.Devices devicesResp) s1)
    as [reports s2]. cbn [snd] in H2.
  assert (H02 : R s s2) by (eapply R_trans; eassumption).
  destruct (Main.firstError reports); [injection Hrun as _ <- _; exact H02 |].
  match type of Hrun with
  | match ?p with _ => _ end = _ => destruct p as [[[r3 s3] fs] |] eqn:E;
                                    [| discriminate]
  end.
  injection Hrun as _ <- _. eapply R_trans; [exact H02 |]. eapply IH. exact E.
Qed.

Lemma processDevices_frame (fuel : nat) (s : S) r s' fetches :
  Main.processDevices S ctxDone GetDevices CreateDevice AnalyzeDevices BatchSize
    fuel s = Some (r, s', fetches) ->
  R s s'.
Proof.
  unfold Main.processDevices. intros Hrun.
  pose proof (R_GetDevices "" 1 s) as H1.
  destruct (GetDevices "" 1 s) as [res s1]. cbn [snd] in H1.
  destruct res as [initialResp | e |];
    [| injection Hrun as _ <- _; exact H1 | injection Hrun as _ <- _; exact H1].
  destruct (Main.pages S ctxDone GetDevices CreateDevice BatchSize fuel "" 0
              (Api.Count initialResp) s1) as [[[r2 s2] fs] |] eqn:E; [| discriminate].
  apply pages_frame in E.
  assert (H12 : R s s2) by (eapply R_trans; eassumption).
  destruct r2 as [n | e |];
    [| injection Hrun as _ <- _; exact H12 | injection Hrun as _ <- _; exact H12].
  pose proof (R_AnalyzeDevices s2) as H3.
  destruct (AnalyzeDevices s2) as [a s3]. cbn [snd] in H3.
  destruct a; injection Hrun as _ <- _; eapply R_trans; eassumption.
Qed.

End Frame.

Lemma doRequest_db (ctx : Ctx) (net : Api.Net) (c : Api.Client) (w : World)
      (method path : string) (body : option string) :
  db (snd (Api.doRequest ctx net method path body c w)) = db w.
Proof.
  unfold Api.doRequest.
  destruct (ensureValidToken_log net c w) as (_ & _ & _ & _ & Hd & _).
  destruct (Api.ensureValidToken net c w) as [[terr c1] w1]. cbn [fst snd] in Hd.
  destruct terr as [e |]; [exact Hd |].
  destruct (attempts_log ctx net (Z.to_nat (Api.maxRetries c1 + 1)) 0 c1 method
              (Api.baseURL c ++ path)%string body w1)
    as (evs & _ & _ & _ & _ & _ & Hd2 & _).
  destruct (Api.attempts ctx net _ 0 c1 method _ body w1) as [r w2].
  cbn [snd] in *. congruence.
Qed.

Lemma GetDevices_db (ctx : Ctx) (net : Api.Net) (c : Api.Client) (w : World)
      (lastOID : string) (limit : Z) :
  db (snd (Api.GetDevices ctx net lastOID limit c w)) = db w.
Proof.
  unfold Api.GetDevices.
  match goal with
  | |- context [Api.doRequest ctx net ?m ?p ?b c w] =>
      pose proof (doRequest_db ctx net c w m p b) as H;
      destruct (Api.doRequest ctx net m p b c w) as [[r c1] w1]
  end.
  cbn [snd] in *. destruct r as [[resp |] | e |]; try exact H.
  destruct (Api.decodeDevices net (Body resp)); exact H.
Qed.

Lemma CreateDevice_keeps_keys (ctx : Ctx) (json : Device.Codec)
      (d : Device.Device) (w : World) :
  Spec.keeps (db w) (db (snd (Device.CreateDevice ctx json d w))).
Proof.
  unfold Device.CreateDevice.
  destruct (Device.validateDevice d); [apply keeps_refl |].
  unfold Device.Save, poll.
  destruct (ctx (polls w)); [apply keeps_refl |]. cbn [fst snd].
  destruct (Device.marshal json _) as [data |]; [| apply keeps_refl].
  set (w1 := withDb _ _).
  assert (H1 : Spec.keeps (db w) (db w1)) by apply keeps_Set.
  destruct (negb _); [| exact H1].
  unfold Device.Get, poll.
  destruct (ctx (polls w1)); [exact H1 |]. cbn [fst snd].
  destruct (BuntDB.Get _ (db (withPolls w1 _))); [| exact H1].
  destruct (Device.unmarshal json _) as [parent |]; [| exact H1].
  unfold Device.Update, poll.
  match goal with
  | |- context [ctx (polls ?x)] => destruct (ctx (polls x)); [exact H1 |]
  end.
  cbn [fst snd].
  destruct (Device.marshal json _); [| exact H1].
  match goal with
  | |- context [BuntDB.Get ?k ?x] => destruct (BuntDB.Get k x); [| exact H1]
  end.
  cbn [snd db withDb]. eapply keeps_trans; [exact H1 | apply keeps_Set].
Qed.

Lemma AnalyzeDevices_db (ctx : Ctx) (json : Device.Codec) (w : World) :
  db (snd (Analyzer.AnalyzeDevices ctx json w)) = db w.
Proof.
  unfold Analyzer.AnalyzeDevices, Device.ListDevices, Device.List_, poll.
  destruct (ctx (polls w)); [reflexivity |].
  destruct (Analyzer.visitAll _ _ _); reflexivity.
Qed.

(** A run of the synchronisation never removes a record: whatever the
    network answers, whatever the context and however the run ends, every
    key the file held before the run is a key of the file after it. *)
Theorem run_never_removes
        (ctx : Ctx) (net : Api.Net) (json : Device.Codec) (BatchSize : Z)
        (fuel : nat) (c c' : Api.Client) (w w' : World)
        (r : result unit) (fetches : list Main.Fetch) :
  Main.run ctx net json BatchSize fuel (c, w) = Some (r, (c', w'), fetches) ->
  Spec.keeps (db w) (db w').
Proof.
  intros Hrun. unfold Main.run in Hrun.
  apply (processDevices_frame Main.State _ _ _ _ BatchSize
           (fun s s' => Spec.keeps (db (snd s)) (db (snd s')))) in Hrun;
    [exact Hrun | | | | | |].
  - intros s. apply keeps_refl.
  - intros s1 s2 s3. apply keeps_trans.
  - intros [c0 w0]. apply keeps_refl.
  - intros lastOID limit [c0 w0]. cbn [fst snd].
    pose proof (GetDevices_db ctx net c0 w0 lastOID limit) as H.
    destruct (Api.GetDevices ctx net lastOID limit c0 w0) as [[r0 c1] w1].
    cbn [snd] in *. now apply keeps_eq.
  - intros d [c0 w0]. cbn [fst snd].
    pose proof (CreateDevice_keeps_keys ctx json d w0) as H.
    destruct (Device.CreateDevice ctx json d w0) as [e w1]. exact H.
  - intros [c0 w0]. cbn [fst snd].
    pose proof (AnalyzeDevices_db ctx json w0) as H.
    destruct (Analyzer.AnalyzeDevices ctx json w0) as [a w1].
    cbn [snd] in *. now apply keeps_eq.
Qed.

(** The damaged file of three items is synchronised against the
    synthetic API: its three keys are keys of the file after the run. *)
Lemma run_never_removes_witness :
  exists r c' w' fetches,
    Main.run Scenario.background Scenario.syncNet Scenario.codec 2 4
      (Scenario.client3, Scenario.damaged) = Some (r, (c', w'), fetches)
    /\ Spec.keeps (db Scenario.damaged) (db w').
Proof.
  destruct (Main.run Scenario.background Scenario.syncNet Scenario.codec 2 4
              (Scenario.client3, Scenario.damaged))
    as [[[r [c' w']] fetches] |] eqn:E; [| vm_compute in E; discriminate].
  exists r, c', w', fetches. split; [reflexivity |].
  exact (run_never_removes Scenario.background Scenario.syncNet Scenario.codec 2 4
           Scenario.client3 c' Scenario.damaged w' r fetches E).
Defined.

(** ** What the calls of the API put on the wire *)

Lemma doRequest_valid_log (ctx : Ctx) (net : Api.Net) (c : Api.Client) (w : World)
      (method path : string) (body : option string) :
  Api.accessToken c <> "" ->
  clock w < Api.tokenExpiry c ->
  snd (fst (Api.doRequest ctx net method path body c w)) = c
  /\ exists evs,
      log (snd (Api.doRequest ctx net method path body c w)) = log w ++ evs
      /\ Forall (Spec.ofLoop (Api.apiRequest c method (Api.baseURL c ++ path) body)
                   (Api.retryDelay c)) evs.
Proof.
  intros Htok Hexp. unfold Api.doRequest.
  rewrite ensureValidToken_valid by assumption.
  destruct (attempts_log ctx net (Z.to_nat (Api.maxRetries c + 1)) 0 c method
              (Api.baseURL c ++ path)%string body w)
    as (evs & Hl & Hf & _).
  destruct (Api.attempts ctx net _ 0 c method _ body w) as [r w2].
  cbn [fst snd] in *. split; [reflexivity |]. now exists evs.
Qed.

(** With a valid token, [GetDevices] puts nothing on the wire but GET
    requests of the device list, with the limit in decimal, the cursor
    appended as it is when it is not empty, the token as bearer and no
    content type; [GetVulnerabilities] nothing but GET requests of the
    list of its platform with the version appended as it is.  Between
    them the calls only sleep the configured delay; the application key
    is not sent and the client is left as it was. *)
Theorem calls_send_only_their_request
        (ctx : Ctx) (net : Api.Net) (c : Api.Client) (w : World) :
  Api.accessToken c <> "" ->
  clock w < Api.tokenExpiry c ->
  let get (path : string) : Request :=
    {| Method := "GET"; URL := Api.baseURL c ++ path;
       Authorization := "Bearer " ++ Api.accessToken c;
       Accept := "application/json"; ContentType := None |} in
  (forall lastOID limit,
      snd (fst (Api.GetDevices ctx net lastOID limit c w)) = c
      /\ exists evs,
          log (snd (Api.GetDevices ctx net lastOID limit c w)) = log w ++ evs
          /\ Forall
               (Spec.ofLoop
                  (get (if String.eqb lastOID ""
                        then "/mra/api/v2/devices?limit=" ++ GoStrings.itoa limit
                        else ("/mra/api/v2/devices?limit=" ++ GoStrings.itoa limit)
                               ++ "&oid=" ++ lastOID)%string)
                  (Api.retryDelay c))
               evs)
  /\ (forall version,
         exists evs,
           log (snd (Api.GetVulnerabilities ctx net "IOS" version c w)) = log w ++ evs
           /\ Forall
                (Spec.ofLoop (get ("/mra/api/v2/os-vulns/ios?version=" ++ version)%string)
                   (Api.retryDelay c))
                evs)
  /\ (forall version,
         exists evs,
           log (snd (Api.GetVulnerabilities ctx net "ANDROID" version c w))
           = log w ++ evs
           /\ Forall
                (Spec.ofLoop (get ("/mra/api/v2/os-vulns/android?aspl=" ++ version)%string)
                   (Api.retryDelay c))
                evs).
Proof.
  intros Htok Hexp get.
  assert (Hnil : forall req, exists evs : list Event,
               log w = log w ++ evs /\ Forall (Spec.ofLoop req (Api.retryDelay c)) evs).
  { intros req. exists []. now rewrite app_nil_r. }
  split; [| split].
  - intros lastOID limit. unfold Api.GetDevices.
    match goal with
    | |- context [Api.doRequest ctx net ?m ?p ?b c w] =>
        destruct (doRequest_valid_log ctx net c w m p b Htok Hexp)
          as (Hc & evs & Hl & Hf);
        destruct (Api.doRequest ctx net m p b c w) as [[r c1] w1]
    end.
    cbn [fst snd] in *.
    assert (Hgoal : c1 = c /\ exists evs0,
                 log w1 = log w ++ evs0
                 /\ Forall
                      (Spec.ofLoop
                         (get (if String.eqb lastOID ""
                               then "/mra/api/v2/devices?limit=" ++ GoStrings.itoa limit
                               else ("/mra/api/v2/devices?limit=" ++ GoStrings.itoa limit)
                                      ++ "&oid=" ++ lastOID)%string)
                         (Api.retryDelay c)) evs0).
    { split; [exact Hc |]. exists evs. split; [exact Hl | exact Hf]. }
    destruct r as [[resp |] | e |]; try exact Hgoal.
    destruct (Api.decodeDevices net (Body resp)); exact Hgoal.
  - intros version. unfold Api.GetVulnerabilities.
    destruct (String.eqb version ""); [apply Hnil |].
    change (String.eqb "IOS" "ANDROID") with false.
    change (String.eqb "IOS" "IOS") with true. cbv iota.
    match goal with
    | |- context [Api.doRequest ctx net ?m ?p ?b c w] =>
        destruct (doRequest_valid_log ctx net c w m p b Htok Hexp)
          as (Hc & evs & Hl & Hf);
        destruct (Api.doRequest ctx net m p b c w) as [[r c1] w1]
    end.
    cbn [fst snd] in *.
    assert (Hgoal : exists evs0,
                 log w1 = log w ++ evs0
                 /\ Forall
                      (Spec.ofLoop
                         (get ("/mra/api/v2/os-vulns/ios?version=" ++ version)%string)
                         (Api.retryDelay c)) evs0).
    { exists evs. split; [exact Hl | exact Hf]. }
    destruct r as [[resp |] | e |]; try exact Hgoal.
    destruct (Api.decodeVulnerabilities net (Body resp)); exact Hgoal.
  - intros version. unfold Api.GetVulnerabilities.
    destruct (String.eqb version ""); [apply Hnil |].
    change (String.eqb "ANDROID" "ANDROID") with true. cbv iota.
    destruct (negb (GoStrings.Contains version "-")); [apply Hnil |].
    match goal with
    | |- context [Api.doRequest ctx net ?m ?p ?b c w] =>
        destruct (doRequest_valid_log ctx net c w m p b Htok Hexp)
          as (Hc & evs & Hl & Hf);
        destruct (Api.doRequest ctx net m p b c w) as [[r c1] w1]
    end.
    cbn [fst snd] in *.
    assert (Hgoal : exists evs0,
                 log w1 = log w ++ evs0
                 /\ Forall
                      (Spec.ofLoop
                         (get ("/mra/api/v2/os-vulns/android?aspl=" ++ version)%string)
                         (Api.retryDelay c)) evs0).
    { exists evs. split; [exact Hl | exact Hf]. }
    destruct r as [[resp |] | e |]; try exact Hgoal.
    destruct (Api.decodeVulnerabilities net (Body resp)); exact Hgoal.
Qed.

(** The second page is asked of a network that answers 429: the four
    attempts send the same GET request, with the cursor and the token of
    the client. *)
Lemma calls_send_only_their_request_witness :
  exists evs,
    log (snd (Api.GetDevices Scenario.background
                (Scenario.constantNet (Scenario.status 429 "slow down"))
                "1002" 2 Scenario.client3 Scenario.world0)) = evs
    /\ Forall
         (Spec.ofLoop
            {| Method := "GET";
               URL := "https://api.lookout.com/mra/api/v2/devices?limit=2&oid=1002";
               Authorization := "Bearer token";
               Accept := "application/json"; ContentType := None |}
            (5 * GoTime.Second))
         evs
    /\ sentCount evs = 4%nat.
Proof.
  destruct (calls_send_only_their_request Scenario.background
              (Scenario.constantNet (Scenario.status 429 "slow down"))
              Scenario.client3 Scenario.world0) as [H _].
  - discriminate.
  - reflexivity.
  - destruct (H "1002" 2) as (_ & evs & Hl & Hf).
    exists evs. split; [exact Hl |]. split; [exact Hf |].
    vm_compute in Hl. rewrite <- Hl. reflexivity.
Defined.

(** ** A run stores the pages it processed *)

Section Stored.

(** What a successful [CreateDevice] establishes and no collaborator
    undoes, holds after the run of every device of every page but the
    last one fetched. *)
Variable S : Type.
Variable ctxDone : S -> bool * S.
Variable GetDevices : string -> Z -> S -> result Api.DevicesResponse * S.
Variable CreateDevice : Device.Device -> S -> option error * S.
Variable AnalyzeDevices : S -> result Analyzer.Analysis * S.
Variable BatchSize : Z.
Variable stored : Device.Device -> S -> Prop.

Hypothesis stored_ctxDone : forall d s, stored d s -> stored d (snd (ctxDone s)).
Hypothesis stored_GetDevices :
  forall d lastOID limit s, stored d s -> stored d (snd (GetDevices lastOID limit s)).
Hypothesis stored_CreateDevice :
  forall d d' s, stored d s -> stored d (snd (CreateDevice d' s)).
Hypothesis stored_AnalyzeDevices :
  forall d s, stored d s -> stored d (snd (AnalyzeDevices s)).
Hypothesis CreateDevice_stores :
  forall d s, fst (CreateDevice d s) = None -> stored d (snd (CreateDevice d s)).

Let kept (s s' : S) : Prop := forall d, stored d s -> stored d s'.

Lemma runWorkers_stored (devices : list Api.Device) (s : S) :
  Main.firstError (fst (Main.runWorkers S CreateDevice devices s)) = None ->
  forall d, In d devices ->
            stored (Main.toDevice d) (snd (Main.runWorkers S CreateDevice devices s)).
Proof.
  revert s. induction devices as [| a r IH]; intros s Hok d Hin; [destruct Hin |].
  cbn [Main.runWorkers] in *. unfold Main.worker in *.
  pose proof (CreateDevice_stores (Main.toDevice a) s) as Hnew.
  destruct (CreateDevice (Main.toDevice a) s) as [e s1]. cbn [fst snd] in Hnew.
  pose proof (runWorkers_frame S CreateDevice kept
                (fun s d H => H)
                (fun s1 s2 s3 H12 H23 d H => H23 d (H12 d H))
                (fun d' s d H => stored_CreateDevice d d' s H) r s1) as Hkept.
  specialize (IH s1).
  destruct e as [e |];
    destruct (Main.runWorkers S CreateDevice r s1) as [es s2];
    cbn [fst snd Main.firstError] in *; [discriminate |].
  destruct Hin as [<- | Hin].
  - apply Hkept. now apply Hnew.
  - now apply IH.
Qed.

Lemma pages_stored (fuel : nat) :
  forall lastOID processedCount totalDevices s r s' fetches,
    Main.pages S ctxDone GetDevices CreateDevice BatchSize fuel lastOID
      processedCount totalDevices s = Some (r, s', fetches) ->
    forall f d, In f (removelast fetches) -> In d (Spec.page f) ->
                stored (Main.toDevice d) s'.
Proof.
  induction fuel as [| fuel IH];
    intros lastOID processedCount totalDevices s r s' fetches Hrun f d Hf Hd;
    [discriminate |].
  cbn [Main.pages] in Hrun.
  destruct (ctxDone s) as [done s0].
  destruct done; [injection Hrun as _ _ <-; destruct Hf |].
  destruct (GetDevices lastOID BatchSize s0) as [res s1].
  destruct res as [devicesResp | e |];
    [| injection Hrun as _ _ <-; destruct Hf | injection Hrun as _ _ <-; destruct Hf].
  destruct (_ || _); [injection Hrun as _ _ <-; destruct Hf |].
  pose proof (runWorkers_stored (Api.Devices devicesResp) s1) as Hw.
  destruct (Main.runWorkers S CreateDevice (Api.Devices devicesResp) s1)
    as [reports s2]. cbn [fst snd] in Hw.
  destruct (Main.firstError reports); [injection Hrun as _ _ <-; destruct Hf |].
  specialize (Hw eq_refl).
  match type of Hrun with
  | match ?p with _ => _ end = _ => destruct p as [[[r3 s3] fs] |] eqn:E;
                                    [| discriminate]
  end.
  injection Hrun as _ <- <-.
  pose proof (pages_frame S ctxDone GetDevices CreateDevice BatchSize kept
                (fun s d H => H)
                (fun s1 s2 s3 H12 H23 d H => H23 d (H12 d H))
                (fun s d H => stored_ctxDone d s H)
                (fun lastOID limit s d H => stored_GetDevices d lastOID limit s H)
                (fun d' s d H => stored_CreateDevice d d' s H)
                fuel _ _ _ _ _ _ _ E) as Hkept.
  destruct fs as [| f' fs'].
  - destruct Hf.
  - change (removelast (?a :: f' :: fs')) with (a :: removelast (f' :: fs')) in Hf.
    destruct Hf as [<- | Hf].
    + apply Hkept. apply Hw. exact Hd.
    + eapply IH; eassumption.
Qed.

Lemma processDevices_stored (fuel : nat) (s : S) r s' fetches :
  Main.processDevices S ctxDone GetDevices CreateDevice AnalyzeDevices BatchSize
    fuel s = Some (r, s', fetches) ->
  forall f d, In f (removelast fetches) -> In d (Spec.page f) ->
              stored (Main.toDevice d) s'.
Proof.
  unfold Main.processDevices. intros Hrun f d Hf Hd.
  destruct (GetDevices "" 1 s) as [res s1].
  destruct res as [initialResp | e |];
    [| injection Hrun as _ _ <-; destruct Hf | injection Hrun as _ _ <-; destruct Hf].
  destruct (Main.pages S ctxDone GetDevices CreateDevice BatchSize fuel "" 0
              (Api.Count initialResp) s1) as [[[r2 s2] fs] |] eqn:E; [| discriminate].
  pose proof (pages_stored fuel _ _ _ _ _ _ _ E) as Hst.
  destruct r2 as [n | e |];
    [| injection Hrun as _ <- <-; eapply Hst; eassumption
     | injection Hrun as _ <- <-; eapply Hst; eassumption].
  pose proof (stored_AnalyzeDevices (Main.toDevice d) s2) as Ha.
  destruct (AnalyzeDevices s2) as [a s3]. cbn [snd] in Ha.
  destruct a; injection Hrun as _ <- <-; apply Ha; eapply Hst; eassumption.
Qed.

End Stored.

Lemma CreateDevice_stores_device (ctx : Ctx) (json : Device.Codec)
      (d : Device.Device) (w : World) :
  fst (Device.CreateDevice ctx json d w) = None ->
  BuntDB.Get (Device.GUID d) (db (snd (Device.CreateDevice ctx json d w))) <> None.
Proof.
  intros Hok.
  assert (Hsave : fst (Device.Save ctx json d w) = None
                  /\ Spec.keeps (db (snd (Device.Save ctx json d w)))
                       (db (snd (Device.CreateDevice ctx json d w)))).
  { revert Hok. unfold Device.CreateDevice.
    destruct (Device.validateDevice d); [discriminate |].
    destruct (Device.Save ctx json d w) as [[e |] w1] eqn:Es; [discriminate |].
    intros Hok. split; [reflexivity |]. cbn [snd].
    destruct (negb _); [| apply keeps_refl].
    unfold Device.Get, poll.
    destruct (ctx (polls w1)); [apply keeps_refl |]. cbn [fst snd].
    destruct (BuntDB.Get _ (db (withPolls w1 _))); [| apply keeps_refl].
    destruct (Device.unmarshal json _) as [parent |]; [| apply keeps_refl].
    unfold Device.Update, poll.
    match goal with
    | |- context [ctx (polls ?x)] => destruct (ctx (polls x)); [apply keeps_refl |]
    end.
    cbn [fst snd].
    destruct (Device.marshal json _); [| apply keeps_refl].
    match goal with
    | |- context [BuntDB.Get ?k ?x] => destruct (BuntDB.Get k x); [| apply keeps_refl]
    end.
    cbn [snd db withDb]. apply keeps_Set. }
  destruct Hsave as [Hs Hk]. apply Hk.
  revert Hs. unfold Device.Save, poll.
  destruct (ctx (polls w)); [discriminate |]. cbn [fst snd].
  destruct (Device.marshal json _) as [data |]; [| discriminate].
  intros _. cbn [snd db withDb].
  change (Device.GUID (Device.withLastUpdated d (clock (withPolls w (S (polls w))))))
    with (Device.GUID d).
  rewrite Get_Set_same. discriminate.
Qed.

(** A run of the synchronisation stores the pages it processed: however
    the run ends, every device of every page fetched before the last one
    has a record under its guid in the file the run leaves. *)
Theorem run_stores_processed_pages
        (ctx : Ctx) (net : Api.Net) (json : Device.Codec) (BatchSize : Z)
        (fuel : nat) (c c' : Api.Client) (w w' : World)
        (r : result unit) (fetches : list Main.Fetch) :
  Main.run ctx net json BatchSize fuel (c, w) = Some (r, (c', w'), fetches) ->
  forall f d,
    In f (removelast fetches) -> In d (Spec.page f) ->
    BuntDB.Get (Api.GUID d) (db w') <> None.
Proof.
  intros Hrun f d Hf Hd. unfold Main.run in Hrun.
  apply (processDevices_stored Main.State _ _ _ _ BatchSize
           (fun d s => BuntDB.Get (Device.GUID d) (db (snd s)) <> None))
    with (f := f) (d := d) in Hrun; try assumption.
  - intros d0 [c0 w0] H. exact H.
  - intros d0 lastOID limit [c0 w0] H. cbn [fst snd] in *.
    pose proof (GetDevices_db ctx net c0 w0 lastOID limit) as E.
    destruct (Api.GetDevices ctx net lastOID limit c0 w0) as [[r0 c1] w1].
    cbn [snd] in *. now rewrite E.
  - intros d0 d1 [c0 w0] H. cbn [fst snd] in *.
    pose proof (CreateDevice_keeps_keys ctx json d1 w0 _ H) as K.
    destruct (Device.CreateDevice ctx json d1 w0) as [e w1]. exact K.
  - intros d0 [c0 w0] H. cbn [fst snd] in *.
    pose proof (AnalyzeDevices_db ctx json w0) as E.
    destruct (Analyzer.AnalyzeDevices ctx json w0) as [a w1].
    cbn [snd] in *. now rewrite E.
  - intros d0 [c0 w0] H. cbn [fst snd] in *.
    pose proof (CreateDevice_stores_device ctx json d0 w0) as K.
    destruct (Device.CreateDevice ctx json d0 w0) as [e w1].
    cbn [fst snd] in *. now apply K.
Qed.

(** The synthetic API serves two pages of two devices and an empty one:
    after the run the four devices are in the file. *)
Lemma run_stores_processed_pages_witness :
  exists r c' w' fetches,
    Main.run Scenario.background Scenario.syncNet Scenario.codec 2 4
      (Scenario.client3, Scenario.world0) = Some (r, (c', w'), fetches)
    /\ map Main.cursor (removelast fetches) = [""; "1002"]%string
    /\ forall f d,
        In f (removelast fetches) -> In d (Spec.page f) ->
        BuntDB.Get (Api.GUID d) (db w') <> None.
Proof.
  destruct (Main.run Scenario.background Scenario.syncNet Scenario.codec 2 4
              (Scenario.client3, Scenario.world0))
    as [[[r [c' w']] fetches] |] eqn:E; [| vm_compute in E; discriminate].
  exists r, c', w', fetches. split; [reflexivity |].
  split.
  - vm_compute in E. injection E as _ _ _ <-. reflexivity.
  - exact (run_stores_processed_pages Scenario.background Scenario.syncNet
             Scenario.codec 2 4 Scenario.client3 c' Scenario.world0 w' r fetches E).
Defined.

(** ** The client: a context cancelled between attempts *)

Section Cancelled.

Variable ctx : Ctx.
Variable net : Api.Net.
Variable c : Api.Client.
Variable method url : string.
Variable body : option string.

Hypothesis url_ok : Api.newRequestErr net method url = None.

Lemma attempts_cancelled (k : nat) :
  forall (attempt : Z) (w : World),
    0 <= attempt ->
    attempt + Z.of_nat k <= Api.maxRetries c ->
    (forall i, (i < k)%nat -> ctx (polls w + i)%nat = false) ->
    ctx (polls w + k)%nat = true ->
    (forall i, (i < k)%nat ->
               Spec.retryable
                 (Api.transport net (sentCount (log w) + i)%nat
                    (Api.apiRequest c method url body)) = true) ->
    exists w',
      Api.attempts ctx net (Z.to_nat (Api.maxRetries c + 1 - attempt))
        attempt c method url body w = (Err CtxErr, w')
      /\ sentCount (log w') = (sentCount (log w) + k)%nat
      /\ Spec.sleptCount (log w')
         = (Spec.sleptCount (log w) + if (0 <? attempt)%Z then k else Nat.pred k)%nat
      /\ polls w' = S (polls w + k)
      /\ db w' = db w.
Proof.
  induction k as [| k IH]; intros attempt w Hatt Hmax Hlive Hdone Hretry.
  - replace (Z.to_nat (Api.maxRetries c + 1 - attempt))
      with (S (Z.to_nat (Api.maxRetries c - attempt))) by lia.
    cbn [Api.attempts]. unfold poll. rewrite Nat.add_0_r in Hdone. rewrite Hdone.
    eexists. split; [reflexivity |]. cbn [log polls db withPolls].
    rewrite !Nat.add_0_r. destruct (0 <? attempt); repeat split; lia.
  - replace (Z.to_nat (Api.maxRetries c + 1 - attempt))
      with (S (Z.to_nat (Api.maxRetries c + 1 - (attempt + 1)))) by lia.
    cbn [Api.attempts]. unfold poll.
    pose proof (Hlive 0%nat ltac:(lia)) as H0. rewrite Nat.add_0_r in H0. rewrite H0.
    rewrite url_ok. unfold send.
    set (req := Api.apiRequest c method url body) in *.
    set (w0 := withPolls w (S (polls w))).
    set (w1 := if 0 <? attempt then sleep (Api.retryDelay c) w0 else w0).
    assert (Hlog1 : log w1 = log w ++ (if 0 <? attempt
                                       then [Slept (Api.retryDelay c)] else [])).
    { subst w1 w0. destruct (0 <? attempt); simpl; [reflexivity | now rewrite app_nil_r]. }
    assert (Hpolls1 : polls w1 = S (polls w)) by (subst w1 w0; now destruct (0 <? attempt)).
    assert (Hdb1 : db w1 = db w) by (subst w1 w0; now destruct (0 <? attempt)).
    assert (Hsent1 : sentCount (log w1) = sentCount (log w)).
    { rewrite Hlog1, sentCount_app. unfold sentCount.
      destruct (0 <? attempt); simpl; lia. }
    assert (Hslept1 : Spec.sleptCount (log w1)
                      = (Spec.sleptCount (log w) + if (0 <? attempt)%Z then 1 else 0)%nat).
    { rewrite Hlog1, sleptCount_app. unfold Spec.sleptCount.
      destruct (0 <? attempt); simpl; lia. }
    rewrite Hsent1.
    set (w2 := withLog w1 (log w1 ++ [Sent req])).
    assert (Hsent2 : sentCount (log w2) = S (sentCount (log w))).
    { subst w2. cbn [log withLog]. rewrite sentCount_app, Hsent1.
      change (sentCount [Sent req]) with 1%nat. lia. }
    assert (Hslept2 : Spec.sleptCount (log w2) = Spec.sleptCount (log w1)).
    { subst w2. cbn [log withLog]. rewrite sleptCount_app.
      change (Spec.sleptCount [Sent req]) with 0%nat. lia. }
    assert (Hne : (attempt =? Api.maxRetries c) = false) by (apply Z.eqb_neq; lia).
    destruct (IH (attempt + 1) w2) as (w' & Hrun & Hs & Hz & Hp & Hd).
    + lia.
    + lia.
    + intros i Hi. subst w2. cbn [polls withLog]. rewrite Hpolls1.
      replace (S (polls w) + i)%nat with (polls w + S i)%nat by lia.
      apply Hlive. lia.
    + subst w2. cbn [polls withLog]. rewrite Hpolls1.
      replace (S (polls w) + k)%nat with (polls w + S k)%nat by lia. exact Hdone.
    + intros i Hi. rewrite Hsent2.
      replace (S (sentCount (log w)) + i)%nat with (sentCount (log w) + S i)%nat by lia.
      apply Hretry. lia.
    + exists w'.
      pose proof (Hretry 0%nat ltac:(lia)) as Hr0. rewrite Nat.add_0_r in Hr0.
      unfold Spec.retryable in Hr0.
      split.
      { destruct (Api.transport net (sentCount (log w)) req) as [e | resp].
        - rewrite Hne. exact Hrun.
        - rewrite Hr0, Hne. exact Hrun. }
      split; [rewrite Hs, Hsent2; lia |].
      split.
      { rewrite Hz, Hslept2, Hslept1.
        replace (0 <? attempt + 1) with true by (symmetry; apply Z.ltb_lt; lia).
        destruct (0 <? attempt); cbn [Nat.pred]; lia. }
      split; [rewrite Hp; subst w2; cbn [polls withLog]; rewrite Hpolls1; lia |].
      rewrite Hd. subst w2. cbn [db withLog]. exact Hdb1.
Qed.

End Cancelled.

(** The retry loop looks at the context once before each attempt, and
    nowhere else.  With a valid token and a well-formed request, when the
    context is found live at the first [k] polls and cancelled at the next
    one, and the [k] outcomes so far were transport failures or responses
    of status 429, [doRequest] returns the bare error of the context
    after [k] requests and [k - 1] sleeps, without touching the file. *)
Theorem doRequest_cancelled_between_attempts
        (ctx : Ctx) (net : Api.Net) (c : Api.Client) (w : World)
        (method path : string) (body : option string) (k : nat) :
  let url := (Api.baseURL c ++ path)%string in
  let req := Api.apiRequest c method url body in
  Api.accessToken c <> "" ->
  clock w < Api.tokenExpiry c ->
  Api.newRequestErr net method url = None ->
  Z.of_nat k <= Api.maxRetries c ->
  (forall i, (i < k)%nat -> ctx (polls w + i)%nat = false) ->
  ctx (polls w + k)%nat = true ->
  (forall i, (i < k)%nat ->
             Spec.retryable (Api.transport net (sentCount (log w) + i)%nat req) = true) ->
  exists w',
    Api.doRequest ctx net method path body c w = (Err CtxErr, c, w')
    /\ sentCount (log w') = (sentCount (log w) + k)%nat
    /\ Spec.sleptCount (log w') = (Spec.sleptCount (log w) + Nat.pred k)%nat
    /\ polls w' = S (polls w + k)
    /\ db w' = db w.
Proof.
  intros url req Htok Hexp Hurl Hk Hlive Hdone Hretry.
  destruct (attempts_cancelled ctx net c method url body Hurl k 0 w)
    as (w' & Hrun & Hs & Hz & Hp & Hd); try assumption; try lia.
  exists w'. split.
  { unfold Api.doRequest. rewrite ensureValidToken_valid by assumption.
    fold url. rewrite Z.sub_0_r in Hrun. now rewrite Hrun. }
  repeat split; assumption.
Qed.

(** A network that only answers 429, and a context cancelled at its
    third poll: two requests are sent, with one sleep between them. *)
Lemma doRequest_cancelled_between_attempts_witness :
  exists w',
    Api.doRequest (Scenario.cancelledFrom 2)
      (Scenario.constantNet (Scenario.status 429 "slow down"))
      "GET" "/mra/api/v2/devices?limit=2" None Scenario.client3 Scenario.world0
    = (Err CtxErr, Scenario.client3, w')
    /\ sentCount (log w') = 2%nat
    /\ Spec.sleptCount (log w') = 1%nat.
Proof.
  destruct (doRequest_cancelled_between_attempts (Scenario.cancelledFrom 2)
              (Scenario.constantNet (Scenario.status 429 "slow down"))
              Scenario.client3 Scenario.world0
              "GET" "/mra/api/v2/devices?limit=2" None 2)
    as (w' & H1 & H2 & H3 & _).
  - discriminate.
  - reflexivity.
  - reflexivity.
  - discriminate.
  - intros i Hi. destruct i as [| [| i]]; [reflexivity | reflexivity | lia].
  - reflexivity.
  - intros i Hi. reflexivity.
  - exists w'. split; [exact H1 |]. split; [exact H2 | exact H3].
Defined.
